(** * yt-automation: staged video pipeline

    A shallow embedding of the Python agents of the repository
    (validators, timeline generator, LLM editing agent, segment cutters and the
    pipeline driver of [main.py]) together with the properties stated about
    them in the specification.

    Python values are embedded as they come out of [json.load]; Python floats
    are the binary64 primitive floats of Rocq, so float arithmetic in the
    model is bit-for-bit the arithmetic of the interpreter. *)

From Stdlib Require Import ZArith Floats SpecFloat QArith.
From Stdlib Require Import Ascii String DecimalString.
From stdpp Require Import base option list gmap strings.
From Equations Require Import Equations.

Set Warnings "-register-all,-inexact-float".

Local Open Scope string_scope.
Local Open Scope Z_scope.

(** ** Python exceptions *)

Module Py.

(** The exception classes that occur in the agents. [Exception_] is Python's
    [Exception]; [SystemExit] and [KeyboardInterrupt] derive from
    [BaseException] only, so that [except Exception] lets them through. *)
Inductive pyclass : Set :=
| BaseException_ | Exception_
| SystemExit | KeyboardInterrupt
| OSError | FileNotFoundError | RequestException
| ValueError | JSONDecodeError
| RuntimeError | TypeError | KeyError
| OverflowError | ZeroDivisionError
| CalledProcessError
| FfmpegError.

Definition pyclass_eqb (c d : pyclass) : bool :=
  match c, d with
  | BaseException_, BaseException_ | Exception_, Exception_
  | SystemExit, SystemExit | KeyboardInterrupt, KeyboardInterrupt
  | OSError, OSError | FileNotFoundError, FileNotFoundError
  | RequestException, RequestException
  | ValueError, ValueError | JSONDecodeError, JSONDecodeError
  | RuntimeError, RuntimeError | TypeError, TypeError | KeyError, KeyError
  | OverflowError, OverflowError | ZeroDivisionError, ZeroDivisionError
  | CalledProcessError, CalledProcessError
  | FfmpegError, FfmpegError => true
  | _, _ => false
  end.

(** Method resolution order of each class (the class itself first).
    [requests.exceptions.RequestException] derives from [IOError], which is
    [OSError]; [json.JSONDecodeError] derives from [ValueError]. *)
Definition mro (c : pyclass) : list pyclass :=
  match c with
  | BaseException_ => [BaseException_]
  | Exception_ => [Exception_; BaseException_]
  | SystemExit => [SystemExit; BaseException_]
  | KeyboardInterrupt => [KeyboardInterrupt; BaseException_]
  | OSError => [OSError; Exception_; BaseException_]
  | FileNotFoundError => [FileNotFoundError; OSError; Exception_; BaseException_]
  | RequestException => [RequestException; OSError; Exception_; BaseException_]
  | ValueError => [ValueError; Exception_; BaseException_]
  | JSONDecodeError => [JSONDecodeError; ValueError; Exception_; BaseException_]
  | RuntimeError => [RuntimeError; Exception_; BaseException_]
  | TypeError => [TypeError; Exception_; BaseException_]
  | KeyError => [KeyError; Exception_; BaseException_]
  | OverflowError => [OverflowError; Exception_; BaseException_]
  | ZeroDivisionError => [ZeroDivisionError; Exception_; BaseException_]
  | CalledProcessError => [CalledProcessError; Exception_; BaseException_]
  | FfmpegError => [FfmpegError; Exception_; BaseException_]
  end.

(** A raised exception: its class, [str(e)] and, for a
    [subprocess.CalledProcessError], the captured [e.stderr]. *)
Record exn : Set := MkExn { exn_class : pyclass; exn_str : string; exn_stderr : string }.

Definition Exn (c : pyclass) (msg : string) : exn := MkExn c msg "".

(** [isinstance(e, c)], the test an [except c] clause performs. *)
Definition isinstance_exn (e : exn) (c : pyclass) : bool :=
  existsb (pyclass_eqb c) (mro (exn_class e)).

(** Outcome of evaluating a Python expression: a value or a raised exception. *)
Inductive result (A : Type) : Type :=
| Ok (a : A)
| Raise (e : exn).
Arguments Ok {A} a.
Arguments Raise {A} e.

Definition raise {A} (c : pyclass) (msg : string) : result A := Raise (Exn c msg).

Definition rbind {A B} (m : result A) (k : A -> result B) : result B :=
  match m with
  | Ok a => k a
  | Raise e => Raise e
  end.

End Py.
Export Py.

Declare Scope py_scope.
Delimit Scope py_scope with py.
Notation "'let*' x ':=' m 'in' k" := (rbind m (fun x => k))
  (at level 10, x pattern, m at level 100, k at level 200, only parsing) : py_scope.
Local Open Scope py_scope.
Local Open Scope Z_scope.

(** ** Python numbers

    [json.load] produces [int] (unbounded) and [float] (binary64) numbers;
    [bool] is a subclass of [int] and takes part in arithmetic as 0 or 1. *)

Module PyNum.

Inductive pynum : Set :=
| NInt (z : Z)
| NFloat (f : float).

(** The exact value a finite float denotes is [m * 2^e]. *)
Inductive xval : Set :=
| XNaN
| XInf (neg : bool)
| XFin (m e : Z).

Definition sf_val (sf : spec_float) : xval :=
  match sf with
  | S754_nan => XNaN
  | S754_infinity s => XInf s
  | S754_zero _ => XFin 0 0
  | S754_finite s m e => XFin (if s then Z.neg m else Z.pos m) e
  end.

Definition float_val (f : float) : xval := sf_val (Prim2SF f).

Definition num_val (n : pynum) : xval :=
  match n with
  | NInt z => XFin z 0
  | NFloat f => float_val f
  end.

(** Comparison of two exact values; [None] when one of them is NaN. *)
Definition xcompare (a b : xval) : option comparison :=
  match a, b with
  | XNaN, _ | _, XNaN => None
  | XInf s1, XInf s2 =>
      Some (match s1, s2 with
            | true, false => Lt
            | false, true => Gt
            | _, _ => Eq
            end)
  | XInf s, XFin _ _ => Some (if s then Lt else Gt)
  | XFin _ _, XInf s => Some (if s then Gt else Lt)
  | XFin m1 e1, XFin m2 e2 =>
      let e := Z.min e1 e2 in
      Some (Z.compare (m1 * 2 ^ (e1 - e)) (m2 * 2 ^ (e2 - e)))
  end.

(** [a <= b] and [a < b] on Python numbers. Python compares an [int] with a
    [float] by value, without rounding the [int]; for two floats this is the
    IEEE comparison (NaN is unordered, [-0.0 == 0.0]). *)
Definition num_le (a b : pynum) : bool :=
  match xcompare (num_val a) (num_val b) with
  | Some Lt | Some Eq => true
  | _ => false
  end.

Definition num_lt (a b : pynum) : bool :=
  match xcompare (num_val a) (num_val b) with
  | Some Lt => true
  | _ => false
  end.

(** [float(z)] for an [int]: round to nearest even, [OverflowError] when the
    rounded value does not fit binary64. *)
Definition float_of_int (z : Z) : result float :=
  match binary_normalize prec emax z 0 false with
  | S754_infinity _ => raise OverflowError "int too large to convert to float"
  | sf => Ok (SF2Prim sf)
  end.

Definition to_float (n : pynum) : result float :=
  match n with
  | NInt z => float_of_int z
  | NFloat f => Ok f
  end.

(** Binary arithmetic: [int op int] stays an exact [int], any float operand
    converts the other one to float first. *)
Definition num_sub (a b : pynum) : result pynum :=
  match a, b with
  | NInt x, NInt y => Ok (NInt (x - y))
  | _, _ =>
      let* x := to_float a in
      let* y := to_float b in
      Ok (NFloat (x - y)%float)
  end.

Definition num_add (a b : pynum) : result pynum :=
  match a, b with
  | NInt x, NInt y => Ok (NInt (x + y))
  | _, _ =>
      let* x := to_float a in
      let* y := to_float b in
      Ok (NFloat (x + y)%float)
  end.

Definition num_mul (a b : pynum) : result pynum :=
  match a, b with
  | NInt x, NInt y => Ok (NInt (x * y))
  | _, _ =>
      let* x := to_float a in
      let* y := to_float b in
      Ok (NFloat (x * y)%float)
  end.

(** True division [a / b]. On two ints CPython divides the operands as
    doubles whenever both are exactly representable (at most 2^53 in absolute
    value), which is the case for every width, height and frame-rate component
    a media probe reports; this is the path embedded here. *)
Definition num_truediv (a b : pynum) : result pynum :=
  let* x := to_float a in
  let* y := to_float b in
  match float_val y with
  | XFin 0 _ =>
      raise ZeroDivisionError
        (match a, b with
         | NInt _, NInt _ => "division by zero"
         | _, _ => "float division by zero"
         end)
  | _ => Ok (NFloat (x / y)%float)
  end.

(** [int(x)]: truncation toward zero. *)
Definition int_of_float (f : float) : result Z :=
  match float_val f with
  | XNaN => raise ValueError "cannot convert float NaN to integer"
  | XInf _ => raise OverflowError "cannot convert float infinity to integer"
  | XFin m e => Ok (if 0 <=? e then m * 2 ^ e else Z.quot m (2 ^ (- e)))
  end.

Definition py_int (n : pynum) : result Z :=
  match n with
  | NInt z => Ok z
  | NFloat f => int_of_float f
  end.

(** [str(z)] for an [int]. *)
Definition str_of_int (z : Z) : string := NilZero.string_of_int (Z.to_int z).

End PyNum.
Export PyNum.

(** ** Python values as produced by [json.load] *)

Module PyVal.

Inductive pyval : Type :=
| PNone
| PBool (b : bool)
| PInt (z : Z)
| PFloat (f : float)
| PStr (s : string)
| PList (l : list pyval)
| PDict (d : list (string * pyval)).

(** A [dict] with string keys is kept as an association list in insertion
    order; a key is bound at most once in a Python dict, and lookup below
    returns the first binding. *)
Fixpoint dict_get (k : string) (d : list (string * pyval)) : option pyval :=
  match d with
  | [] => None
  | (k', v) :: d' => if String.eqb k k' then Some v else dict_get k d'
  end.

(** [d[k] = v]: overwrite in place, or append a new binding. *)
Fixpoint dict_set (k : string) (v : pyval) (d : list (string * pyval))
  : list (string * pyval) :=
  match d with
  | [] => [(k, v)]
  | (k', v') :: d' =>
      if String.eqb k k' then (k', v) :: d' else (k', v') :: dict_set k v d'
  end.

(** [isinstance(v, (int, float))]; a [bool] is an [int]. *)
Definition as_num (v : pyval) : option pynum :=
  match v with
  | PBool b => Some (NInt (if b then 1 else 0))
  | PInt z => Some (NInt z)
  | PFloat f => Some (NFloat f)
  | _ => None
  end.

Definition of_num (n : pynum) : pyval :=
  match n with
  | NInt z => PInt z
  | NFloat f => PFloat f
  end.

Definition type_name (v : pyval) : string :=
  match v with
  | PNone => "NoneType"
  | PBool _ => "bool"
  | PInt _ => "int"
  | PFloat _ => "float"
  | PStr _ => "str"
  | PList _ => "list"
  | PDict _ => "dict"
  end.

(** [p in s] on strings: [p] occurs as a contiguous substring of [s]. *)
Fixpoint is_substring (p s : string) : bool :=
  String.prefix p s ||
  match s with
  | EmptyString => false
  | String _ s' => is_substring p s'
  end.

(** [x == PStr k] for an arbitrary value [x]. *)
Definition eq_str (k : string) (x : pyval) : bool :=
  match x with
  | PStr s => String.eqb s k
  | _ => false
  end.

(** [key in v] for a string [key]: key membership on a dict, substring test on
    a str, element membership on a list, [TypeError] on anything else. *)
Definition py_contains (key : string) (v : pyval) : result bool :=
  match v with
  | PDict d => Ok (bool_decide (is_Some (dict_get key d)))
  | PStr s => Ok (is_substring key s)
  | PList l => Ok (existsb (eq_str key) l)
  | _ => raise TypeError ("argument of type '" ++ type_name v ++ "' is not iterable")
  end.

(** [v[key]] for a string [key]. *)
Definition py_getitem (v : pyval) (key : string) : result pyval :=
  match v with
  | PDict d =>
      match dict_get key d with
      | Some x => Ok x
      | None => raise KeyError ("'" ++ key ++ "'")
      end
  | PStr _ => raise TypeError "string indices must be integers, not 'str'"
  | PList _ => raise TypeError "list indices must be integers or slices, not str"
  | _ => raise TypeError ("'" ++ type_name v ++ "' object is not subscriptable")
  end.

(** [all(key in v for key in keys)]: the generator stops at the first key
    that is absent, and an exception of [in] escapes. *)
Fixpoint all_keys_in (keys : list string) (v : pyval) : result bool :=
  match keys with
  | [] => Ok true
  | k :: ks =>
      let* b := py_contains k v in
      if b then all_keys_in ks v else Ok false
  end.

(** Whitespace for [str.strip()] among the code points below 256. *)
Definition is_space (c : ascii) : bool :=
  let n := N_of_ascii c in
  ((9 <=? n) && (n <=? 13) || (28 <=? n) && (n <=? 32) || (n =? 133) || (n =? 160))%N.

Fixpoint lstrip (s : string) : string :=
  match s with
  | EmptyString => EmptyString
  | String c s' => if is_space c then lstrip s' else s
  end.

Fixpoint string_rev_onto (s acc : string) : string :=
  match s with
  | EmptyString => acc
  | String c s' => string_rev_onto s' (String c acc)
  end.

Definition string_rev (s : string) : string := string_rev_onto s EmptyString.

Definition rstrip (s : string) : string := string_rev (lstrip (string_rev s)).

Definition strip (s : string) : string := rstrip (lstrip s).

(** Truth value of a str: non-empty. *)
Definition str_truthy (s : string) : bool :=
  match s with
  | EmptyString => false
  | String _ _ => true
  end.

End PyVal.
Export PyVal.

(** ** Strings and paths *)

Module PyStr.

(** [s.endswith(suffix)] *)
Definition endswith (s suffix : string) : bool :=
  String.prefix (string_rev suffix) (string_rev s).

Fixpoint drop_chars (n : nat) (s : string) : string :=
  match n, s with
  | O, _ => s
  | S n', String _ s' => drop_chars n' s'
  | S _, EmptyString => EmptyString
  end.

(** [s.replace(old, new)] for a non-empty [old]: every non-overlapping
    occurrence, scanning from the left. The fuel is the length of [s]. *)
Fixpoint replace_fuel (fuel : nat) (old new s : string) : string :=
  match fuel with
  | O => s
  | S fuel' =>
      match s with
      | EmptyString => EmptyString
      | String c s' =>
          if String.prefix old s
          then new ++ replace_fuel (fuel' - (String.length old - 1))%nat old new
                        (drop_chars (String.length old) s)
          else String c (replace_fuel fuel' old new s')
      end
  end.

Definition replace (s old new : string) : string :=
  replace_fuel (String.length s) old new s.

(** [os.path.join(folder, name)] on POSIX for a relative [name]. *)
Definition path_join (folder name : string) : string :=
  if str_truthy folder && negb (endswith folder "/")
  then folder ++ "/" ++ name
  else folder ++ name.

(** Position of the last occurrence of [c] in [s], counted from 0. *)
Fixpoint rfind_from (c : ascii) (s : string) (i : nat) (last : option nat) : option nat :=
  match s with
  | EmptyString => last
  | String c' s' =>
      rfind_from c s' (S i) (if Ascii.eqb c c' then Some i else last)
  end.

Definition rfind (c : ascii) (s : string) : option nat := rfind_from c s O None.

Definition all_dots (s : string) : bool :=
  forallb (fun c => Ascii.eqb c ".") (list_ascii_of_string s).

(** [os.path.splitext(p)]: the extension starts at the last dot of the last
    path component, unless only dots precede it in that component. *)
Definition splitext (p : string) : string * string :=
  match rfind "." p with
  | None => (p, "")
  | Some dot =>
      let base_start := match rfind "/" p with Some i => S i | None => O end in
      if (base_start <=? dot)%nat
         && negb (all_dots (String.substring base_start (dot - base_start) p))
      then (String.substring 0 dot p, drop_chars dot p)
      else (p, "")
  end.

(** [os.path.basename] and [os.path.dirname] on POSIX. *)
Definition basename (p : string) : string :=
  match rfind "/" p with
  | Some i => drop_chars (S i) p
  | None => p
  end.

End PyStr.
Export PyStr.

(** ** The world the agents act on *)

Module World.

(** An [xml.etree.ElementTree] element: tag, attributes in insertion order,
    children in document order. *)
Inductive element : Type :=
| Element (tag : string) (attrib : list (string * string)) (children : list element).

Definition el_tag (e : element) : string := let 'Element t _ _ := e in t.
Definition el_attrib (e : element) : list (string * string) := let 'Element _ a _ := e in a.
Definition el_children (e : element) : list element := let 'Element _ _ c := e in c.

(** [e.get(name)] *)
Fixpoint attr_get (name : string) (a : list (string * string)) : option string :=
  match a with
  | [] => None
  | (k, v) :: a' => if String.eqb name k then Some v else attr_get name a'
  end.

(** [e.find(tag)]: first child with that tag. *)
Definition find_child (tag : string) (e : element) : option element :=
  List.find (fun c => String.eqb tag (el_tag c)) (el_children e).

(** What a file holds. Media and model files are opaque. *)
Inductive content : Type :=
| JsonDoc (v : pyval)
| XmlDoc (root : element)
| TextDoc (lines : list string)
| WavDoc (slices : list (Z * Z))
| Blob (label : string).

Inductive level : Set := DEBUG | INFO | WARNING | ERROR.

(** Calls that leave the process, in the order they were made. *)
Inductive io_event : Type :=
| EvPost (url : string) (body : pyval)
| EvSleep (seconds : Z)
| EvRun (cmd : list string).

(** - [fs]: the files that exist, by path;
    - [dirs]: the directories that exist;
    - [protected]: paths that cannot be opened for writing;
    - [logs]: records emitted through [logging], oldest first;
    - [trace]: external calls made so far, oldest first;
    - [tick]: number of external interactions so far, the only thing on which
      the answer of an external capability may depend besides its arguments
      and the files. *)
Record world : Type := mkWorld {
  fs : gmap string content;
  dirs : gset string;
  protected : gset string;
  logs : list (level * string);
  trace : list io_event;
  tick : nat
}.

Definition with_fs (w : world) (f : gmap string content) : world :=
  mkWorld f (dirs w) (protected w) (logs w) (trace w) (tick w).
Definition with_dirs (w : world) (d : gset string) : world :=
  mkWorld (fs w) d (protected w) (logs w) (trace w) (tick w).
Definition add_log (w : world) (r : level * string) : world :=
  mkWorld (fs w) (dirs w) (protected w) (logs w ++ [r]) (trace w) (tick w).
Definition add_event (w : world) (ev : io_event) : world :=
  mkWorld (fs w) (dirs w) (protected w) (logs w) (trace w ++ [ev]) (S (tick w)).
Definition step_tick (w : world) : world :=
  mkWorld (fs w) (dirs w) (protected w) (logs w) (trace w) (S (tick w)).

(** A Python statement or call: it ends normally with a value or raises, and
    either way leaves a world behind. *)
Definition M (A : Type) : Type := world -> result A * world.

Definition ret {A} (a : A) : M A := fun w => (Ok a, w).

Definition bind {A B} (m : M A) (k : A -> M B) : M B :=
  fun w =>
    match m w with
    | (Ok a, w') => k a w'
    | (Raise e, w') => (Raise e, w')
    end.

Definition throw {A} (c : pyclass) (msg : string) : M A :=
  fun w => (raise c msg, w).

Definition reraise {A} (e : exn) : M A := fun w => (Raise e, w).

(** Lift a pure evaluation. *)
Definition lift {A} (r : result A) : M A := fun w => (r, w).

(** [try: body  except c1 as e: h1 e  except c2 as e: h2 e ...]: the first
    clause whose class the exception is an instance of handles it; what a
    handler raises is not offered to the other clauses. *)
Definition try_except {A} (body : M A) (handlers : list (pyclass * (exn -> M A))) : M A :=
  fun w =>
    match body w with
    | (Ok a, w') => (Ok a, w')
    | (Raise e, w') =>
        match List.find (fun h => isinstance_exn e (fst h)) handlers with
        | Some h => snd h e w'
        | None => (Raise e, w')
        end
    end.

(** [try: body  finally: fin]: [fin] always runs; an exception leaving [fin]
    replaces whatever [body] returned or raised. *)
Definition try_finally {A} (body : M A) (fin : M unit) : M A :=
  fun w =>
    match body w with
    | (r, w') =>
        match fin w' with
        | (Ok _, w'') => (r, w'')
        | (Raise e, w'') => (Raise e, w'')
        end
    end.

(** [for x in l: f x] *)
Fixpoint for_each {A} (l : list A) (f : A -> M unit) : M unit :=
  match l with
  | [] => ret tt
  | x :: l' => bind (f x) (fun _ => for_each l' f)
  end.

(** [for i, x in enumerate(l): f i x], counting from [i]. *)
Fixpoint for_enumerate {A} (i : Z) (l : list A) (f : Z -> A -> M unit) : M unit :=
  match l with
  | [] => ret tt
  | x :: l' => bind (f i x) (fun _ => for_enumerate (i + 1) l' f)
  end.

(** [logger.info(msg)] and the like. *)
Definition log_msg (lv : level) (msg : string) : M unit :=
  fun w => (Ok tt, add_log w (lv, msg)).

(** [os.path.exists(p)]: a file or a directory. *)
Definition path_exists (p : string) : M bool :=
  fun w => (Ok (bool_decide (is_Some (fs w !! p)) || bool_decide (p ∈ dirs w)), w).

(** [open(p, "w")] followed by writing [c] and closing. *)
Definition write_file (p : string) (c : content) : M unit :=
  fun w =>
    if bool_decide (p ∈ protected w)
    then (raise OSError ("[Errno 13] Permission denied: '" ++ p ++ "'"), w)
    else (Ok tt, with_fs w (<[p := c]> (fs w))).

(** [with open(p, "r") as f: json.load(f)] *)
Definition read_json (p : string) : M pyval :=
  fun w =>
    match fs w !! p with
    | None => (raise FileNotFoundError ("[Errno 2] No such file or directory: '" ++ p ++ "'"), w)
    | Some (JsonDoc v) => (Ok v, w)
    | Some _ => (raise JSONDecodeError "Expecting value: line 1 column 1 (char 0)", w)
    end.

(** [os.remove(p)] *)
Definition remove_file (p : string) : M unit :=
  fun w =>
    match fs w !! p with
    | None => (raise FileNotFoundError ("[Errno 2] No such file or directory: '" ++ p ++ "'"), w)
    | Some _ => (Ok tt, with_fs w (delete p (fs w)))
    end.

(** [os.makedirs(p, exist_ok=True)] *)
Definition makedirs (p : string) : M unit :=
  fun w => (Ok tt, with_dirs w ({[p]} ∪ dirs w)).

(** [os.rmdir(p)]: refuses a directory that still holds a file. *)
Definition rmdir (p : string) : M unit :=
  fun w =>
    if bool_decide (p ∈ dirs w) then
      if existsb (fun k => String.prefix (p ++ "/") k) (map fst (map_to_list (fs w)))
      then (raise OSError ("[Errno 39] Directory not empty: '" ++ p ++ "'"), w)
      else (Ok tt, with_dirs w (dirs w ∖ {[p]}))
    else (raise FileNotFoundError ("[Errno 2] No such file or directory: '" ++ p ++ "'"), w).

End World.
Export World.

Notation "x <- m ;; k" := (bind m (fun x => k))
  (at level 100, m at level 99, k at level 200, only parsing) : py_scope.
Notation "m ;; k" := (bind m (fun _ => k))
  (at level 100, k at level 200, only parsing) : py_scope.

(** [if not self.log_base_dir]: [None] and the empty string are both falsy. *)
Definition dir_configured (d : option string) : option string :=
  match d with
  | Some s => if str_truthy s then Some s else None
  | None => None
  end.

(** The JSON document a decision log holds. *)
Definition decision_entry (file_name stage reason : string) (timestamp : option string) : pyval :=
  PDict ([("file", PStr file_name); ("stage", PStr stage); ("decision", PStr reason)]
         ++ match timestamp with
            | Some ts => [("timestamp", PStr ts)]
            | None => []
            end).

(** An external capability answers from its arguments and the current world;
    each call counts as one interaction. *)
Definition call_ext {A} (f : world -> result A) : M A :=
  fun w => (f w, step_tick w).

(** ** agents/transcriber_agent.py *)

Module TranscriberAgent.

Record self : Type := {
  audio_input_folder : string;
  output_folder : string;
  model_size : string;
  log_base_dir : option string
}.

Section Agent.

(** [asctime]: the formatted current time; [listdir]: [os.listdir];
    [transcribe]: [WhisperModel.transcribe] fully iterated, one
    [(start, end, text)] per recognised segment. *)
Variable asctime : world -> string.
Variable listdir : string -> world -> result (list string).
Variable transcribe : string -> world -> result (list (float * float * string)).
Variable me : self.

Definition log_decision (file_name reason : string) : M unit :=
  match dir_configured (log_base_dir me) with
  | None => ret tt
  | Some dir =>
      let log_path := path_join dir (fst (splitext file_name) ++ "_transcribe.json") in
      try_except
        (fun w =>
           write_file log_path
             (JsonDoc (decision_entry file_name "transcribe" reason (Some (asctime w)))) w)
        [(Exception_,
          fun e => log_msg ERROR ("Failed to write decision log: " ++ exn_str e))]
  end.

(** The loop of [validate_transcript] from segment number [i] on. Each
    [return False] is preceded by the [logger.error] call of the source. The
    source subscripts [segment] again for the comparison; subscripting is
    deterministic, so the values read for the [isinstance] tests are reused. *)
Fixpoint check_segments (i : Z) (segments : list pyval) : M bool :=
  match segments with
  | [] => ret true
  | segment :: rest =>
      has <- lift (all_keys_in ["start"; "end"; "text"] segment) ;;
      if negb has then
        log_msg ERROR ("Segment " ++ str_of_int i ++ " missing required keys") ;;
        ret false
      else
        st <- lift (py_getitem segment "start") ;;
        match as_num st with
        | None =>
            log_msg ERROR ("Segment " ++ str_of_int i ++ " has invalid start/end types") ;;
            ret false
        | Some s =>
            en <- lift (py_getitem segment "end") ;;
            match as_num en with
            | None =>
                log_msg ERROR ("Segment " ++ str_of_int i ++ " has invalid start/end types") ;;
                ret false
            | Some e =>
                if num_le e s then
                  log_msg ERROR ("Segment " ++ str_of_int i ++ " has invalid time range") ;;
                  ret false
                else
                  tx <- lift (py_getitem segment "text") ;;
                  match tx with
                  | PStr t =>
                      if str_truthy (strip t) then check_segments (i + 1) rest
                      else
                        log_msg ERROR ("Segment " ++ str_of_int i ++ " has invalid or empty text") ;;
                        ret false
                  | _ =>
                      log_msg ERROR ("Segment " ++ str_of_int i ++ " has invalid or empty text") ;;
                      ret false
                  end
            end
        end
  end.

Definition validate_transcript (transcript : pyval) : M bool :=
  match transcript with
  | PDict d =>
      match dict_get "segments" d with
      | None => log_msg ERROR "Transcript missing 'segments' key" ;; ret false
      | Some (PList []) => log_msg ERROR "Transcript segments list is empty" ;; ret false
      | Some (PList segments) => check_segments 0 segments
      | Some _ => log_msg ERROR "Transcript segments is not a list" ;; ret false
      end
  | _ => log_msg ERROR "Transcript is not a dictionary" ;; ret false
  end.

Definition whisper_segment (s : float * float * string) : pyval :=
  let '(st, en, text) := s in
  PDict [("start", PFloat st); ("end", PFloat en); ("text", PStr (strip text))].

Definition transcribe_audio (audio_path : string) : M pyval :=
  try_except
    (log_msg INFO ("Starting transcription of " ++ audio_path) ;;
     segments <- call_ext (transcribe audio_path) ;;
     let transcript := PDict [("segments", PList (map whisper_segment segments))] in
     ok <- validate_transcript transcript ;;
     if negb ok then throw ValueError "Generated transcript failed validation"
     else
       log_msg INFO ("Successfully transcribed " ++ audio_path) ;;
       ret transcript)
    [(Exception_,
      fun e => log_msg ERROR ("Transcription failed: " ++ exn_str e) ;; reraise e)].

Definition on_error (file_name prefix : string) (e : exn) : M unit :=
  let error_msg := prefix ++ exn_str e in
  log_msg ERROR ("Processing " ++ file_name ++ ": " ++ error_msg) ;;
  log_decision file_name error_msg.

(** The [try] block of [process_file]. *)
Definition process_file_try (file_name : string) : M unit :=
  let base_name := fst (splitext file_name) in
  let audio_path := path_join (audio_input_folder me) (base_name ++ "_clean.wav") in
  let output_path := path_join (output_folder me) (base_name ++ "_transcript.json") in
  found <- path_exists audio_path ;;
  if negb found
  then throw FileNotFoundError ("Cleaned audio file not found: " ++ audio_path)
  else
    log_msg INFO ("Processing " ++ file_name) ;;
    transcript <- transcribe_audio audio_path ;;
    write_file output_path (JsonDoc transcript) ;;
    log_decision file_name "success" ;;
    log_msg INFO ("Successfully processed " ++ file_name).

Definition process_file (file_name : string) : M unit :=
  try_except (process_file_try file_name)
    [(FileNotFoundError, on_error file_name "File not found: ");
     (ValueError, on_error file_name "Invalid data: ");
     (Exception_, on_error file_name "Unexpected error: ")].

Definition run : M unit :=
  try_except
    (names <- call_ext (listdir (audio_input_folder me)) ;;
     let wav_files := List.filter (fun f => endswith f "_clean.wav") names in
     match wav_files with
     | [] => log_msg WARNING "No audio files found to process"
     | _ =>
         for_each wav_files
           (fun wav_file => process_file (replace wav_file "_clean.wav" ".mp4"))
     end)
    [(Exception_,
      fun e => log_msg ERROR ("Failed to process audio folder: " ++ exn_str e) ;; reraise e)].

End Agent.
End TranscriberAgent.

(** ** agents/editor_agent.py *)

Module LLMEditingAgent.

Record self : Type := {
  transcript_input_folder : string;
  output_folder : string;
  model_name : string;
  log_base_dir : option string;
  timeout : Z;
  max_retries : Z;
  ollama_url : string
}.

Section Agent.

(** [post url body timeout]: [requests.post(url, json=body, timeout=timeout)]
    followed by [raise_for_status()] and [.json()]; what it raises for a
    transport or HTTP failure is a [RequestException].
    [py_repr]: [str(v)] of a value that is not a [str]. *)
Variable asctime : world -> string.
Variable listdir : string -> world -> result (list string).
Variable post : string -> pyval -> Z -> world -> result pyval.
Variable py_repr : pyval -> string.
Variable me : self.

Definition log_decision (file_name reason : string) : M unit :=
  match dir_configured (log_base_dir me) with
  | None => ret tt
  | Some dir =>
      let log_path := path_join dir (fst (splitext file_name) ++ "_llm_editing.json") in
      try_except
        (fun w =>
           write_file log_path
             (JsonDoc (decision_entry file_name "llm_editing" reason (Some (asctime w)))) w)
        [(Exception_,
          fun e => log_msg ERROR ("Failed to write decision log: " ++ exn_str e))]
  end.

Fixpoint check_segments (i : Z) (segments : list pyval) : M bool :=
  match segments with
  | [] => ret true
  | segment :: rest =>
      has <- lift (all_keys_in ["start"; "end"; "text"] segment) ;;
      if negb has then
        log_msg ERROR ("Segment " ++ str_of_int i ++ " missing required keys") ;;
        ret false
      else
        st <- lift (py_getitem segment "start") ;;
        match as_num st with
        | None =>
            log_msg ERROR ("Segment " ++ str_of_int i ++ " has invalid start/end types") ;;
            ret false
        | Some s =>
            en <- lift (py_getitem segment "end") ;;
            match as_num en with
            | None =>
                log_msg ERROR ("Segment " ++ str_of_int i ++ " has invalid start/end types") ;;
                ret false
            | Some e =>
                if num_le e s then
                  log_msg ERROR ("Segment " ++ str_of_int i ++ " has invalid time range") ;;
                  ret false
                else check_segments (i + 1) rest
            end
        end
  end.

Definition validate_transcript (transcript : pyval) : M bool :=
  match transcript with
  | PDict d =>
      match dict_get "segments" d with
      | None => log_msg ERROR "Transcript missing 'segments' key" ;; ret false
      | Some (PList []) => log_msg ERROR "Transcript segments list is empty" ;; ret false
      | Some (PList segments) => check_segments 0 segments
      | Some _ => log_msg ERROR "Transcript segments is not a list" ;; ret false
      end
  | _ => log_msg ERROR "Transcript is not a dictionary" ;; ret false
  end.

Definition generate_request (prompt : string) : pyval :=
  PDict [("model", PStr (model_name me)); ("prompt", PStr prompt); ("stream", PBool false)].

Definition http_post (url : string) (body : pyval) : M pyval :=
  fun w => (post url body (timeout me) w, add_event w (EvPost url body)).

Definition sleep (seconds : Z) : M unit :=
  fun w => (Ok tt, add_event w (EvSleep seconds)).

(** The [try] block of [call_llm_api]: one request and the extraction of the
    ["response"] field. *)
Definition request_once (prompt : string) : M pyval :=
  response <- http_post (ollama_url me ++ "/api/generate") (generate_request prompt) ;;
  lift (py_getitem response "response").

Definition before_retry (retry_count : Z) (e : exn) : M unit :=
  log_msg WARNING ("API call failed, retrying (" ++ str_of_int (retry_count + 1) ++ "/"
                   ++ str_of_int (max_retries me) ++ "): " ++ exn_str e) ;;
  sleep (2 ^ retry_count).

(** [call_llm_api(prompt, retry_count)]; the recursion of the source is on
    [retry_count + 1] under the guard [retry_count < self.max_retries]. *)
Equations? call_llm_api (prompt : string) (retry_count : Z) (w : world)
  : result pyval * world by wf (Z.to_nat (max_retries me - retry_count)) lt :=
  call_llm_api prompt retry_count w with request_once prompt w := {
    | (Ok text, w1) => (Ok text, w1)
    | (Raise e, w1) with isinstance_exn e RequestException := {
      | false => (Raise e, w1)
      | true with Z_lt_dec retry_count (max_retries me) := {
        | left _ =>
            call_llm_api prompt (retry_count + 1) (snd (before_retry retry_count e w1))
        | right _ =>
            (raise RuntimeError
               ("Failed to call LLM API after " ++ str_of_int (max_retries me)
                ++ " retries: " ++ exn_str e), w1) } } }.
Proof. lia. Qed.

(** [f"...{v}"] *)
Definition py_format (v : pyval) : string :=
  match v with
  | PStr s => s
  | _ => py_repr v
  end.

(** [segment["text"] = v] *)
Definition py_setitem (segment : pyval) (key : string) (v : pyval) : result pyval :=
  match segment with
  | PDict d => Ok (PDict (dict_set key v d))
  | PList _ => raise TypeError "list indices must be integers or slices, not str"
  | _ => raise TypeError ("'" ++ type_name segment ++ "' object does not support item assignment")
  end.

Definition clean_prompt (text : pyval) : string :=
  "Clean and improve the following transcript segment while preserving all visual markers and timing information:"
  ++ String "010" (py_format text).

(** The segment loop of [process_file]. The list object is mutated in place:
    [done] holds the segments already visited (with their new text), [todo]
    those still to visit; the result is the whole list after the loop. *)
Fixpoint clean_segments (i total : Z) (done todo : list pyval) : M (list pyval) :=
  match todo with
  | [] => ret done
  | segment :: rest =>
      text <- lift (py_getitem segment "text") ;;
      segment' <-
        try_except
          (cleaned_text <- call_llm_api (clean_prompt text) 0 ;;
           segment' <- lift (py_setitem segment "text" cleaned_text) ;;
           log_msg INFO ("Processed segment " ++ str_of_int (i + 1) ++ "/" ++ str_of_int total) ;;
           ret segment')
          [(Exception_,
            fun e =>
              log_msg ERROR ("Failed to process segment " ++ str_of_int (i + 1) ++ ": " ++ exn_str e) ;;
              reraise e)] ;;
      clean_segments (i + 1) total (done ++ [segment']) rest
  end.

Definition on_error (file_name prefix : string) (e : exn) : M unit :=
  let error_msg := prefix ++ exn_str e in
  log_msg ERROR ("Processing " ++ file_name ++ ": " ++ error_msg) ;;
  log_decision file_name error_msg.

(** [transcript["segments"]] after validation succeeded. *)
Definition segments_of (transcript : pyval) : result (list pyval) :=
  let* segs := py_getitem transcript "segments" in
  match segs with
  | PList l => Ok l
  | _ => raise TypeError ("'" ++ type_name segs ++ "' object is not iterable")
  end.

Definition with_segments (transcript : pyval) (segments : list pyval) : pyval :=
  match transcript with
  | PDict d => PDict (dict_set "segments" (PList segments) d)
  | _ => transcript
  end.

(** The [try] block of [process_file]. *)
Definition process_file_try (file_name : string) : M unit :=
  let base_name := fst (splitext file_name) in
  let input_path := path_join (transcript_input_folder me) (base_name ++ "_transcript.json") in
  let output_path := path_join (output_folder me) (base_name ++ "_llm_cleaned.json") in
  found <- path_exists input_path ;;
  if negb found
  then throw FileNotFoundError ("Transcript file not found: " ++ input_path)
  else
    transcript <- read_json input_path ;;
    ok <- validate_transcript transcript ;;
    if negb ok then throw ValueError "Invalid transcript format"
    else
      segments <- lift (segments_of transcript) ;;
      cleaned <- clean_segments 0 (Z.of_nat (length segments)) [] segments ;;
      write_file output_path (JsonDoc (with_segments transcript cleaned)) ;;
      log_decision file_name "success" ;;
      log_msg INFO ("Successfully processed " ++ file_name).

Definition process_file (file_name : string) : M unit :=
  try_except (process_file_try file_name)
    [(FileNotFoundError, on_error file_name "File not found: ");
     (ValueError, on_error file_name "Invalid data: ");
     (Exception_, on_error file_name "Unexpected error: ")].

Definition run : M unit :=
  try_except
    (names <- call_ext (listdir (transcript_input_folder me)) ;;
     let files := List.filter (fun f => endswith f "_transcript.json") names in
     match files with
     | [] => log_msg WARNING "No transcript files found to process"
     | _ =>
         for_each files
           (fun transcript_file =>
              process_file (replace transcript_file "_transcript.json" ".mp4"))
     end)
    [(Exception_,
      fun e => log_msg ERROR ("Failed to process transcript folder: " ++ exn_str e) ;; reraise e)].

End Agent.
End LLMEditingAgent.

(** ** agents/segment_audio_cleaner_agent.py *)

(** [validate_transcript] of the audio cleaner and of the video segment
    editor (the two methods have the same text): no logging, and no test that
    the list of segments is non-empty. *)
Fixpoint check_segments_silent (segments : list pyval) : result bool :=
  match segments with
  | [] => Ok true
  | segment :: rest =>
      let* has := all_keys_in ["start"; "end"; "text"] segment in
      if negb has then Ok false
      else
        let* st := py_getitem segment "start" in
        match as_num st with
        | None => Ok false
        | Some s =>
            let* en := py_getitem segment "end" in
            match as_num en with
            | None => Ok false
            | Some e => if num_le e s then Ok false else check_segments_silent rest
            end
        end
  end.

Definition validate_transcript_silent (transcript : pyval) : result bool :=
  match transcript with
  | PDict d =>
      match dict_get "segments" d with
      | None => Ok false
      | Some (PList segments) => check_segments_silent segments
      | Some _ => Ok false
      end
  | _ => Ok false
  end.

(** [transcript["segments"]] iterated by a [for] loop. *)
Definition iter_segments (transcript : pyval) : result (list pyval) :=
  let* segs := py_getitem transcript "segments" in
  match segs with
  | PList l => Ok l
  | _ => raise TypeError ("'" ++ type_name segs ++ "' object is not iterable")
  end.

(** [int(v * 1000)] for a number [v] read from a validated segment. *)
Definition to_ms (v : pyval) : result Z :=
  match as_num v with
  | Some n => let* p := num_mul n (NInt 1000) in py_int p
  | None => raise TypeError ("int() argument must be a number, not '" ++ type_name v ++ "'")
  end.

Module SegmentAudioCleaner.

Record self : Type := {
  audio_input_folder : string;
  transcript_folder : string;
  output_folder : string;
  log_base_dir : option string
}.

Section Agent.

(** [from_wav]: [AudioSegment.from_wav], of which only [len(audio)], the
    duration in milliseconds, is used. *)
Variable listdir : string -> world -> result (list string).
Variable from_wav : string -> world -> result Z.
Variable me : self.

Definition log_decision (file_name reason : string) : M unit :=
  match dir_configured (log_base_dir me) with
  | None => ret tt
  | Some dir =>
      let log_path := path_join dir (fst (splitext file_name) ++ "_audio_clean.json") in
      write_file log_path (JsonDoc (decision_entry file_name "audio_segment_clean" reason None))
  end.

Definition validate_transcript (transcript : pyval) : result bool :=
  validate_transcript_silent transcript.

(** The loop building [cleaned_audio]: the slices [audio[start_ms:end_ms]]
    appended so far are [cleaned]. *)
Fixpoint collect_slices (file_name : string) (audio_len : Z) (cleaned : list (Z * Z))
    (segments : list pyval) : M (list (Z * Z)) :=
  match segments with
  | [] => ret cleaned
  | segment :: rest =>
      st <- lift (py_getitem segment "start") ;;
      start_ms <- lift (to_ms st) ;;
      en <- lift (py_getitem segment "end") ;;
      end_ms <- lift (to_ms en) ;;
      if (audio_len <=? start_ms) || (audio_len <? end_ms) then
        log_msg WARNING ("Segment timing out of bounds for " ++ file_name ++ ": "
                         ++ str_of_int start_ms ++ "-" ++ str_of_int end_ms ++ "ms") ;;
        collect_slices file_name audio_len cleaned rest
      else collect_slices file_name audio_len (cleaned ++ [(start_ms, end_ms)]) rest
  end.

(** The [try] block of [process_file]. *)
Definition process_file_try (file_name : string) : M unit :=
  let base_name := fst (splitext file_name) in
  let audio_path := path_join (audio_input_folder me) (base_name ++ "_clean.wav") in
  let transcript_path := path_join (transcript_folder me) (base_name ++ "_llm_cleaned.json") in
  let output_path := path_join (output_folder me) (base_name ++ "_audio_clean.wav") in
  found <- path_exists audio_path ;;
  if negb found then throw FileNotFoundError ("Audio file not found: " ++ audio_path)
  else
    found <- path_exists transcript_path ;;
    if negb found
    then throw FileNotFoundError ("Transcript file not found: " ++ transcript_path)
    else
      audio_len <- call_ext (from_wav audio_path) ;;
      transcript <- read_json transcript_path ;;
      ok <- lift (validate_transcript transcript) ;;
      if negb ok then throw ValueError "Invalid transcript format"
      else
        segments <- lift (iter_segments transcript) ;;
        cleaned_audio <- collect_slices file_name audio_len [] segments ;;
        write_file output_path (WavDoc cleaned_audio) ;;
        log_decision file_name "success" ;;
        log_msg INFO ("[INFO] Successfully exported cleaned audio for " ++ file_name).

Definition process_file (file_name : string) : M unit :=
  try_except (process_file_try file_name)
    [(Exception_,
      fun e =>
        let error_msg := "failed - " ++ exn_str e in
        log_msg ERROR ("[ERROR] Processing " ++ file_name ++ ": " ++ error_msg) ;;
        log_decision file_name error_msg)].

Definition run : M unit :=
  names <- call_ext (listdir (audio_input_folder me)) ;;
  for_each (List.filter (fun f => endswith f "_clean.wav") names)
    (fun f => process_file (replace f "_clean.wav" ".mp4")).

End Agent.
End SegmentAudioCleaner.

(** ** agents/video_segment_editor_agent.py *)

Module VideoSegmentEditor.

Record self : Type := {
  video_input_folder : string;
  transcript_folder : string;
  output_folder : string;
  log_base_dir : option string
}.

Section Agent.

(** [subprocess_run cmd]: [subprocess.run(cmd, capture_output=True,
    text=True)]: the files the command leaves behind, and either the pair
    [(returncode, stderr)] or the exception raised when the program cannot be
    started. [py_str]: [str(v)]. *)
Variable listdir : string -> world -> result (list string).
Variable subprocess_run : list string -> world -> result (Z * string) * gmap string content.
Variable py_str : pyval -> string.
Variable me : self.

Definition log_decision (file_name reason : string) : M unit :=
  match dir_configured (log_base_dir me) with
  | None => ret tt
  | Some dir =>
      let log_path := path_join dir (fst (splitext file_name) ++ "_video_edit.json") in
      write_file log_path (JsonDoc (decision_entry file_name "video_segment_edit" reason None))
  end.

Definition validate_transcript (transcript : pyval) : result bool :=
  validate_transcript_silent transcript.

Definition run_cmd (cmd : list string) : M (Z * string) :=
  fun w =>
    let '(r, files) := subprocess_run cmd w in
    (r, add_event (with_fs w files) (EvRun cmd)).

(** [a - b] on values read from JSON: defined on numbers only. *)
Definition py_sub (a b : pyval) : result pynum :=
  match as_num a, as_num b with
  | Some x, Some y => num_sub x y
  | _, _ =>
      raise TypeError ("unsupported operand type(s) for -: '" ++ type_name a
                       ++ "' and '" ++ type_name b ++ "'")
  end.

Definition trim_cmd (input_path : string) (start : pyval) (duration : pynum)
    (segment_path : string) : list string :=
  ["ffmpeg"; "-y"; "-i"; input_path; "-ss"; py_str start; "-t"; py_str (of_num duration);
   "-c:v"; "copy"; "-c:a"; "copy"; segment_path].

(** The segment loop of [run_ffmpeg_trim]. It returns the list
    [segment_paths] also when it raises, because the [finally] clause reads
    that variable. *)
Fixpoint trim_segments (input_path temp_dir : string) (idx : Z)
    (segment_paths : list string) (segments : list pyval) (w : world)
  : result unit * list string * world :=
  match segments with
  | [] => (Ok tt, segment_paths, w)
  | segment :: rest =>
      match py_getitem segment "start" with
      | Raise e => (Raise e, segment_paths, w)
      | Ok start =>
          match (let* en := py_getitem segment "end" in
                 let* st := py_getitem segment "start" in
                 py_sub en st) with
          | Raise e => (Raise e, segment_paths, w)
          | Ok duration =>
              let segment_path :=
                path_join temp_dir ("temp_segment_" ++ str_of_int idx ++ ".mp4") in
              match run_cmd (trim_cmd input_path start duration segment_path) w with
              | (Raise e, w1) => (Raise e, segment_paths, w1)
              | (Ok (returncode, stderr), w1) =>
                  if negb (returncode =? 0) then
                    (raise RuntimeError ("FFmpeg segment creation failed: " ++ stderr),
                     segment_paths, w1)
                  else
                    trim_segments input_path temp_dir (idx + 1)
                      (segment_paths ++ [segment_path]) rest w1
              end
          end
      end
  end.

Definition concat_cmd (concat_file output_path : string) : list string :=
  ["ffmpeg"; "-y"; "-f"; "concat"; "-safe"; "0"; "-i"; concat_file; "-c"; "copy"; output_path].

Definition remove_if_exists (p : string) : M unit :=
  found <- path_exists p ;;
  if found then remove_file p else ret tt.

Definition run_ffmpeg_trim (input_path output_path : string) (segments : list pyval) : M unit :=
  let temp_dir := path_join (output_folder me) "temp" in
  let concat_file := path_join temp_dir "temp_concat.txt" in
  makedirs temp_dir ;;
  fun w =>
    let '(r, segment_paths, w1) := trim_segments input_path temp_dir 0 [] segments w in
    try_finally
      (lift r ;;
       write_file concat_file
         (TextDoc (map (fun path => "file '" ++ path ++ "'") segment_paths)) ;;
       res <- run_cmd (concat_cmd concat_file output_path) ;;
       if negb (fst res =? 0)
       then throw RuntimeError ("FFmpeg concatenation failed: " ++ snd res)
       else ret tt)
      (for_each segment_paths remove_if_exists ;;
       remove_if_exists concat_file ;;
       found <- path_exists temp_dir ;;
       if found then rmdir temp_dir else ret tt)
      w1.

(** The [try] block of [process_file]. *)
Definition process_file_try (file_name : string) : M unit :=
  let base_name := fst (splitext file_name) in
  let video_path := path_join (video_input_folder me) file_name in
  let transcript_path := path_join (transcript_folder me) (base_name ++ "_llm_cleaned.json") in
  let output_path := path_join (output_folder me) (base_name ++ "_video_clean.mp4") in
  found <- path_exists video_path ;;
  if negb found then throw FileNotFoundError ("Video file not found: " ++ video_path)
  else
    found <- path_exists transcript_path ;;
    if negb found
    then throw FileNotFoundError ("Transcript file not found: " ++ transcript_path)
    else
      transcript <- read_json transcript_path ;;
      ok <- lift (validate_transcript transcript) ;;
      if negb ok then throw ValueError "Invalid transcript format"
      else
        segments <- lift (iter_segments transcript) ;;
        run_ffmpeg_trim video_path output_path segments ;;
        log_decision file_name "success" ;;
        log_msg INFO ("[INFO] Successfully exported cleaned video for " ++ file_name).

Definition process_file (file_name : string) : M unit :=
  try_except (process_file_try file_name)
    [(Exception_,
      fun e =>
        let error_msg := "failed - " ++ exn_str e in
        log_msg ERROR ("[ERROR] Processing " ++ file_name ++ ": " ++ error_msg) ;;
        log_decision file_name error_msg)].

Definition run : M unit :=
  names <- call_ext (listdir (video_input_folder me)) ;;
  for_each (List.filter (fun f => endswith f ".mp4") names) process_file.

End Agent.
End VideoSegmentEditor.

(** ** Fixed-point formatting *)

Module PyFormat.

(** [n / d] rounded to the nearest integer, ties to even ([n >= 0], [d > 0]). *)
Definition round_half_even_div (n d : Z) : Z :=
  let q := n / d in
  match Z.compare (2 * (n mod d)) d with
  | Lt => q
  | Gt => q + 1
  | Eq => if Z.even q then q else q + 1
  end.

(** The value [m * 2^e] in thousandths, correctly rounded. *)
Definition thousandths (m e : Z) : Z :=
  if 0 <=? e then m * 1000 * 2 ^ e
  else round_half_even_div (m * 1000) (2 ^ (- e)).

Definition digit (n : Z) : ascii := ascii_of_N (48 + Z.to_N n).

Definition fixed3 (neg : bool) (k : Z) : string :=
  (if neg then "-" else "") ++ str_of_int (k / 1000) ++ "."
  ++ String (digit (k / 100 mod 10))
       (String (digit (k / 10 mod 10)) (String (digit (k mod 10)) EmptyString)).

(** [f"{x:.3f}"] for a float: the exact binary value rounded half-even to
    three decimals, as [PyOS_double_to_string] does. *)
Definition format_3f_float (f : float) : string :=
  match Prim2SF f with
  | S754_nan => "nan"
  | S754_infinity s => if s then "-inf" else "inf"
  | S754_zero s => fixed3 s 0
  | S754_finite s m e => fixed3 s (thousandths (Z.pos m) e)
  end.

(** [f"{x:.3f}"] for a number; an [int] is converted to float first. *)
Definition format_3f (x : pynum) : result string :=
  let* f := to_float x in
  Ok (format_3f_float f).

End PyFormat.
Export PyFormat.

(** ** agents/timeline_generator_agent.py *)

Module TimelineGenerator.

Record self : Type := {
  transcript_folder : string;
  video_folder : string;
  output_folder : string;
  log_base_dir : option string
}.

(** The first video stream reported by the probe: [width], [height] and the
    two integers of [r_frame_rate], written "num/denom". *)
Record video_stream : Type := {
  vs_width : Z;
  vs_height : Z;
  vs_num : Z;
  vs_denom : Z
}.

Section Agent.

(** [probe]: [ffmpeg.probe] followed by the selection of the first video
    stream and the [int()] conversions of its fields; [None] when the file has
    no video stream. [uuid4]: [str(uuid.uuid4())]. [abspath]:
    [os.path.abspath]. *)
Variable asctime : world -> string.
Variable listdir : string -> world -> result (list string).
Variable probe : string -> world -> result (option video_stream).
Variable uuid4 : world -> string.
Variable abspath : string -> string.
Variable me : self.

Definition log_decision (file_name reason : string) : M unit :=
  match dir_configured (log_base_dir me) with
  | None => ret tt
  | Some dir =>
      let log_path := path_join dir (fst (splitext file_name) ++ "_timeline.json") in
      try_except
        (fun w =>
           write_file log_path
             (JsonDoc (decision_entry file_name "timeline_generation" reason (Some (asctime w)))) w)
        [(Exception_,
          fun e => log_msg ERROR ("Failed to write decision log: " ++ exn_str e))]
  end.

Fixpoint check_segments (i : Z) (segments : list pyval) : M bool :=
  match segments with
  | [] => ret true
  | segment :: rest =>
      has <- lift (all_keys_in ["start"; "end"; "text"] segment) ;;
      if negb has then
        log_msg ERROR ("Segment " ++ str_of_int i ++ " missing required keys") ;;
        ret false
      else
        st <- lift (py_getitem segment "start") ;;
        match as_num st with
        | None =>
            log_msg ERROR ("Segment " ++ str_of_int i ++ " has invalid start/end types") ;;
            ret false
        | Some s =>
            en <- lift (py_getitem segment "end") ;;
            match as_num en with
            | None =>
                log_msg ERROR ("Segment " ++ str_of_int i ++ " has invalid start/end types") ;;
                ret false
            | Some e =>
                if num_le e s then
                  log_msg ERROR ("Segment " ++ str_of_int i ++ " has invalid time range") ;;
                  ret false
                else check_segments (i + 1) rest
            end
        end
  end.

Definition validate_transcript (transcript : pyval) : M bool :=
  match transcript with
  | PDict d =>
      match dict_get "segments" d with
      | None => log_msg ERROR "Transcript missing 'segments' key" ;; ret false
      | Some (PList []) => log_msg ERROR "Transcript segments list is empty" ;; ret false
      | Some (PList segments) => check_segments 0 segments
      | Some _ => log_msg ERROR "Transcript segments is not a list" ;; ret false
      end
  | _ => log_msg ERROR "Transcript is not a dictionary" ;; ret false
  end.

(** [get_video_metadata]: width, height and [frame_rate = num / denom]. *)
Definition get_video_metadata (video_path : string) : M (Z * Z * pynum) :=
  try_except
    (found <- call_ext (probe video_path) ;;
     match found with
     | None => throw RuntimeError "No video stream found in file"
     | Some vs =>
         frame_rate <- lift (num_truediv (NInt (vs_num vs)) (NInt (vs_denom vs))) ;;
         ret (vs_width vs, vs_height vs, frame_rate)
     end)
    [(FfmpegError, fun e => throw RuntimeError ("FFmpeg error: " ++ exn_str e));
     (Exception_, fun e => throw RuntimeError ("Failed to extract video metadata: " ++ exn_str e))].

(** [frame_duration], from [duration_factor = 1 / frame_rate]. *)
Definition frame_duration (frame_rate : pynum) : result string :=
  let* duration_factor := num_truediv (NInt 1) frame_rate in
  let* scaled := num_mul duration_factor (NInt 100000) in
  let* n := py_int scaled in
  Ok (str_of_int n ++ "/100000s").

Definition time_to_seconds_string (seconds : pynum) : result string :=
  let* s := format_3f seconds in
  Ok (s ++ "s").

Definition py_sub (a b : pyval) : result pynum :=
  match as_num a, as_num b with
  | Some x, Some y => num_sub x y
  | _, _ =>
      raise TypeError ("unsupported operand type(s) for -: '" ++ type_name a
                       ++ "' and '" ++ type_name b ++ "'")
  end.

(** [f"{v:.3f}s"] on a value read from a segment; only numbers reach it. *)
Definition time_string_of (v : pyval) : result string :=
  match as_num v with
  | Some n => time_to_seconds_string n
  | None =>
      raise TypeError ("unsupported format string passed to " ++ type_name v ++ ".__format__")
  end.

Definition clip_element (media_id : string) (number : Z) (offset start duration : string)
  : element :=
  Element "clip"
    [("name", "Segment " ++ str_of_int number); ("ref", media_id);
     ("offset", offset); ("start", start); ("duration", duration)] [].

(** The clip loop of [create_fcpxml] from segment number [i] on, entered with
    the running [offset]: the [clip] elements appended to [spine], and the
    value of [offset] when the loop ends. *)
Fixpoint clips (media_id : string) (i : Z) (offset : pynum) (segments : list pyval)
  : result (list element * pynum) :=
  match segments with
  | [] => Ok ([], offset)
  | seg :: rest =>
      let* start := py_getitem seg "start" in
      let* end_ := py_getitem seg "end" in
      let* dur := py_sub end_ start in
      let* offset_s := time_to_seconds_string offset in
      let* start_s := time_string_of start in
      let* dur_s := time_to_seconds_string dur in
      let clip := clip_element media_id (i + 1) offset_s start_s dur_s in
      let* offset' := num_add offset dur in
      let* more := clips media_id (i + 1) offset' rest in
      Ok (clip :: fst more, snd more)
  end.

(** The document [create_fcpxml] builds, given the metadata, the
    [frame_duration] string and [media_id]. *)
Definition fcpxml_document (width height : Z) (frame_rate : pynum)
    (frame_duration media_id src : string) (transcript_segments : list pyval)
  : result element :=
  let* rate := py_int frame_rate in
  let format :=
    Element "format"
      [("id", "r1");
       ("name", "AutoFormat" ++ str_of_int width ++ "x" ++ str_of_int height
                ++ "@" ++ str_of_int rate);
       ("frameDuration", frame_duration);
       ("width", str_of_int width);
       ("height", str_of_int height)] [] in
  let asset :=
    Element "asset"
      [("id", media_id); ("src", "file://" ++ src); ("start", "0s");
       ("hasVideo", "1"); ("hasAudio", "1"); ("format", "r1")] [] in
  let* spine_clips := clips media_id 0 (NFloat 0%float) transcript_segments in
  let spine := Element "spine" [] (fst spine_clips) in
  let sequence :=
    Element "sequence"
      [("duration", "3600s"); ("format", "r1"); ("tcStart", "0s"); ("tcFormat", "NDF")]
      [spine] in
  let project := Element "project" [("name", "Cleaned Timeline")] [sequence] in
  let event := Element "event" [("name", "Auto Edited")] [project] in
  let library := Element "library" [] [event] in
  let resources := Element "resources" [] [format; asset] in
  Ok (Element "fcpxml" [("version", "1.10")] [resources; library]).

Definition create_fcpxml (transcript_segments : list pyval) (video_filename output_path : string)
  : M unit :=
  try_except
    (meta <- get_video_metadata video_filename ;;
     let '(width, height, frame_rate) := meta in
     frame_duration <- lift (frame_duration frame_rate) ;;
     media_id <- (fun w => (Ok (uuid4 w), step_tick w)) ;;
     fcpxml <- lift (fcpxml_document width height frame_rate frame_duration media_id
                       (abspath video_filename) transcript_segments) ;;
     write_file output_path (XmlDoc fcpxml) ;;
     log_msg INFO ("Timeline XML written to: " ++ output_path))
    [(Exception_, fun e => throw RuntimeError ("Failed to create FCPXML: " ++ exn_str e))].

Definition on_error (file_name prefix : string) (e : exn) : M unit :=
  let error_msg := prefix ++ exn_str e in
  log_msg ERROR ("Processing " ++ file_name ++ ": " ++ error_msg) ;;
  log_decision file_name error_msg.

(** The [try] block of [process_file]. *)
Definition process_file_try (file_name : string) : M unit :=
  let base_name := fst (splitext file_name) in
  let transcript_path := path_join (transcript_folder me) (base_name ++ "_llm_cleaned.json") in
  let video_path := path_join (video_folder me) file_name in
  let output_path := path_join (output_folder me) (base_name ++ "_timeline.xml") in
  found <- path_exists transcript_path ;;
  if negb found
  then throw FileNotFoundError ("Transcript file not found: " ++ transcript_path)
  else
    found <- path_exists video_path ;;
    if negb found then throw FileNotFoundError ("Video file not found: " ++ video_path)
    else
      transcript <- read_json transcript_path ;;
      ok <- validate_transcript transcript ;;
      if negb ok then throw ValueError "Invalid transcript format"
      else
        segments <- lift (iter_segments transcript) ;;
        create_fcpxml segments video_path output_path ;;
        log_decision file_name "success" ;;
        log_msg INFO ("Successfully generated timeline for " ++ file_name).

Definition process_file (file_name : string) : M unit :=
  try_except (process_file_try file_name)
    [(FileNotFoundError, on_error file_name "File not found: ");
     (ValueError, on_error file_name "Invalid data: ");
     (Exception_, on_error file_name "Unexpected error: ")].

Definition run : M unit :=
  try_except
    (names <- call_ext (listdir (transcript_folder me)) ;;
     let files := List.filter (fun f => endswith f "_llm_cleaned.json") names in
     match files with
     | [] => log_msg WARNING "No transcript files found to process"
     | _ =>
         for_each files
           (fun transcript_file =>
              process_file (replace transcript_file "_llm_cleaned.json" ".mp4"))
     end)
    [(Exception_,
      fun e => log_msg ERROR ("Failed to process transcript folder: " ++ exn_str e) ;; reraise e)].

End Agent.
End TimelineGenerator.

(** ** agents/denoise_agent.py *)

Module DenoiseAgent.

Record self : Type := {
  input_folder : string;
  audio_output : string;
  video_output : string;
  model_path : string;
  log_base_dir : option string
}.

Section Agent.

(** [subprocess_run cmd]: as for the video segment editor. *)
Variable asctime : world -> string.
Variable listdir : string -> world -> result (list string).
Variable subprocess_run : list string -> world -> result (Z * string) * gmap string content.
Variable me : self.

Definition log_decision (file_name reason : string) : M unit :=
  match dir_configured (log_base_dir me) with
  | None => ret tt
  | Some dir =>
      let log_path := path_join dir (fst (splitext file_name) ++ "_denoise.json") in
      try_except
        (fun w =>
           write_file log_path
             (JsonDoc (decision_entry file_name "denoise" reason (Some (asctime w)))) w)
        [(Exception_,
          fun e => log_msg ERROR ("Failed to write decision log: " ++ exn_str e))]
  end.

(** [repr(cmd)] for a list of strings without quotes in them. *)
Definition repr_cmd (cmd : list string) : string :=
  "[" ++ String.concat ", " (map (fun a => "'" ++ a ++ "'") cmd) ++ "]".

(** [subprocess.run(cmd, check=True, capture_output=True, text=True)] *)
Definition run_checked (cmd : list string) : M unit :=
  fun w =>
    let '(r, files) := subprocess_run cmd w in
    let w1 := add_event (with_fs w files) (EvRun cmd) in
    match r with
    | Raise e => (Raise e, w1)
    | Ok (returncode, stderr) =>
        if returncode =? 0 then (Ok tt, w1)
        else
          (Raise (MkExn CalledProcessError
                    ("Command '" ++ repr_cmd cmd ++ "' returned non-zero exit status "
                     ++ str_of_int returncode ++ ".")
                    stderr), w1)
    end.

Definition convert_mp4_to_wav (input_mp4 output_wav : string) : M unit :=
  try_except
    (log_msg INFO ("Converting " ++ input_mp4 ++ " to WAV format") ;;
     run_checked ["ffmpeg"; "-i"; input_mp4; "-vn"; "-acodec"; "pcm_s16le";
                  "-ar"; "48000"; "-ac"; "2"; output_wav; "-y"] ;;
     log_msg INFO ("Successfully converted to " ++ output_wav))
    [(CalledProcessError,
      fun e =>
        log_msg ERROR ("FFmpeg conversion failed: " ++ exn_stderr e) ;;
        throw RuntimeError ("Failed to convert MP4 to WAV: " ++ exn_str e))].

Definition apply_noise_reduction (input_wav output_wav : string) : M unit :=
  try_except
    (log_msg INFO ("Applying noise reduction to " ++ input_wav) ;;
     log_msg INFO ("Using model path: " ++ model_path me) ;;
     found <- path_exists (model_path me) ;;
     if negb found
     then throw FileNotFoundError ("Noise reduction model not found at: " ++ model_path me)
     else
       run_checked ["ffmpeg"; "-i"; input_wav; "-af"; "arnndn=m=" ++ model_path me;
                    output_wav; "-y"] ;;
       log_msg INFO ("Successfully applied noise reduction to " ++ output_wav))
    [(CalledProcessError,
      fun e =>
        log_msg ERROR ("FFmpeg noise reduction failed: " ++ exn_stderr e) ;;
        throw RuntimeError ("Failed to apply noise reduction: " ++ exn_str e));
     (FileNotFoundError,
      fun e =>
        log_msg ERROR ("Model not found: " ++ exn_str e) ;;
        throw RuntimeError ("Failed to apply noise reduction: " ++ exn_str e))].

Definition convert_wav_to_mp4 (input_wav output_mp4 original_video : string) : M unit :=
  try_except
    (log_msg INFO ("Converting " ++ input_wav ++ " back to MP4") ;;
     run_checked ["ffmpeg"; "-i"; original_video; "-i"; input_wav;
                  "-map"; "0:v:0"; "-map"; "1:a:0"; "-c:v"; "copy"; "-c:a"; "aac";
                  "-b:a"; "192k"; "-ar"; "48000"; "-ac"; "2"; output_mp4; "-y"] ;;
     log_msg INFO ("Successfully created " ++ output_mp4))
    [(CalledProcessError,
      fun e =>
        log_msg ERROR ("FFmpeg conversion failed: " ++ exn_stderr e) ;;
        throw RuntimeError ("Failed to convert WAV to MP4: " ++ exn_str e))].

Definition on_error (file_name prefix : string) (e : exn) : M unit :=
  let error_msg := prefix ++ exn_str e in
  log_msg ERROR ("Processing " ++ file_name ++ ": " ++ error_msg) ;;
  log_decision file_name error_msg.

(** The [try] block of [process_file]. *)
Definition process_file_try (file_name : string) : M unit :=
  let input_path := path_join (input_folder me) file_name in
  let temp_wav := path_join (audio_output me) (fst (splitext file_name) ++ "_raw.wav") in
  let cleaned_wav := path_join (audio_output me) (fst (splitext file_name) ++ "_clean.wav") in
  let output_mp4 := path_join (video_output me) file_name in
  found <- path_exists input_path ;;
  if negb found then throw FileNotFoundError ("Input video not found: " ++ input_path)
  else
    log_msg INFO ("Processing " ++ file_name) ;;
    convert_mp4_to_wav input_path temp_wav ;;
    apply_noise_reduction temp_wav cleaned_wav ;;
    found <- path_exists cleaned_wav ;;
    if negb found then throw FileNotFoundError "Noise-reduced audio not found"
    else
      convert_wav_to_mp4 cleaned_wav output_mp4 input_path ;;
      log_decision file_name "success" ;;
      log_msg INFO ("Successfully processed " ++ file_name).

(** The [finally] block of [process_file]. *)
Definition cleanup (file_name : string) : M unit :=
  let temp_wav := path_join (audio_output me) (fst (splitext file_name) ++ "_raw.wav") in
  found <- path_exists temp_wav ;;
  if found then
    try_except
      (remove_file temp_wav ;;
       log_msg DEBUG ("Removed temporary file: " ++ temp_wav))
      [(Exception_,
        fun e =>
          log_msg WARNING ("Failed to remove temporary file " ++ temp_wav ++ ": " ++ exn_str e))]
  else ret tt.

Definition process_file (file_name : string) : M unit :=
  try_finally
    (try_except (process_file_try file_name)
       [(FileNotFoundError, on_error file_name "File not found: ");
        (RuntimeError, on_error file_name "Processing error: ");
        (Exception_, on_error file_name "Unexpected error: ")])
    (cleanup file_name).

Definition run : M unit :=
  try_except
    (names <- call_ext (listdir (input_folder me)) ;;
     let mp4_files := List.filter (fun f => endswith f ".mp4") names in
     match mp4_files with
     | [] => log_msg WARNING "No MP4 files found to process"
     | _ => for_each mp4_files process_file
     end)
    [(Exception_,
      fun e => log_msg ERROR ("Failed to process input folder: " ++ exn_str e) ;; reraise e)].

End Agent.
End DenoiseAgent.

(** ** main.py *)

Module Main.

Section Pipeline.

(** [http_get url timeout]: the status code of [requests.get].
    [setup v]: [create_output_dirs] and the construction of the five agents
    for video [v]. The stage variables are the agents' entry points as
    [process_video] calls them; nothing is assumed about what they do. *)
Variable OLLAMA_URL : string.
Variable http_get : string -> Z -> world -> result Z.
Variable abspath : string -> string.
Variable setup : string -> M unit.
Variable denoise_process_file : string -> string -> M unit.
Variable transcriber_run : string -> M unit.
Variable editor_run : string -> M unit.
Variable video_editor_run : string -> M unit.
Variable timeline_generator_run : string -> M unit.
Variable preprocess_directories : M unit.
Variable setup_logging : M unit.
Variable isfile : string -> world -> bool.
Variable glob_mp4 : string -> world -> list string.

Definition sys_exit {A} (code : Z) : M A := throw SystemExit (str_of_int code).

Definition check_ollama_availability : M bool :=
  try_except
    (status_code <- call_ext (http_get (OLLAMA_URL ++ "/api/tags") 5) ;;
     ret (status_code =? 200))
    [(RequestException, fun _ => ret false)].

(** The [try] block of [process_video] up to the end of step 2. *)
Definition denoise_and_transcribe (video_path model_path : string) : M unit :=
  setup video_path ;;
  log_msg INFO ("Starting pipeline for " ++ video_path) ;;
  log_msg INFO "Step 1: Denoising video" ;;
  let video_filename := basename video_path in
  log_msg INFO ("Processing video file: " ++ video_filename) ;;
  log_msg INFO ("Using noise reduction model: " ++ abspath model_path) ;;
  denoise_process_file video_path video_filename ;;
  log_msg INFO "Step 2: Transcribing audio" ;;
  transcriber_run video_path.

(** The [try] block of [process_video]. *)
Definition pipeline (video_path model_path : string) : M unit :=
  denoise_and_transcribe video_path model_path ;;
  log_msg INFO "Step 3: Editing transcript" ;;
  available <- check_ollama_availability ;;
  if negb available then
    let error_msg :=
      "Ollama server is not running at " ++ OLLAMA_URL
      ++ ". Please start Ollama before running the pipeline." in
    log_msg ERROR error_msg ;;
    throw RuntimeError error_msg
  else
    editor_run video_path ;;
    log_msg INFO "Step 4: Editing video segments" ;;
    video_editor_run video_path ;;
    log_msg INFO "Step 5: Generating timeline" ;;
    timeline_generator_run video_path ;;
    log_msg INFO ("Pipeline completed successfully for " ++ video_path).

(** [process_video]. The local [pipeline_success] starts [True]; the
    [except Exception] clause sets it to [False], logs and re-raises; the
    [finally] clause then calls [sys.exit(1)], whose [SystemExit] replaces the
    exception in flight. *)
Definition process_video (video_path model_path : string) : M unit :=
  fun w =>
    let '(r, pipeline_success, w2) :=
      match pipeline video_path model_path w with
      | (Ok tt, w1) => (Ok tt, true, w1)
      | (Raise e, w1) =>
          if isinstance_exn e Exception_ then
            (Raise e, false,
             add_log w1 (ERROR, "Pipeline failed for " ++ video_path ++ ": " ++ exn_str e))
          else (Raise e, true, w1)
      end in
    if pipeline_success then (r, w2)
    else
      sys_exit 1
        (add_log w2 (ERROR, "Pipeline failed - some steps may have completed but others failed")).

(** The loop of [main] over the videos of a directory. *)
Definition process_directory (mp4_files : list string) (model_path : string) : M unit :=
  for_each mp4_files
    (fun video_file =>
       try_except (process_video video_file model_path)
         [(Exception_,
           fun e => log_msg ERROR ("Failed to process " ++ video_file ++ ": " ++ exn_str e))]).

Definition main (input model_path : string) : M unit :=
  preprocess_directories ;;
  setup_logging ;;
  try_except
    (fun w =>
       if isfile input w then
         (if negb (endswith input ".mp4") then
            log_msg ERROR "Input file must be an MP4 file" ;; sys_exit 1
          else process_video input model_path) w
       else
         match glob_mp4 input w with
         | [] => (log_msg ERROR "No MP4 files found in input directory" ;; sys_exit 1) w
         | mp4_files => process_directory mp4_files model_path w
         end)
    [(Exception_,
      fun e => log_msg ERROR ("Pipeline failed: " ++ exn_str e) ;; sys_exit 1)].

End Pipeline.
End Main.

(** * Properties *)

(** ** The transcript schema of the specification

    The seven conditions of the specification's validator section, written
    from its words: the top-level value is a record with a [segments] field,
    which is a non-empty sequence whose every element contains [start], [end]
    and [text], with numeric [start] and [end], [end > start] strictly, and a
    [text] that is non-empty after trimming whitespace. *)

Module Spec.

Definition segment_valid (seg : pyval) : bool :=
  match seg with
  | PDict d =>
      match dict_get "start" d, dict_get "end" d, dict_get "text" d with
      | Some st, Some en, Some tx =>
          match as_num st, as_num en with
          | Some s, Some e =>
              num_lt s e &&
              match tx with
              | PStr t => str_truthy (strip t)
              | _ => false
              end
          | _, _ => false
          end
      | _, _, _ => false
      end
  | _ => false
  end.

Definition transcript_valid (transcript : pyval) : bool :=
  match transcript with
  | PDict d =>
      match dict_get "segments" d with
      | Some (PList (seg :: segs)) => forallb segment_valid (seg :: segs)
      | _ => false
      end
  | _ => false
  end.



End Spec.

Definition empty_world : world := mkWorld ∅ ∅ ∅ [] [] 0.

(** ** Numbers *)

Lemma xcompare_antisym a b :
  xcompare a b = Some Lt -> xcompare b a = Some Gt.
Proof.
  destruct a as [|s1|m1 e1], b as [|s2|m2 e2]; simpl; try discriminate.
  - destruct s1, s2; simpl; congruence.
  - destruct s1; congruence.
  - destruct s2; congruence.
  - intros H. injection H as H. rewrite (Z.min_comm e2 e1).
    rewrite Z.compare_antisym, H. reflexivity.
Qed.

Lemma num_lt_not_le s e : num_lt s e = true -> num_le e s = false.
Proof.
  unfold num_lt, num_le. intros H.
  destruct (xcompare (num_val s) (num_val e)) as [[ | | ]|] eqn:E; try discriminate.
  rewrite (xcompare_antisym _ _ E). reflexivity.
Qed.

(** ** Validators *)

Lemma all_keys_in_record keys d :
  all_keys_in keys (PDict d)
  = Ok (forallb (fun k => bool_decide (is_Some (dict_get k d))) keys).
Proof.
  induction keys as [|k ks IH]; simpl; [reflexivity|].
  destruct (bool_decide (is_Some (dict_get k d))); simpl; [exact IH | reflexivity].
Qed.

Lemma getitem_record d k v : dict_get k d = Some v -> py_getitem (PDict d) k = Ok v.
Proof. intros H. simpl. rewrite H. reflexivity. Qed.

Lemma getitem_record_present d k :
  bool_decide (is_Some (dict_get k d)) = true -> exists v, py_getitem (PDict d) k = Ok v.
Proof.
  intros H. apply bool_decide_eq_true in H. destruct H as [v Hv].
  exists v. apply getitem_record, Hv.
Qed.

Ltac run_monad :=
  unfold bind, ret, lift, throw, reraise, log_msg, rbind; simpl.

(** On a segment that meets the schema, one iteration of each validator loop
    goes on to the next segment without logging. *)
Lemma segment_valid_fields seg :
  Spec.segment_valid seg = true ->
  exists d st en t s e,
    seg = PDict d /\ dict_get "start" d = Some st /\ dict_get "end" d = Some en /\
    dict_get "text" d = Some (PStr t) /\ as_num st = Some s /\ as_num en = Some e /\
    num_le e s = false /\ str_truthy (strip t) = true.
Proof.
  destruct seg as [| | | | |l|d]; simpl; try discriminate.
  destruct (dict_get "start" d) as [st|] eqn:Hst; [|discriminate].
  destruct (dict_get "end" d) as [en|] eqn:Hen; [|discriminate].
  destruct (dict_get "text" d) as [tx|] eqn:Htx; [|discriminate].
  destruct (as_num st) as [s|] eqn:Hs; [|discriminate].
  destruct (as_num en) as [e|] eqn:He; [|discriminate].
  intros H. apply andb_prop in H as [Hlt Ht].
  destruct tx as [| | | |t| |]; try discriminate.
  exists d, st, en, t, s, e. repeat split; auto using num_lt_not_le.
Qed.

Lemma transcriber_check_valid segs i w :
  forallb Spec.segment_valid segs = true ->
  TranscriberAgent.check_segments i segs w = (Ok true, w).
Proof.
  revert i. induction segs as [|seg segs IH]; intros i H; [reflexivity|].
  simpl in H. apply andb_prop in H as [Hseg Hrest].
  destruct (segment_valid_fields _ Hseg)
    as (d & st & en & t & s & e & -> & Hst & Hen & Htx & Hs & He & Hle & Ht).
  cbn [TranscriberAgent.check_segments]. rewrite all_keys_in_record.
  cbn [forallb]. rewrite Hst, Hen, Htx.
  run_monad. rewrite Hst, Hen, Htx. simpl. rewrite Hs, He. simpl. rewrite Hle, Ht.
  apply IH, Hrest.
Qed.

Lemma editor_check_valid segs i w :
  forallb Spec.segment_valid segs = true ->
  LLMEditingAgent.check_segments i segs w = (Ok true, w).
Proof.
  revert i. induction segs as [|seg segs IH]; intros i H; [reflexivity|].
  simpl in H. apply andb_prop in H as [Hseg Hrest].
  destruct (segment_valid_fields _ Hseg)
    as (d & st & en & t & s & e & -> & Hst & Hen & Htx & Hs & He & Hle & Ht).
  cbn [LLMEditingAgent.check_segments]. rewrite all_keys_in_record.
  cbn [forallb]. rewrite Hst, Hen, Htx.
  run_monad. rewrite Hst, Hen. simpl. rewrite Hs, He. simpl. rewrite Hle.
  apply IH, Hrest.
Qed.

Lemma timeline_check_valid segs i w :
  forallb Spec.segment_valid segs = true ->
  TimelineGenerator.check_segments i segs w = (Ok true, w).
Proof.
  revert i. induction segs as [|seg segs IH]; intros i H; [reflexivity|].
  simpl in H. apply andb_prop in H as [Hseg Hrest].
  destruct (segment_valid_fields _ Hseg)
    as (d & st & en & t & s & e & -> & Hst & Hen & Htx & Hs & He & Hle & Ht).
  cbn [TimelineGenerator.check_segments]. rewrite all_keys_in_record.
  cbn [forallb]. rewrite Hst, Hen, Htx.
  run_monad. rewrite Hst, Hen. simpl. rewrite Hs, He. simpl. rewrite Hle.
  apply IH, Hrest.
Qed.

Lemma silent_check_valid segs :
  forallb Spec.segment_valid segs = true ->
  check_segments_silent segs = Ok true.
Proof.
  induction segs as [|seg segs IH]; intros H; [reflexivity|].
  simpl in H. apply andb_prop in H as [Hseg Hrest].
  destruct (segment_valid_fields _ Hseg)
    as (d & st & en & t & s & e & -> & Hst & Hen & Htx & Hs & He & Hle & Ht).
  cbn [check_segments_silent]. rewrite all_keys_in_record.
  cbn [forallb]. rewrite Hst, Hen, Htx.
  run_monad. rewrite Hst, Hen. simpl. rewrite Hs, He. simpl. rewrite Hle.
  apply IH, Hrest.
Qed.

(** Every validator of the repository accepts every transcript that meets
    the seven conditions of the schema. *)
Lemma valid_transcripts_accepted transcript w :
  Spec.transcript_valid transcript = true ->
  TranscriberAgent.validate_transcript transcript w = (Ok true, w) /\
  LLMEditingAgent.validate_transcript transcript w = (Ok true, w) /\
  TimelineGenerator.validate_transcript transcript w = (Ok true, w) /\
  SegmentAudioCleaner.validate_transcript transcript = Ok true /\
  VideoSegmentEditor.validate_transcript transcript = Ok true.
Proof.
  destruct transcript as [| | | | |l|d]; simpl; try discriminate.
  destruct (dict_get "segments" d) as [[| | | | |[|seg segs]|]|] eqn:Hd; try discriminate.
  intros H. unfold SegmentAudioCleaner.validate_transcript,
    VideoSegmentEditor.validate_transcript, validate_transcript_silent.
  repeat split.
  - apply transcriber_check_valid, H.
  - apply editor_check_valid, H.
  - apply timeline_check_valid, H.
  - apply silent_check_valid, H.
  - apply silent_check_valid, H.
Qed.

(** A minimal transcript for each of the seven violations. *)
Definition not_a_record : pyval := PList [].
Definition no_segments_field : pyval := PDict [].
Definition segments_not_a_list : pyval := PDict [("segments", PStr "x")].
Definition segments_empty : pyval := PDict [("segments", PList [])].
Definition segment_missing_text : pyval :=
  PDict [("segments", PList [PDict [("start", PInt 0); ("end", PInt 1)]])].
Definition start_not_numeric : pyval :=
  PDict [("segments", PList [PDict [("start", PStr "0"); ("end", PInt 1); ("text", PStr "a")]])].
Definition end_not_after_start : pyval :=
  PDict [("segments", PList [PDict [("start", PInt 1); ("end", PInt 1); ("text", PStr "a")]])].
Definition text_blank : pyval :=
  PDict [("segments", PList [PDict [("start", PInt 0); ("end", PInt 1); ("text", PStr " ")]])].

(** The transcriber's validator rejects each of them, logging the reason. *)
Lemma transcriber_rejects_violations w :
  TranscriberAgent.validate_transcript not_a_record w
    = (Ok false, add_log w (ERROR, "Transcript is not a dictionary")) /\
  TranscriberAgent.validate_transcript no_segments_field w
    = (Ok false, add_log w (ERROR, "Transcript missing 'segments' key")) /\
  TranscriberAgent.validate_transcript segments_not_a_list w
    = (Ok false, add_log w (ERROR, "Transcript segments is not a list")) /\
  TranscriberAgent.validate_transcript segments_empty w
    = (Ok false, add_log w (ERROR, "Transcript segments list is empty")) /\
  TranscriberAgent.validate_transcript segment_missing_text w
    = (Ok false, add_log w (ERROR, "Segment 0 missing required keys")) /\
  TranscriberAgent.validate_transcript start_not_numeric w
    = (Ok false, add_log w (ERROR, "Segment 0 has invalid start/end types")) /\
  TranscriberAgent.validate_transcript end_not_after_start w
    = (Ok false, add_log w (ERROR, "Segment 0 has invalid time range")) /\
  TranscriberAgent.validate_transcript text_blank w
    = (Ok false, add_log w (ERROR, "Segment 0 has invalid or empty text")).
Proof. repeat split. Qed.

(** The editing agent's and the timeline generator's validators reject the
    first six; they do not look at the content of [text]. *)
Lemma editor_rejects_violations w :
  LLMEditingAgent.validate_transcript not_a_record w
    = (Ok false, add_log w (ERROR, "Transcript is not a dictionary")) /\
  LLMEditingAgent.validate_transcript no_segments_field w
    = (Ok false, add_log w (ERROR, "Transcript missing 'segments' key")) /\
  LLMEditingAgent.validate_transcript segments_not_a_list w
    = (Ok false, add_log w (ERROR, "Transcript segments is not a list")) /\
  LLMEditingAgent.validate_transcript segments_empty w
    = (Ok false, add_log w (ERROR, "Transcript segments list is empty")) /\
  LLMEditingAgent.validate_transcript segment_missing_text w
    = (Ok false, add_log w (ERROR, "Segment 0 missing required keys")) /\
  LLMEditingAgent.validate_transcript start_not_numeric w
    = (Ok false, add_log w (ERROR, "Segment 0 has invalid start/end types")) /\
  LLMEditingAgent.validate_transcript end_not_after_start w
    = (Ok false, add_log w (ERROR, "Segment 0 has invalid time range")) /\
  LLMEditingAgent.validate_transcript text_blank w = (Ok true, w).
Proof. repeat split. Qed.

Lemma timeline_rejects_violations w :
  TimelineGenerator.validate_transcript not_a_record w
    = (Ok false, add_log w (ERROR, "Transcript is not a dictionary")) /\
  TimelineGenerator.validate_transcript no_segments_field w
    = (Ok false, add_log w (ERROR, "Transcript missing 'segments' key")) /\
  TimelineGenerator.validate_transcript segments_not_a_list w
    = (Ok false, add_log w (ERROR, "Transcript segments is not a list")) /\
  TimelineGenerator.validate_transcript segments_empty w
    = (Ok false, add_log w (ERROR, "Transcript segments list is empty")) /\
  TimelineGenerator.validate_transcript segment_missing_text w
    = (Ok false, add_log w (ERROR, "Segment 0 missing required keys")) /\
  TimelineGenerator.validate_transcript start_not_numeric w
    = (Ok false, add_log w (ERROR, "Segment 0 has invalid start/end types")) /\
  TimelineGenerator.validate_transcript end_not_after_start w
    = (Ok false, add_log w (ERROR, "Segment 0 has invalid time range")) /\
  TimelineGenerator.validate_transcript text_blank w = (Ok true, w).
Proof. repeat split. Qed.

(** The validator shared by the audio cleaner and the video segment editor
    rejects the violations it tests for. *)
Lemma silent_rejects_violations :
  validate_transcript_silent not_a_record = Ok false /\
  validate_transcript_silent no_segments_field = Ok false /\
  validate_transcript_silent segments_not_a_list = Ok false /\
  validate_transcript_silent segment_missing_text = Ok false /\
  validate_transcript_silent start_not_numeric = Ok false /\
  validate_transcript_silent end_not_after_start = Ok false.
Proof. repeat split. Qed.

(** C2 (failing input): on the transcript [{"segments": []}], whose list of
    segments is empty, the validators of the audio cleaner and of the video
    segment editor return [True], whereas the validators of the transcriber,
    the editing agent and the timeline generator return [False]. *)
Theorem empty_segments_pass_cutter_validators :
  SegmentAudioCleaner.validate_transcript segments_empty = Ok true /\
  VideoSegmentEditor.validate_transcript segments_empty = Ok true /\
  Spec.transcript_valid segments_empty = false /\
  fst (TranscriberAgent.validate_transcript segments_empty empty_world) = Ok false /\
  fst (LLMEditingAgent.validate_transcript segments_empty empty_world) = Ok false /\
  fst (TimelineGenerator.validate_transcript segments_empty empty_world) = Ok false.
Proof. repeat split. Qed.

(** *** Totality of validation *)










(** ** Timeline synthesis *)

(** An entry of the edit-decision list: where the clip sits on the output
    timeline, where it starts in the source, and how long it lasts. *)
Record edit_decision : Type := {
  ed_offset : pynum;
  ed_source_start : pynum;
  ed_duration : pynum
}.

(** The algorithm of the specification, in Python arithmetic: a running
    offset; for each segment in input order the duration is [end - start], an
    entry [{offset, sourceStart: start, duration}] is emitted and the offset
    advances by the duration. *)
Fixpoint edit_decision_list (offset : pynum) (segs : list pyval) : list edit_decision :=
  match segs with
  | [] => []
  | seg :: rest =>
      match py_getitem seg "start", py_getitem seg "end" with
      | Ok st, Ok en =>
          match as_num st, TimelineGenerator.py_sub en st with
          | Some s, Ok d =>
              match num_add offset d with
              | Ok offset' =>
                  {| ed_offset := offset; ed_source_start := s; ed_duration := d |}
                  :: edit_decision_list offset' rest
              | Raise _ => []
              end
          | _, _ => []
          end
      | _, _ => []
      end
  end.

(** [clip] is the clip record showing entry [ed] as the [number]-th segment. *)
Definition renders (media_id : string) (number : Z) (ed : edit_decision) (clip : element) : Prop :=
  exists o s d,
    TimelineGenerator.time_to_seconds_string (ed_offset ed) = Ok o /\
    TimelineGenerator.time_to_seconds_string (ed_source_start ed) = Ok s /\
    TimelineGenerator.time_to_seconds_string (ed_duration ed) = Ok d /\
    clip = TimelineGenerator.clip_element media_id number o s d.

(** Sum of durations, accumulated from the left as the loop does. *)
Fixpoint sum_durations (acc : pynum) (ds : list pynum) : result pynum :=
  match ds with
  | [] => Ok acc
  | d :: ds' => let* acc' := num_add acc d in sum_durations acc' ds'
  end.

(** [float(n)] does not overflow. *)
Definition fits_float (n : pynum) : bool :=
  match to_float n with
  | Ok _ => true
  | Raise _ => false
  end.

(** A segment whose [start] and [end] are numbers, and whose [start] and
    [end - start] are within the range of a float. Every segment with float
    times is one. *)
Definition well_timed (seg : pyval) : bool :=
  match py_getitem seg "start", py_getitem seg "end" with
  | Ok st, Ok en =>
      match as_num st, as_num en with
      | Some s, Some e =>
          match num_sub e s with
          | Ok d => fits_float s && fits_float d
          | Raise _ => false
          end
      | _, _ => false
      end
  | _, _ => false
  end.

Definition segment (start end_ : pyval) : pyval :=
  PDict [("start", start); ("end", end_); ("text", PStr "speech")].

Definition example_segments : list pyval :=
  [segment (PFloat 0) (PFloat 2); segment (PFloat 5) (PFloat 8);
   segment (PFloat 10) (PFloat 10.5)].

Lemma float_times_well_timed d s e :
  dict_get "start" d = Some (PFloat s) -> dict_get "end" d = Some (PFloat e) ->
  well_timed (PDict d) = true.
Proof. intros Hs He. unfold well_timed. simpl. rewrite Hs, He. reflexivity. Qed.

Lemma fits_float_inv n : fits_float n = true -> exists f, to_float n = Ok f.
Proof. unfold fits_float. destruct (to_float n); [eauto | discriminate]. Qed.

Lemma well_timed_inv seg :
  well_timed seg = true ->
  exists st en s d fs fd,
    py_getitem seg "start" = Ok st /\ py_getitem seg "end" = Ok en /\
    as_num st = Some s /\ TimelineGenerator.py_sub en st = Ok d /\
    to_float s = Ok fs /\ to_float d = Ok fd.
Proof.
  unfold well_timed, TimelineGenerator.py_sub.
  destruct (py_getitem seg "start") as [st|]; [|discriminate].
  destruct (py_getitem seg "end") as [en|]; [|discriminate].
  destruct (as_num st) as [s|] eqn:Est; [|discriminate].
  destruct (as_num en) as [e|] eqn:Een; [|discriminate].
  cbv beta iota.
  destruct (num_sub e s) as [d|] eqn:Ed; [|discriminate].
  intros H. apply andb_prop in H as [Hs Hd].
  apply fits_float_inv in Hs as [fs Hs]. apply fits_float_inv in Hd as [fd Hd].
  exists st, en, s, d, fs, fd. repeat split; auto.
  rewrite Een, Est. exact Ed.
Qed.

Lemma num_add_float o d fd :
  to_float d = Ok fd -> num_add (NFloat o) d = Ok (NFloat (o + fd)%float).
Proof.
  intros H. destruct d as [z|f]; simpl in *.
  - rewrite H. reflexivity.
  - injection H as ->. reflexivity.
Qed.

Lemma time_string_fits n f :
  to_float n = Ok f ->
  TimelineGenerator.time_to_seconds_string n = Ok (format_3f_float f ++ "s").
Proof.
  intros H. unfold TimelineGenerator.time_to_seconds_string, format_3f.
  rewrite H. reflexivity.
Qed.

(** The loop entered at segment number [n] with a float offset [o]. *)
Lemma clips_from media_id segs :
  forallb well_timed segs = true ->
  forall n o,
    let edl := edit_decision_list (NFloat o) segs in
    exists cl final,
      TimelineGenerator.clips media_id n (NFloat o) segs = Ok (cl, final) /\
      length cl = length segs /\ length edl = length segs /\
      (forall i ed clip, edl !! i = Some ed -> cl !! i = Some clip ->
                         renders media_id (n + Z.of_nat i + 1) ed clip) /\
      sum_durations (NFloat o) (map ed_duration edl) = Ok final.
Proof.
  induction segs as [|seg segs IH]; intros H n o.
  - exists [], (NFloat o). simpl. repeat split; auto. intros i ed clip Hi. destruct i; discriminate.
  - simpl in H. apply andb_prop in H as [Hseg Hrest].
    destruct (well_timed_inv _ Hseg) as (st & en & s & d & fs & fd & Hst & Hen & Hs & Hd & Hfs & Hfd).
    destruct (IH Hrest (n + 1) (o + fd)%float) as (cl & final & Hcl & Hlen & Hlen' & Hrend & Hsum).
    pose proof (time_string_fits (NFloat o) o eq_refl) as Ho.
    cbn [TimelineGenerator.clips edit_decision_list]. rewrite Hst, Hen. cbn [rbind].
    unfold TimelineGenerator.time_string_of. rewrite Hs, Hd. cbn [rbind].
    rewrite Ho, (time_string_fits s fs Hfs), (time_string_fits d fd Hfd). cbn [rbind].
    rewrite (num_add_float o d fd Hfd). cbn [rbind]. rewrite Hcl. cbn [rbind fst snd].
    eexists _, final. split; [reflexivity|].
    split; [simpl; congruence|]. split; [simpl; congruence|]. split.
    + intros [|i] ed clip Hed Hclip; simpl in Hed, Hclip.
      * injection Hed as <-. injection Hclip as <-.
        exists (format_3f_float o ++ "s"), (format_3f_float fs ++ "s"), (format_3f_float fd ++ "s").
        cbn [ed_offset ed_source_start ed_duration].
        rewrite Ho, (time_string_fits s fs Hfs), (time_string_fits d fd Hfd).
        replace (n + Z.of_nat 0 + 1) with (n + 1) by lia. auto.
      * replace (n + Z.of_nat (S i) + 1) with (n + 1 + Z.of_nat i + 1) by lia.
        eapply Hrend; eauto.
    + cbn [map ed_duration sum_durations].
      rewrite (num_add_float o d fd Hfd). cbn [rbind]. exact Hsum.
Qed.















(** *** The timeline document *)

(** The [sequence] record, under [library/event/project]. *)
Definition sequence_of (doc : element) : option element :=
  library ← find_child "library" doc;
  event ← find_child "event" library;
  project ← find_child "project" event;
  find_child "sequence" project.

Definition declared_duration (doc : element) : option string :=
  sequence ← sequence_of doc;
  attr_get "duration" (el_attrib sequence).

(** The clip records, under [sequence/spine]. *)
Definition clips_of (doc : element) : option (list element) :=
  sequence ← sequence_of doc;
  spine ← find_child "spine" sequence;
  Some (el_children spine).

(** The [frameDuration] of the [format] record, under [resources]. *)
Definition written_frame_duration (doc : element) : option string :=
  resources ← find_child "resources" doc;
  format ← find_child "format" resources;
  attr_get "frameDuration" (el_attrib format).

Definition example_stream (num denom : Z) : TimelineGenerator.video_stream :=
  {| TimelineGenerator.vs_width := 1920; TimelineGenerator.vs_height := 1080;
     TimelineGenerator.vs_num := num; TimelineGenerator.vs_denom := denom |}.

Definition example_generator : TimelineGenerator.self :=
  {| TimelineGenerator.transcript_folder := "edited";
     TimelineGenerator.video_folder := "edited_segments";
     TimelineGenerator.output_folder := "timelines";
     TimelineGenerator.log_base_dir := Some "logs" |}.

(** [create_fcpxml] on the example segments, for a source whose probe
    reports the frame rate [num/denom], in an empty world. *)
Definition example_create_fcpxml (num denom : Z) : result unit * world :=
  TimelineGenerator.create_fcpxml
    (fun _ _ => Ok (Some (example_stream num denom)))
    (fun _ => "asset-1") (fun p => "/videos/" ++ p)
    example_segments "talk.mp4" "timelines/talk_timeline.xml" empty_world.

Definition written_document (out : result unit * world) (path : string) : option element :=
  match fs (snd out) !! path with
  | Some (XmlDoc doc) => Some doc
  | _ => None
  end.

Lemma fcpxml_document_sequence width height frame_rate frame_duration media_id src segs doc :
  TimelineGenerator.fcpxml_document width height frame_rate frame_duration media_id src segs
  = Ok doc ->
  declared_duration doc = Some "3600s" /\
  written_frame_duration doc = Some frame_duration /\
  exists final, TimelineGenerator.clips media_id 0 (NFloat 0) segs = Ok (default [] (clips_of doc), final).
Proof.
  unfold TimelineGenerator.fcpxml_document.
  destruct (py_int frame_rate) as [rate|]; [|discriminate]. cbn [rbind].
  destruct (TimelineGenerator.clips media_id 0 (NFloat 0) segs) as [[cl final]|]; [|discriminate].
  cbn [rbind fst]. intros H. injection H as <-.
  repeat split. exists final. reflexivity.
Qed.

(** *** Reasoning about statements *)

Lemma bind_ok_inv {A B} (m : M A) (k : A -> M B) w b w2 :
  bind m k w = (Ok b, w2) ->
  exists a w1, m w = (Ok a, w1) /\ k a w1 = (Ok b, w2).
Proof.
  unfold bind. destruct (m w) as [[a|e] w1]; [eauto | discriminate].
Qed.

Lemma bind_ok {A B} (m : M A) (k : A -> M B) w a w1 :
  m w = (Ok a, w1) -> bind m k w = k a w1.
Proof. unfold bind. intros ->. reflexivity. Qed.

Lemma bind_raise {A B} (m : M A) (k : A -> M B) w e w1 :
  m w = (Raise e, w1) -> bind m k w = (Raise e, w1).
Proof. unfold bind. intros ->. reflexivity. Qed.

Lemma try_except_ok {A} (body : M A) handlers w a w1 :
  body w = (Ok a, w1) -> try_except body handlers w = (Ok a, w1).
Proof. unfold try_except. intros ->. reflexivity. Qed.

(** A [try] statement that ends normally: its body did, or a handler did. *)
Lemma try_except_ok_inv {A} (body : M A) handlers w a w2 :
  try_except body handlers w = (Ok a, w2) ->
  body w = (Ok a, w2) \/
  exists e w1 h, body w = (Raise e, w1) /\ In h handlers /\ snd h e w1 = (Ok a, w2).
Proof.
  unfold try_except. destruct (body w) as [[x|e] w1]; [auto|].
  destruct (List.find _ handlers) as [h|] eqn:Hfind; [|discriminate].
  intros H. right. exists e, w1, h. apply find_some in Hfind. tauto.
Qed.

(** ... and when every handler raises, it was the body. *)
Lemma try_except_rethrow_inv {A} (body : M A) handlers w a w2 :
  Forall (fun h => forall e w1, exists e' w1', snd h e w1 = (Raise e', w1')) handlers ->
  try_except body handlers w = (Ok a, w2) ->
  body w = (Ok a, w2).
Proof.
  intros Hh H. apply try_except_ok_inv in H as [H|(e & w1 & h & _ & Hin & Hok)]; [exact H|].
  rewrite Forall_forall in Hh. apply list_elem_of_In in Hin.
  destruct (Hh h Hin e w1) as (e' & w1' & Hr).
  pose proof (eq_trans (eq_sym Hok) Hr) as Habs. discriminate Habs.
Qed.

Lemma lift_ok_inv {A} (r : result A) w a w1 :
  lift r w = (Ok a, w1) -> r = Ok a /\ w1 = w.
Proof. unfold lift. intros H. injection H as -> ->. auto. Qed.

Lemma call_ext_ok_inv {A} (f : world -> result A) w a w1 :
  call_ext f w = (Ok a, w1) -> f w = Ok a /\ w1 = step_tick w.
Proof. unfold call_ext. intros H. injection H as -> ->. auto. Qed.

Lemma write_file_ok_inv p c w u w1 :
  write_file p c w = (Ok u, w1) ->
  (p ∉ protected w) /\ w1 = with_fs w (<[p := c]> (fs w)).
Proof.
  unfold write_file. case_bool_decide as Hp; [discriminate|].
  intros Heq. injection Heq as _ <-. auto.
Qed.

Section TimelineDocument.

Variable asctime : world -> string.
Variable probe : string -> world -> result (option TimelineGenerator.video_stream).
Variable uuid4 : world -> string.
Variable abspath : string -> string.

Lemma get_video_metadata_ok_inv video w meta w1 :
  TimelineGenerator.get_video_metadata probe video w = (Ok meta, w1) ->
  exists vs frame_rate,
    probe video w = Ok (Some vs) /\
    num_truediv (NInt (TimelineGenerator.vs_num vs)) (NInt (TimelineGenerator.vs_denom vs))
    = Ok frame_rate /\
    meta = (TimelineGenerator.vs_width vs, TimelineGenerator.vs_height vs, frame_rate) /\
    w1 = step_tick w.
Proof.
  unfold TimelineGenerator.get_video_metadata. intros H.
  apply try_except_rethrow_inv in H;
    [|repeat constructor; intros; eexists _, _; reflexivity].
  apply bind_ok_inv in H as (found & w0 & Hprobe & H).
  apply call_ext_ok_inv in Hprobe as [Hprobe ->].
  destruct found as [vs|]; [|discriminate].
  apply bind_ok_inv in H as (frame_rate & w0 & Hrate & H).
  apply lift_ok_inv in Hrate as [Hrate ->].
  injection H as <- <-. exists vs, frame_rate. auto.
Qed.

(** What a successful [create_fcpxml] leaves at [output_path]. *)
Lemma create_fcpxml_writes segs video out w w' :
  TimelineGenerator.create_fcpxml probe uuid4 abspath segs video out w = (Ok tt, w') ->
  exists vs frame_rate frame_duration doc,
    probe video w = Ok (Some vs) /\
    num_truediv (NInt (TimelineGenerator.vs_num vs)) (NInt (TimelineGenerator.vs_denom vs))
    = Ok frame_rate /\
    TimelineGenerator.frame_duration frame_rate = Ok frame_duration /\
    fs w' !! out = Some (XmlDoc doc) /\
    declared_duration doc = Some "3600s" /\
    written_frame_duration doc = Some frame_duration /\
    exists final,
      TimelineGenerator.clips (uuid4 (step_tick w)) 0 (NFloat 0) segs
      = Ok (default [] (clips_of doc), final).
Proof.
  unfold TimelineGenerator.create_fcpxml. intros H.
  apply try_except_rethrow_inv in H;
    [|repeat constructor; intros; eexists _, _; reflexivity].
  apply bind_ok_inv in H as (meta & w1 & Hmeta & H).
  apply get_video_metadata_ok_inv in Hmeta as (vs & frame_rate & Hprobe & Hrate & -> & ->).
  apply bind_ok_inv in H as (fd & w1 & Hfd & H). apply lift_ok_inv in Hfd as [Hfd ->].
  apply bind_ok_inv in H as (media_id & w1 & Hid & H). injection Hid as <- <-.
  apply bind_ok_inv in H as (doc & w1 & Hdoc & H). apply lift_ok_inv in Hdoc as [Hdoc ->].
  apply bind_ok_inv in H as (u & w1 & Hwrite & H).
  apply write_file_ok_inv in Hwrite as [_ ->].
  injection H as <-.
  destruct (fcpxml_document_sequence _ _ _ _ _ _ _ _ Hdoc) as (Hdur & Hfdw & final & Hclips).
  exists vs, frame_rate, fd, doc. cbn. rewrite lookup_insert_eq.
  repeat split; auto. exists final. exact Hclips.
Qed.

End TimelineDocument.

(** C10: whatever the segments and the source video, the [sequence] record of
    the timeline document that [create_fcpxml] writes carries the duration
    ["3600s"]; the document exists for every list of well-timed segments, and
    for the example segments, whose clips last 5.5 seconds in total, the
    declared duration is still ["3600s"]. *)
Theorem sequence_duration_is_fixed :
  (forall probe uuid4 abspath segs video out w w',
     TimelineGenerator.create_fcpxml probe uuid4 abspath segs video out w = (Ok tt, w') ->
     exists doc, fs w' !! out = Some (XmlDoc doc) /\ declared_duration doc = Some "3600s") /\
  (forall width height frame_rate frame_duration media_id src segs rate,
     forallb well_timed segs = true -> py_int frame_rate = Ok rate ->
     exists doc,
       TimelineGenerator.fcpxml_document width height frame_rate frame_duration media_id src segs
       = Ok doc /\
       declared_duration doc = Some "3600s") /\
  (written_document (example_create_fcpxml 25 1) "timelines/talk_timeline.xml"
     ≫= declared_duration = Some "3600s" /\
   (let* emitted := TimelineGenerator.clips "asset-1" 0 (NFloat 0) example_segments in
    Ok (snd emitted)) = Ok (NFloat 5.5)).
Proof.
  split; [|split].
  - intros probe uuid4 abspath segs video out w w' H.
    destruct (create_fcpxml_writes _ _ _ _ _ _ _ _ H)
      as (vs & fr & fd & doc & _ & _ & _ & Hdoc & Hdur & _).
    exists doc. auto.
  - intros width height frame_rate frame_duration media_id src segs rate Hsegs Hrate.
    destruct (clips_from media_id segs Hsegs 0 0%float) as (cl & final & Hcl & _).
    unfold TimelineGenerator.fcpxml_document. rewrite Hrate, Hcl. cbn [rbind fst].
    eexists. split; reflexivity.
  - split; vm_compute; reflexivity.
Qed.

Lemma sequence_duration_is_fixed_witness :
  exists doc,
    fs (snd (example_create_fcpxml 25 1)) !! "timelines/talk_timeline.xml" = Some (XmlDoc doc) /\
    declared_duration doc = Some "3600s".
Proof.
  apply (proj1 sequence_duration_is_fixed
           (fun _ _ => Ok (Some (example_stream 25 1)))
           (fun _ => "asset-1") (fun p => "/videos/" ++ p)
           example_segments "talk.mp4" "timelines/talk_timeline.xml" empty_world).
  vm_compute. reflexivity.
Defined.

(** *** Frame duration *)

(** C8 (counterexample): for a source at 30/1 frames per second the frame
    duration written into the document is 3333/100000 s, which is not the
    reciprocal 1/30 s. *)
Lemma frame_duration_not_reciprocal_at_30fps :
  written_document (example_create_fcpxml 30 1) "timelines/talk_timeline.xml"
    ≫= written_frame_duration = Some "3333/100000s" /\
  ~ (3333 # 100000 == 1 # 30)%Q.
Proof. split; [vm_compute; reflexivity | intros H; vm_compute in H; discriminate]. Qed.

(** Integer frame rates from 1 to 3000 frames per second and the NTSC rates. *)
Definition common_rates : list (Z * Z) :=
  map (fun k => (Z.of_nat k, 1)) (seq 1 3000)
  ++ [(24000, 1001); (30000, 1001); (60000, 1001)].

Definition common_rate (num denom : Z) : bool :=
  existsb (fun r => (fst r =? num) && (snd r =? denom)) common_rates.

(** The [frame_duration] string for the frame rate [num/denom]. *)
Definition frame_duration_of (num denom : Z) : result string :=
  let* frame_rate := num_truediv (NInt num) (NInt denom) in
  TimelineGenerator.frame_duration frame_rate.

Definition truncated_reciprocal (num denom : Z) : string :=
  str_of_int (100000 * denom / num) ++ "/100000s".

Definition rate_checked (r : Z * Z) : bool :=
  (1 <=? fst r) &&
  match frame_duration_of (fst r) (snd r) with
  | Ok s => String.eqb s (truncated_reciprocal (fst r) (snd r))
  | Raise _ => false
  end.

Lemma common_rates_checked : forallb rate_checked common_rates = true.
Proof. vm_compute. reflexivity. Qed.

Lemma common_rate_frame_duration num denom :
  common_rate num denom = true ->
  1 <= num /\ frame_duration_of num denom = Ok (truncated_reciprocal num denom).
Proof.
  unfold common_rate. intros H. apply existsb_exists in H as ([n d] & Hin & Heq).
  cbn [fst snd] in Heq. apply andb_prop in Heq as [Hn Hd].
  apply Z.eqb_eq in Hn as ->. apply Z.eqb_eq in Hd as ->.
  pose proof common_rates_checked as Hall.
  rewrite List.forallb_forall in Hall. specialize (Hall _ Hin).
  unfold rate_checked in Hall. cbn [fst snd] in Hall.
  apply andb_prop in Hall as [Hpos Hfd]. apply Z.leb_le in Hpos.
  destruct (frame_duration_of num denom) as [s|]; [|discriminate].
  apply String.eqb_eq in Hfd as ->. auto.
Qed.

(** C8 (amended): for every integer frame rate from 1 to 3000 and for the
    NTSC rates 24000/1001, 30000/1001 and 60000/1001, the frame duration
    written into the timeline document is [N/100000s] with
    [N = floor(100000 * denom / num)]: the reciprocal of the frame rate
    truncated to a multiple of 1/100000 second. It is at most the reciprocal,
    misses it by less than 1/100000 second, and equals it exactly when [num]
    divides [100000 * denom]. *)
Theorem frame_duration_truncates_reciprocal
    probe uuid4 abspath segs video out w w' vs :
  let num := TimelineGenerator.vs_num vs in
  let denom := TimelineGenerator.vs_denom vs in
  let n := 100000 * denom / num in
  probe video w = Ok (Some vs) ->
  common_rate num denom = true ->
  frame_duration_of num denom = Ok (str_of_int n ++ "/100000s") /\
  (TimelineGenerator.create_fcpxml probe uuid4 abspath segs video out w = (Ok tt, w') ->
   exists doc,
     fs w' !! out = Some (XmlDoc doc) /\
     written_frame_duration doc = Some (str_of_int n ++ "/100000s")) /\
  n * num <= 100000 * denom < (n + 1) * num /\
  (n * num = 100000 * denom <-> (num | 100000 * denom)).
Proof.
  intros num denom n Hprobe Hrate.
  destruct (common_rate_frame_duration num denom Hrate) as [Hpos Hfd].
  split; [exact Hfd|]. split; [|split].
  - intros H.
    destruct (create_fcpxml_writes _ _ _ _ _ _ _ _ H)
      as (vs' & fr & fd & doc & Hprobe' & Hfr & Hfd' & Hdoc & _ & Hw & _).
    rewrite Hprobe in Hprobe'. injection Hprobe' as <-.
    exists doc. split; [exact Hdoc|]. rewrite Hw. f_equal.
    unfold frame_duration_of in Hfd. fold num denom in Hfr. rewrite Hfr in Hfd.
    cbn [rbind] in Hfd. unfold truncated_reciprocal in Hfd. fold n in Hfd. congruence.
  - subst n.
    pose proof (Z.mul_div_le (100000 * denom) num ltac:(lia)).
    pose proof (Z.mul_succ_div_gt (100000 * denom) num ltac:(lia)). lia.
  - subst n. split.
    + intros H. exists (100000 * denom / num). lia.
    + intros [k Hk]. rewrite Hk. rewrite Z.div_mul by lia. reflexivity.
Qed.

Lemma frame_duration_truncates_reciprocal_witness :
  frame_duration_of 25 1 = Ok "4000/100000s" /\
  frame_duration_of 30000 1001 = Ok "3336/100000s".
Proof.
  split.
  - exact (proj1 (frame_duration_truncates_reciprocal
                    (fun _ _ => Ok (Some (example_stream 25 1))) (fun _ => "asset-1")
                    (fun p => p) example_segments "talk.mp4" "out.xml"
                    empty_world empty_world (example_stream 25 1) eq_refl eq_refl)).
  - exact (proj1 (frame_duration_truncates_reciprocal
                    (fun _ _ => Ok (Some (example_stream 30000 1001))) (fun _ => "asset-1")
                    (fun p => p) example_segments "talk.mp4" "out.xml"
                    empty_world empty_world (example_stream 30000 1001) eq_refl eq_refl)).
Defined.

(** ** Retry policy of the text-cleaning call *)

Definition is_post (ev : io_event) : bool :=
  match ev with
  | EvPost _ _ => true
  | _ => false
  end.

(** Number of requests sent so far. *)
Definition posts_made (w : world) : nat := length (List.filter is_post (trace w)).

(** A service whose answer to the [k]-th request ever sent is [script k]. *)
Definition scripted (script : nat -> result pyval)
  : string -> pyval -> Z -> world -> result pyval :=
  fun _ _ _ w => script (posts_made w).

(** [n] failed attempts from retry number [k] on: each request is followed by
    a sleep of [2^k], [2^(k+1)], ... seconds. *)
Fixpoint backoff_events (request : io_event) (k : Z) (n : nat) : list io_event :=
  match n with
  | O => []
  | S n' => request :: EvSleep (2 ^ k) :: backoff_events request (k + 1) n'
  end.

Definition example_editor : LLMEditingAgent.self :=
  {| LLMEditingAgent.transcript_input_folder := "transcripts";
     LLMEditingAgent.output_folder := "edited";
     LLMEditingAgent.model_name := "llama3";
     LLMEditingAgent.log_base_dir := Some "logs";
     LLMEditingAgent.timeout := 300;
     LLMEditingAgent.max_retries := 3;
     LLMEditingAgent.ollama_url := "http://localhost:11434" |}.

Definition connection_refused : exn := Exn RequestException "connection refused".

Lemma posts_made_add_post w url body :
  posts_made (add_event w (EvPost url body)) = S (posts_made w).
Proof.
  unfold posts_made. cbn [trace add_event]. rewrite List.filter_app, length_app.
  cbn. lia.
Qed.

Lemma backoff_events_posts request k n :
  is_post request = true ->
  length (List.filter is_post (backoff_events request k n)) = n.
Proof.
  intros Hp. revert k. induction n as [|n IH]; intros k; [reflexivity|].
  cbn [backoff_events List.filter]. rewrite Hp. cbn [is_post length].
  rewrite IH. reflexivity.
Qed.

Section Retry.

Variable script : nat -> result pyval.
Variable me : LLMEditingAgent.self.

Abbreviation call_llm_api := (LLMEditingAgent.call_llm_api (scripted script) me).
Abbreviation request_once := (LLMEditingAgent.request_once (scripted script) me).
Abbreviation max_retries := (LLMEditingAgent.max_retries me).

Definition request_event (prompt : string) : io_event :=
  EvPost (LLMEditingAgent.ollama_url me ++ "/api/generate")
    (LLMEditingAgent.generate_request me prompt).

Definition exhausted (e : exn) : exn :=
  Exn RuntimeError
    ("Failed to call LLM API after " ++ str_of_int max_retries ++ " retries: " ++ exn_str e).

Lemma call_llm_api_unfold prompt retry_count w :
  call_llm_api prompt retry_count w =
  match request_once prompt w with
  | (Ok text, w1) => (Ok text, w1)
  | (Raise e, w1) =>
      if isinstance_exn e RequestException then
        if Z_lt_dec retry_count max_retries
        then call_llm_api prompt (retry_count + 1)
               (snd (LLMEditingAgent.before_retry me retry_count e w1))
        else (Raise (exhausted e), w1)
      else (Raise e, w1)
  end.
Proof.
  simp call_llm_api.
  destruct (request_once prompt w) as [[text|e] w1]; simpl; [reflexivity|].
  destruct (isinstance_exn e RequestException); simpl; [|reflexivity].
  destruct (Z_lt_dec retry_count max_retries); reflexivity.
Qed.

Lemma request_once_scripted prompt w :
  request_once prompt w =
  (match script (posts_made w) with
   | Ok response => py_getitem response "response"
   | Raise e => Raise e
   end,
   add_event w (request_event prompt)).
Proof.
  unfold LLMEditingAgent.request_once, LLMEditingAgent.http_post, bind, lift, scripted.
  destruct (script (posts_made w)); reflexivity.
Qed.

Lemma before_retry_world retry_count e w :
  let w' := snd (LLMEditingAgent.before_retry me retry_count e w) in
  trace w' = (trace w ++ [EvSleep (2 ^ retry_count)])%list /\ posts_made w' = posts_made w /\
  fs w' = fs w /\ protected w' = protected w /\ dirs w' = dirs w.
Proof.
  unfold posts_made. cbn. rewrite List.filter_app, length_app. cbn.
  repeat split; lia.
Qed.

(** [n] transient failures followed by a success, entered at [retry_count]. *)
Lemma retry_then_success prompt response text :
  py_getitem response "response" = Ok text ->
  forall (n : nat) retry_count w,
    retry_count + Z.of_nat n <= max_retries ->
    (forall k, (k < n)%nat ->
       exists e, script (posts_made w + k)%nat = Raise e /\
                 isinstance_exn e RequestException = true) ->
    script (posts_made w + n)%nat = Ok response ->
    exists w',
      call_llm_api prompt retry_count w = (Ok text, w') /\
      trace w' = (trace w ++ backoff_events (request_event prompt) retry_count n
                          ++ [request_event prompt])%list /\
      fs w' = fs w.
Proof.
  intros Htext n. induction n as [|n IH]; intros retry_count w Hle Hfail Hok.
  - rewrite call_llm_api_unfold, request_once_scripted.
    rewrite Nat.add_0_r in Hok. rewrite Hok, Htext.
    eexists. split; [reflexivity|]. split; reflexivity.
  - rewrite call_llm_api_unfold, request_once_scripted.
    destruct (Hfail O ltac:(lia)) as (e & He & Hreq). rewrite Nat.add_0_r in He.
    rewrite He, Hreq.
    destruct (Z_lt_dec retry_count max_retries) as [_|Hge]; [|lia].
    set (w1 := add_event w (request_event prompt)).
    destruct (before_retry_world retry_count e w1) as (Htr & Hposts & Hfs & _).
    assert (Hposts' : posts_made (snd (LLMEditingAgent.before_retry me retry_count e w1))
                      = S (posts_made w)).
    { rewrite Hposts. apply posts_made_add_post. }
    destruct (IH (retry_count + 1) (snd (LLMEditingAgent.before_retry me retry_count e w1)))
      as (w' & Hcall & Htrace & Hfs').
    + lia.
    + intros k Hk. rewrite Hposts'.
      replace (S (posts_made w) + k)%nat with (posts_made w + S k)%nat by lia.
      apply Hfail. lia.
    + rewrite Hposts'.
      replace (S (posts_made w) + n)%nat with (posts_made w + S n)%nat by lia. exact Hok.
    + exists w'. split; [exact Hcall|]. split.
      * rewrite Htrace, Htr. subst w1. cbn [trace add_event backoff_events].
        rewrite <- !app_assoc. reflexivity.
      * rewrite Hfs', Hfs. reflexivity.
Qed.

(** Failure on every attempt, entered at [retry_count] with [n] retries left. *)
Lemma retry_exhausted prompt :
  forall (n : nat) retry_count w,
    retry_count + Z.of_nat n = max_retries ->
    (forall k, (k <= n)%nat ->
       exists e, script (posts_made w + k)%nat = Raise e /\
                 isinstance_exn e RequestException = true) ->
    exists e w',
      script (posts_made w + n)%nat = Raise e /\
      call_llm_api prompt retry_count w = (Raise (exhausted e), w') /\
      trace w' = (trace w ++ backoff_events (request_event prompt) retry_count n
                          ++ [request_event prompt])%list /\
      fs w' = fs w.
Proof.
  induction n as [|n IH]; intros retry_count w Hle Hfail.
  - rewrite call_llm_api_unfold, request_once_scripted.
    destruct (Hfail O ltac:(lia)) as (e & He & Hreq).
    exists e. rewrite Nat.add_0_r in *. rewrite He, Hreq.
    destruct (Z_lt_dec retry_count max_retries) as [Hlt|_]; [lia|].
    eexists. split; [reflexivity|]. split; [reflexivity|]. split; reflexivity.
  - rewrite call_llm_api_unfold, request_once_scripted.
    destruct (Hfail O ltac:(lia)) as (e & He & Hreq). rewrite Nat.add_0_r in He.
    rewrite He, Hreq.
    destruct (Z_lt_dec retry_count max_retries) as [_|Hge]; [|lia].
    set (w1 := add_event w (request_event prompt)).
    destruct (before_retry_world retry_count e w1) as (Htr & Hposts & Hfs & _).
    assert (Hposts' : posts_made (snd (LLMEditingAgent.before_retry me retry_count e w1))
                      = S (posts_made w)).
    { rewrite Hposts. apply posts_made_add_post. }
    destruct (IH (retry_count + 1) (snd (LLMEditingAgent.before_retry me retry_count e w1)))
      as (e' & w' & Hlast & Hcall & Htrace & Hfs').
    + lia.
    + intros k Hk. rewrite Hposts'.
      replace (S (posts_made w) + k)%nat with (posts_made w + S k)%nat by lia.
      apply Hfail. lia.
    + exists e', w'. split.
      * rewrite Hposts' in Hlast.
        replace (posts_made w + S n)%nat with (S (posts_made w) + n)%nat by lia. exact Hlast.
      * split; [exact Hcall|]. split.
        -- rewrite Htrace, Htr. subst w1. cbn [trace add_event backoff_events].
           rewrite <- !app_assoc. reflexivity.
        -- rewrite Hfs', Hfs. reflexivity.
Qed.

End Retry.

Lemma posts_after_retries w w' request k n :
  is_post request = true ->
  trace w' = (trace w ++ backoff_events request k n ++ [request])%list ->
  posts_made w' = (posts_made w + n + 1)%nat.
Proof.
  intros Hp Htr. unfold posts_made. rewrite Htr.
  rewrite !List.filter_app, !length_app, (backoff_events_posts _ _ _ Hp).
  cbn [List.filter]. rewrite Hp. cbn [length]. lia.
Qed.

(** C4 (counterexample): with [max_retries = 3] and a service that refuses
    every request, the call gives up after four requests, not three. *)
Lemma three_retries_make_four_attempts :
  let outcome :=
    LLMEditingAgent.call_llm_api (scripted (fun _ => Raise connection_refused))
      example_editor "some text" 0 empty_world in
  LLMEditingAgent.max_retries example_editor = 3 /\
  fst outcome
  = Raise (Exn RuntimeError "Failed to call LLM API after 3 retries: connection refused") /\
  posts_made (snd outcome) = 4%nat.
Proof. vm_compute. repeat split. Qed.

(** C4 (amended): for a configured [max_retries >= 0], a request that fails
    transiently [n <= max_retries] times and then succeeds returns the
    successful response after [n + 1] attempts; a request that fails on every
    attempt ends in a permanent failure ([RuntimeError]) that wraps the last
    underlying error, after exactly [max_retries + 1] attempts (the first one
    and [max_retries] retries); in both cases the delay before retry number
    [k] (counted from 0) is [2^k] seconds. *)
Theorem retry_policy script me prompt w :
  let max := LLMEditingAgent.max_retries me in
  let request := request_event me prompt in
  0 <= max ->
  (forall (n : nat) response text,
     Z.of_nat n <= max ->
     (forall k, (k < n)%nat ->
        exists e, script (posts_made w + k)%nat = Raise e /\
                  isinstance_exn e RequestException = true) ->
     script (posts_made w + n)%nat = Ok response ->
     py_getitem response "response" = Ok text ->
     exists w',
       LLMEditingAgent.call_llm_api (scripted script) me prompt 0 w = (Ok text, w') /\
       trace w' = (trace w ++ backoff_events request 0 n ++ [request])%list /\
       posts_made w' = (posts_made w + n + 1)%nat) /\
  ((forall k, (k <= Z.to_nat max)%nat ->
      exists e, script (posts_made w + k)%nat = Raise e /\
                isinstance_exn e RequestException = true) ->
   exists e w',
     script (posts_made w + Z.to_nat max)%nat = Raise e /\
     LLMEditingAgent.call_llm_api (scripted script) me prompt 0 w
     = (Raise (exhausted me e), w') /\
     trace w' = (trace w ++ backoff_events request 0 (Z.to_nat max) ++ [request])%list /\
     posts_made w' = (posts_made w + Z.to_nat max + 1)%nat).
Proof.
  intros max request Hmax. split.
  - intros n response text Hn Hfail Hok Htext.
    destruct (retry_then_success script me prompt response text Htext n 0 w
                ltac:(lia) Hfail Hok) as (w' & Hcall & Htrace & _).
    exists w'. split; [exact Hcall|]. split; [exact Htrace|].
    eapply posts_after_retries; [|exact Htrace]. reflexivity.
  - intros Hfail.
    destruct (retry_exhausted script me prompt (Z.to_nat max) 0 w
                ltac:(fold max; lia) Hfail) as (e & w' & Hlast & Hcall & Htrace & _).
    exists e, w'. split; [exact Hlast|]. split; [exact Hcall|]. split; [exact Htrace|].
    eapply posts_after_retries; [|exact Htrace]. reflexivity.
Qed.

(** A service that refuses the first two requests and then answers. *)
Definition recovers_after_two (k : nat) : result pyval :=
  if (k <? 2)%nat then Raise connection_refused
  else Ok (PDict [("response", PStr "clean text")]).

Lemma retry_policy_witness :
  exists w',
    LLMEditingAgent.call_llm_api (scripted recovers_after_two) example_editor "some text" 0
      empty_world = (Ok (PStr "clean text"), w') /\
    trace w' = (trace empty_world
                ++ backoff_events (request_event example_editor "some text") 0 2
                ++ [request_event example_editor "some text"])%list /\
    posts_made w' = 3%nat.
Proof.
  refine (proj1 (retry_policy recovers_after_two example_editor "some text" empty_world _)
            2%nat (PDict [("response", PStr "clean text")]) (PStr "clean text") _ _ _ _).
  - vm_compute. discriminate.
  - vm_compute. discriminate.
  - intros k Hk. exists connection_refused. split; [|reflexivity].
    destruct k as [|[|k]]; [reflexivity | reflexivity | lia].
  - reflexivity.
  - reflexivity.
Defined.


(** ** Stage runner *)

(** [e] is an instance of [Exception]: an error, as opposed to a request to
    leave the interpreter. *)
Definition is_exception (e : exn) : bool := isinstance_exn e Exception_.

(** An evaluation that raises nothing but instances of [Exception]. *)
Definition pure_ok {A} (r : result A) : Prop :=
  forall e, r = Raise e -> is_exception e = true.

(** A statement that leaves the write protections alone and raises nothing
    but instances of [Exception]. *)
Definition orderly {A} (m : M A) : Prop :=
  forall w r w1, m w = (r, w1) -> protected w1 = protected w /\ pure_ok r.

(** A statement that always ends normally. *)
Definition total {A} (m : M A) : Prop :=
  forall w, exists a w1, m w = (Ok a, w1).

Lemma pure_ok_Ok {A} (a : A) : pure_ok (Ok a).
Proof. intros e H. discriminate. Qed.

Lemma pure_ok_raise {A} c msg :
  is_exception (Exn c "") = true -> pure_ok (@raise A c msg).
Proof. intros H e He. injection He as <-. exact H. Qed.

Lemma pure_ok_rbind {A B} (m : result A) (k : A -> result B) :
  pure_ok m -> (forall a, pure_ok (k a)) -> pure_ok (rbind m k).
Proof.
  intros Hm Hk. destruct m as [a|e]; simpl; [apply Hk|].
  intros e' He'. apply Hm. congruence.
Qed.

Create HintDb pure.

Ltac pure_tac :=
  repeat match goal with
  | |- pure_ok (Ok _) => apply pure_ok_Ok
  | |- pure_ok (raise _ _) => apply pure_ok_raise; reflexivity
  | |- pure_ok (rbind _ _) => apply pure_ok_rbind; [|intros ?]
  | |- pure_ok (match ?x with _ => _ end) => destruct x
  | |- pure_ok _ => solve [auto with pure]
  end.

Lemma pure_float_of_int z : pure_ok (float_of_int z).
Proof. unfold float_of_int. pure_tac. Qed.
#[local] Hint Resolve pure_float_of_int : pure.

Lemma pure_to_float n : pure_ok (to_float n).
Proof. unfold to_float. pure_tac. Qed.
#[local] Hint Resolve pure_to_float : pure.

Lemma pure_num_sub a b : pure_ok (num_sub a b).
Proof. unfold num_sub. pure_tac. Qed.

Lemma pure_num_add a b : pure_ok (num_add a b).
Proof. unfold num_add. pure_tac. Qed.

Lemma pure_num_mul a b : pure_ok (num_mul a b).
Proof. unfold num_mul. pure_tac. Qed.

Lemma pure_num_truediv a b : pure_ok (num_truediv a b).
Proof. unfold num_truediv. pure_tac. Qed.

Lemma pure_int_of_float f : pure_ok (int_of_float f).
Proof. unfold int_of_float. pure_tac. Qed.
#[local] Hint Resolve pure_num_sub pure_num_add pure_num_mul pure_num_truediv
  pure_int_of_float : pure.

Lemma pure_py_int n : pure_ok (py_int n).
Proof. unfold py_int. pure_tac. Qed.

Lemma pure_py_contains k v : pure_ok (py_contains k v).
Proof. unfold py_contains. pure_tac. Qed.

Lemma pure_py_getitem v k : pure_ok (py_getitem v k).
Proof. unfold py_getitem. pure_tac. Qed.
#[local] Hint Resolve pure_py_int pure_py_contains pure_py_getitem : pure.

Lemma pure_all_keys_in keys v : pure_ok (all_keys_in keys v).
Proof. induction keys as [|k ks IH]; cbn [all_keys_in]; pure_tac. Qed.
#[local] Hint Resolve pure_all_keys_in : pure.

Lemma pure_check_segments_silent segs : pure_ok (check_segments_silent segs).
Proof. induction segs as [|seg segs IH]; cbn [check_segments_silent]; pure_tac. Qed.
#[local] Hint Resolve pure_check_segments_silent : pure.

Lemma pure_validate_transcript_silent v : pure_ok (validate_transcript_silent v).
Proof. unfold validate_transcript_silent. pure_tac. Qed.

Lemma pure_iter_segments v : pure_ok (iter_segments v).
Proof. unfold iter_segments. pure_tac. Qed.

Lemma pure_to_ms v : pure_ok (to_ms v).
Proof. unfold to_ms. pure_tac. Qed.
#[local] Hint Resolve pure_validate_transcript_silent pure_iter_segments pure_to_ms : pure.

(** *** Statements *)

Lemma orderly_ret {A} (a : A) : orderly (ret a).
Proof. intros w r w1 H. injection H as <- <-. split; [reflexivity | apply pure_ok_Ok]. Qed.

Lemma orderly_throw {A} c msg : is_exception (Exn c "") = true -> orderly (@throw A c msg).
Proof.
  intros Hc w r w1 H. injection H as <- <-. split; [reflexivity | apply pure_ok_raise, Hc].
Qed.

Lemma orderly_reraise {A} e : is_exception e = true -> orderly (@reraise A e).
Proof.
  intros He w r w1 H. injection H as <- <-. split; [reflexivity|].
  intros e' He'. injection He' as <-. exact He.
Qed.

Lemma orderly_lift {A} (r : result A) : pure_ok r -> orderly (lift r).
Proof. intros Hr w r' w1 H. injection H as <- <-. auto. Qed.

Lemma orderly_bind {A B} (m : M A) (k : A -> M B) :
  orderly m -> (forall a, orderly (k a)) -> orderly (bind m k).
Proof.
  intros Hm Hk w r w2. unfold bind.
  destruct (m w) as [[a|e] w1] eqn:Em; intros H.
  - destruct (Hm _ _ _ Em) as [Hp _]. destruct (Hk a _ _ _ H) as [Hp' Hr].
    split; [congruence | exact Hr].
  - injection H as <- <-. destruct (Hm _ _ _ Em) as [Hp Hr]. split; [exact Hp|].
    intros e' He'. injection He' as <-. apply Hr. reflexivity.
Qed.

Lemma orderly_log_msg lv msg : orderly (log_msg lv msg).
Proof. intros w r w1 H. injection H as <- <-. split; [reflexivity | apply pure_ok_Ok]. Qed.

Lemma orderly_path_exists p : orderly (path_exists p).
Proof. intros w r w1 H. injection H as <- <-. split; [reflexivity | apply pure_ok_Ok]. Qed.

Lemma orderly_write_file p c : orderly (write_file p c).
Proof.
  intros w r w1. unfold write_file. case_bool_decide; intros Heq; injection Heq as <- <-.
  - split; [reflexivity | apply pure_ok_raise; reflexivity].
  - split; [reflexivity | apply pure_ok_Ok].
Qed.

Lemma orderly_read_json p : orderly (read_json p).
Proof.
  intros w r w1. unfold read_json.
  destruct (fs w !! p) as [[]|]; intros H; injection H as <- <-;
    (split; [reflexivity | first [apply pure_ok_Ok | apply pure_ok_raise; reflexivity]]).
Qed.

Lemma orderly_remove_file p : orderly (remove_file p).
Proof.
  intros w r w1. unfold remove_file.
  destruct (fs w !! p); intros H; injection H as <- <-;
    (split; [reflexivity | first [apply pure_ok_Ok | apply pure_ok_raise; reflexivity]]).
Qed.

Lemma orderly_makedirs p : orderly (makedirs p).
Proof. intros w r w1 H. injection H as <- <-. split; [reflexivity | apply pure_ok_Ok]. Qed.

Lemma orderly_rmdir p : orderly (rmdir p).
Proof.
  intros w r w1. unfold rmdir. repeat case_match; intros Heq; injection Heq as <- <-;
    (split; [reflexivity | first [apply pure_ok_Ok | apply pure_ok_raise; reflexivity]]).
Qed.

Lemma orderly_call_ext {A} (f : world -> result A) :
  (forall w, pure_ok (f w)) -> orderly (call_ext f).
Proof. intros Hf w r w1 H. injection H as <- <-. split; [reflexivity | apply Hf]. Qed.

Lemma orderly_try_except {A} (body : M A) handlers :
  orderly body ->
  Forall (fun h => forall e, is_exception e = true -> orderly (snd h e)) handlers ->
  orderly (try_except body handlers).
Proof.
  intros Hb Hh w r w2. unfold try_except.
  destruct (body w) as [[a|e] w1] eqn:Eb.
  - intros H. injection H as <- <-. exact (Hb _ _ _ Eb).
  - destruct (Hb _ _ _ Eb) as [Hp He].
    destruct (List.find _ handlers) as [h|] eqn:Hfind.
    + apply find_some in Hfind as [Hin _]. apply list_elem_of_In in Hin.
      rewrite Forall_forall in Hh. intros H.
      destruct (Hh h Hin e (He e eq_refl) _ _ _ H) as [Hp' Hr]. split; [congruence | exact Hr].
    + intros H. injection H as <- <-. auto.
Qed.

Lemma orderly_try_finally {A} (body : M A) fin :
  orderly body -> orderly fin -> orderly (try_finally body fin).
Proof.
  intros Hb Hf w r w2. unfold try_finally.
  destruct (body w) as [rb w1] eqn:Eb. destruct (fin w1) as [[u|e] w1'] eqn:Ef; intros H.
  - injection H as <- <-. destruct (Hb _ _ _ Eb) as [Hp Hr], (Hf _ _ _ Ef) as [Hp' _].
    split; [congruence | exact Hr].
  - injection H as <- <-. destruct (Hb _ _ _ Eb) as [Hp _], (Hf _ _ _ Ef) as [Hp' Hr].
    split; [congruence|]. intros e' He'. injection He' as <-. apply Hr. reflexivity.
Qed.

Lemma orderly_for_each {A} (l : list A) (f : A -> M unit) :
  (forall x, orderly (f x)) -> orderly (for_each l f).
Proof.
  intros Hf. induction l as [|x l IH]; cbn [for_each].
  - apply orderly_ret.
  - apply orderly_bind; auto.
Qed.


Create HintDb orderly.

Ltac orderly_tac :=
  repeat match goal with
  | |- orderly (ret _) => apply orderly_ret
  | |- orderly (bind _ _) => apply orderly_bind; [|intros ?]
  | |- orderly (throw _ _) => apply orderly_throw; reflexivity
  | |- orderly (reraise _) => apply orderly_reraise; assumption
  | |- orderly (lift _) => apply orderly_lift; pure_tac
  | |- orderly (log_msg _ _) => apply orderly_log_msg
  | |- orderly (path_exists _) => apply orderly_path_exists
  | |- orderly (write_file _ _) => apply orderly_write_file
  | |- orderly (read_json _) => apply orderly_read_json
  | |- orderly (remove_file _) => apply orderly_remove_file
  | |- orderly (makedirs _) => apply orderly_makedirs
  | |- orderly (rmdir _) => apply orderly_rmdir
  | |- orderly (try_except _ _) =>
      apply orderly_try_except;
      [|repeat (apply Forall_cons_2; [cbn [snd]; intros ? ?|]); try apply Forall_nil_2]
  | |- orderly (try_finally _ _) => apply orderly_try_finally
  | |- orderly (for_each _ _) => apply orderly_for_each; intros ?
  | |- orderly (match ?x with _ => _ end) => destruct x
  | |- orderly _ => solve [auto with orderly]
  end.

(** A loop whose body always ends normally runs the body on every item, one
    after the other. *)
Lemma for_each_total {A} (l : list A) (f : A -> M unit) :
  (forall x, total (f x)) ->
  forall w, for_each l f w = (Ok tt, fold_left (fun w x => snd (f x w)) l w).
Proof.
  intros Hf. induction l as [|x l IH]; intros w; [reflexivity|].
  cbn [for_each fold_left]. unfold bind.
  destruct (Hf x w) as ([] & w1 & Hx). rewrite Hx. cbn [snd]. apply IH.
Qed.

(** The decision log at [log_path] records [reason] for [file_name]. *)
Definition decision_recorded (w : world) (log_path file_name stage reason : string) : Prop :=
  exists timestamp,
    fs w !! log_path = Some (JsonDoc (decision_entry file_name stage reason timestamp)).

(** *** The transcriber stage *)

Section TranscriberStage.

Variable asctime : world -> string.
Variable listdir : string -> world -> result (list string).
Variable transcribe : string -> world -> result (list (float * float * string)).
Variable me : TranscriberAgent.self.

(** The speech recogniser fails with errors, not with interpreter exits. *)
Hypothesis transcribe_errors : forall p w, pure_ok (transcribe p w).

Abbreviation log_decision := (TranscriberAgent.log_decision asctime me).
Abbreviation process_file_try := (TranscriberAgent.process_file_try asctime transcribe me).
Abbreviation process_file := (TranscriberAgent.process_file asctime transcribe me).
Abbreviation run := (TranscriberAgent.run asctime listdir transcribe me).








End TranscriberStage.

(** A run over three recordings in which speech recognition fails on the
    second one. *)
Definition example_transcriber : TranscriberAgent.self :=
  {| TranscriberAgent.audio_input_folder := "denoised";
     TranscriberAgent.output_folder := "transcripts";
     TranscriberAgent.model_size := "base";
     TranscriberAgent.log_base_dir := Some "logs" |}.

Definition example_clock (w : world) : string := "2024-05-01 10:00:00,000".


Definition example_transcribe (audio_path : string) (w : world)
  : result (list (float * float * string)) :=
  if String.eqb audio_path "denoised/b_clean.wav"
  then raise RuntimeError "model failure"
  else Ok [(0%float, 2%float, " hello there ")].

Definition three_recordings : world :=
  with_fs empty_world
    (<["denoised/a_clean.wav" := Blob "a"]>
       (<["denoised/b_clean.wav" := Blob "b"]>
          (<["denoised/c_clean.wav" := Blob "c"]> ∅))).

Definition decision_of (w : world) (log_path : string) : option pyval :=
  match fs w !! log_path with
  | Some (JsonDoc (PDict d)) => dict_get "decision" d
  | _ => None
  end.


(** *** The editing stage *)

(** A statement that writes no file. *)
Definition quiet {A} (m : M A) : Prop :=
  forall w r w1, m w = (r, w1) -> fs w1 = fs w.

Lemma quiet_ret {A} (a : A) : quiet (ret a).
Proof. intros w r w1 H. injection H as <- <-. reflexivity. Qed.

Lemma quiet_throw {A} c msg : quiet (@throw A c msg).
Proof. intros w r w1 H. injection H as <- <-. reflexivity. Qed.

Lemma quiet_reraise {A} e : quiet (@reraise A e).
Proof. intros w r w1 H. injection H as <- <-. reflexivity. Qed.

Lemma quiet_lift {A} (r : result A) : quiet (lift r).
Proof. intros w r' w1 H. injection H as <- <-. reflexivity. Qed.

Lemma quiet_log_msg lv msg : quiet (log_msg lv msg).
Proof. intros w r w1 H. injection H as <- <-. reflexivity. Qed.

Lemma quiet_path_exists p : quiet (path_exists p).
Proof. intros w r w1 H. injection H as <- <-. reflexivity. Qed.

Lemma quiet_read_json p : quiet (read_json p).
Proof.
  intros w r w1. unfold read_json.
  destruct (fs w !! p) as [[]|]; intros H; injection H as <- <-; reflexivity.
Qed.

Lemma quiet_call_ext {A} (f : world -> result A) : quiet (call_ext f).
Proof. intros w r w1 H. injection H as <- <-. reflexivity. Qed.

Lemma quiet_bind {A B} (m : M A) (k : A -> M B) :
  quiet m -> (forall a, quiet (k a)) -> quiet (bind m k).
Proof.
  intros Hm Hk w r w2. unfold bind.
  destruct (m w) as [[a|e] w1] eqn:Em; intros H.
  - rewrite (Hk a _ _ _ H). exact (Hm _ _ _ Em).
  - injection H as <- <-. exact (Hm _ _ _ Em).
Qed.

Lemma quiet_try_except {A} (body : M A) handlers :
  quiet body -> Forall (fun h => forall e, quiet (snd h e)) handlers ->
  quiet (try_except body handlers).
Proof.
  intros Hb Hh w r w2. unfold try_except.
  destruct (body w) as [[a|e] w1] eqn:Eb.
  - intros H. injection H as <- <-. exact (Hb _ _ _ Eb).
  - destruct (List.find _ handlers) as [h|] eqn:Hfind.
    + apply find_some in Hfind as [Hin _]. apply list_elem_of_In in Hin.
      rewrite Forall_forall in Hh. intros H.
      rewrite (Hh h Hin e _ _ _ H). exact (Hb _ _ _ Eb).
    + intros H. injection H as <- <-. exact (Hb _ _ _ Eb).
Qed.

Ltac quiet_tac :=
  repeat match goal with
  | |- quiet (ret _) => apply quiet_ret
  | |- quiet (bind _ _) => apply quiet_bind; [|intros ?]
  | |- quiet (throw _ _) => apply quiet_throw
  | |- quiet (reraise _) => apply quiet_reraise
  | |- quiet (lift _) => apply quiet_lift
  | |- quiet (log_msg _ _) => apply quiet_log_msg
  | |- quiet (path_exists _) => apply quiet_path_exists
  | |- quiet (read_json _) => apply quiet_read_json
  | |- quiet (call_ext _) => apply quiet_call_ext
  | |- quiet (try_except _ _) =>
      apply quiet_try_except;
      [|repeat (apply Forall_cons_2; [cbn [snd]; intros ?|]); try apply Forall_nil_2]
  | |- quiet (match ?x with _ => _ end) => destruct x
  | |- quiet _ => solve [auto with orderly]
  end.

(** Two paths that end in different suffixes of the same length differ. *)
Lemma append_cons x (a b : string) : (String x a ++ b = String x (a ++ b))%string.
Proof. reflexivity. Qed.

Lemma append_assoc (a b c : string) : ((a ++ b) ++ c = a ++ (b ++ c))%string.
Proof.
  induction a as [|x a IH]; [reflexivity|].
  rewrite !append_cons, IH. reflexivity.
Qed.

Lemma length_append (a b : string) :
  String.length (a ++ b) = (String.length a + String.length b)%nat.
Proof.
  induction a as [|x a IH]; [reflexivity|].
  rewrite append_cons. cbn [String.length]. rewrite IH. reflexivity.
Qed.

Lemma suffix_inj (a b s t : string) :
  (a ++ s = b ++ t)%string -> String.length s = String.length t -> s = t.
Proof.
  revert b. induction a as [|x a IH]; intros b H Hlen.
  - destruct b as [|y b]; [exact H|].
    change ("" ++ s)%string with s in H. apply (f_equal String.length) in H.
    rewrite append_cons in H. cbn [String.length] in H. rewrite length_append in H. lia.
  - destruct b as [|y b].
    + change ("" ++ t)%string with t in H. apply (f_equal String.length) in H.
      rewrite append_cons in H. cbn [String.length] in H. rewrite length_append in H. lia.
    + rewrite !append_cons in H. injection H as _ H. eapply IH; eauto.
Qed.

Lemma path_join_suffix folder name suffix :
  exists prefix, path_join folder (name ++ suffix)%string = (prefix ++ suffix)%string.
Proof.
  unfold path_join. destruct (_ && _).
  - exists (folder ++ "/" ++ name)%string. rewrite !append_assoc. reflexivity.
  - exists (folder ++ name)%string. rewrite !append_assoc. reflexivity.
Qed.

Lemma paths_differ folder1 name1 folder2 name2 (suffix1 suffix2 : string) :
  String.length suffix1 = String.length suffix2 -> suffix1 <> suffix2 ->
  path_join folder1 (name1 ++ suffix1)%string <> path_join folder2 (name2 ++ suffix2)%string.
Proof.
  intros Hlen Hne Heq.
  destruct (path_join_suffix folder1 name1 suffix1) as [p1 H1].
  destruct (path_join_suffix folder2 name2 suffix2) as [p2 H2].
  rewrite H1, H2 in Heq. apply Hne. eapply suffix_inj; eauto.
Qed.

Lemma pure_segments_of v : pure_ok (LLMEditingAgent.segments_of v).
Proof. unfold LLMEditingAgent.segments_of. pure_tac. Qed.

Lemma pure_py_setitem v k x : pure_ok (LLMEditingAgent.py_setitem v k x).
Proof. unfold LLMEditingAgent.py_setitem. pure_tac. Qed.
#[local] Hint Resolve pure_segments_of pure_py_setitem : pure.

Section EditorStage.

Variable asctime : world -> string.
Variable post : string -> pyval -> Z -> world -> result pyval.
Variable py_repr : pyval -> string.
Variable me : LLMEditingAgent.self.

(** The text-generation service fails with errors, not with interpreter exits. *)
Hypothesis post_errors : forall url body t w, pure_ok (post url body t w).

Abbreviation call_llm_api := (LLMEditingAgent.call_llm_api post me).
Abbreviation clean_segments := (LLMEditingAgent.clean_segments post py_repr me).
Abbreviation editor_log_decision := (LLMEditingAgent.log_decision asctime me).
Abbreviation editor_try := (LLMEditingAgent.process_file_try asctime post py_repr me).
Abbreviation editor_process_file := (LLMEditingAgent.process_file asctime post py_repr me).

Definition editing_log_path (dir file_name : string) : string :=
  path_join dir (fst (splitext file_name) ++ "_llm_editing.json").

Definition cleaned_path (file_name : string) : string :=
  path_join (LLMEditingAgent.output_folder me) (fst (splitext file_name) ++ "_llm_cleaned.json").

Definition transcript_path (file_name : string) : string :=
  path_join (LLMEditingAgent.transcript_input_folder me)
    (fst (splitext file_name) ++ "_transcript.json").

(** [after] is [before] with its text replaced by the answer of a successful
    call made for the text of [before], and for nothing else. *)
Definition cleaned_by (before after : pyval) : Prop :=
  exists text reply w w1,
    py_getitem before "text" = Ok text /\
    call_llm_api (LLMEditingAgent.clean_prompt py_repr text) 0 w = (Ok reply, w1) /\
    LLMEditingAgent.py_setitem before "text" reply = Ok after.

Lemma call_llm_api_step prompt retry_count w :
  call_llm_api prompt retry_count w =
  match LLMEditingAgent.request_once post me prompt w with
  | (Ok text, w1) => (Ok text, w1)
  | (Raise e, w1) =>
      if isinstance_exn e RequestException then
        if Z_lt_dec retry_count (LLMEditingAgent.max_retries me)
        then call_llm_api prompt (retry_count + 1)
               (snd (LLMEditingAgent.before_retry me retry_count e w1))
        else (Raise (exhausted me e), w1)
      else (Raise e, w1)
  end.
Proof.
  simp call_llm_api.
  destruct (LLMEditingAgent.request_once post me prompt w) as [[text|e] w1]; simpl; [reflexivity|].
  destruct (isinstance_exn e RequestException); simpl; [|reflexivity].
  destruct (Z_lt_dec retry_count (LLMEditingAgent.max_retries me)); reflexivity.
Qed.

Lemma request_once_facts prompt w r w1 :
  LLMEditingAgent.request_once post me prompt w = (r, w1) ->
  fs w1 = fs w /\ protected w1 = protected w /\ pure_ok r.
Proof.
  unfold LLMEditingAgent.request_once, LLMEditingAgent.http_post, bind, lift.
  destruct (post _ _ _ w) as [response|e] eqn:Hpost; intros H; injection H as <- <-.
  - repeat split. apply pure_py_getitem.
  - repeat split. intros e' He'. injection He' as <-. eapply post_errors. exact Hpost.
Qed.

Lemma call_llm_api_facts prompt :
  forall (n : nat) retry_count w r w1,
    Z.to_nat (LLMEditingAgent.max_retries me - retry_count) = n ->
    call_llm_api prompt retry_count w = (r, w1) ->
    fs w1 = fs w /\ protected w1 = protected w /\ pure_ok r.
Proof.
  induction n as [|n IH]; intros retry_count w r w1 Hn; rewrite call_llm_api_step;
    destruct (LLMEditingAgent.request_once post me prompt w) as [[text|e] w0] eqn:Hreq;
    destruct (request_once_facts _ _ _ _ Hreq) as (Hfs & Hp & Hr);
    try (intros H; injection H as <- <-; repeat split; auto using pure_ok_Ok);
    destruct (isinstance_exn e RequestException);
    try (intros H; injection H as <- <-; repeat split; auto);
    destruct (Z_lt_dec retry_count (LLMEditingAgent.max_retries me)) as [Hlt|Hge];
    try lia;
    try (intros H; injection H as <- <-; repeat split; auto;
         intros e' He'; injection He' as <-; reflexivity).
  intros H.
  destruct (before_retry_world me retry_count e w0) as (_ & _ & Hfs' & Hp' & _).
  apply IH in H; [|lia]. destruct H as (Hfs'' & Hp'' & Hr'').
  repeat split; [congruence | congruence | exact Hr''].
Qed.

Lemma call_llm_api_orderly prompt retry_count : orderly (call_llm_api prompt retry_count).
Proof. intros w r w1 H. eapply call_llm_api_facts in H; [|reflexivity]. tauto. Qed.


Lemma clean_segments_orderly todo : forall i total done, orderly (clean_segments i total done todo).
Proof.
  induction todo as [|seg todo IH]; intros i total done; cbn [LLMEditingAgent.clean_segments];
    orderly_tac; auto using call_llm_api_orderly.
Qed.


(** A segment loop that ends normally has cleaned every segment. *)
Lemma clean_segments_ok todo : forall i total done w out w',
  clean_segments i total done todo w = (Ok out, w') ->
  exists cleaned, out = (done ++ cleaned)%list /\ Forall2 cleaned_by todo cleaned.
Proof.
  induction todo as [|seg todo IH]; intros i total done w out w' H.
  - injection H as <- <-. exists []. rewrite app_nil_r. split; [reflexivity | constructor].
  - cbn [LLMEditingAgent.clean_segments] in H.
    apply bind_ok_inv in H as (text & w0 & Htext & H). apply lift_ok_inv in Htext as [Htext ->].
    apply bind_ok_inv in H as (seg' & w1 & Hseg & H).
    apply try_except_rethrow_inv in Hseg;
      [|repeat (apply Forall_cons_2; [cbn [snd]; intros; eexists _, _; reflexivity|]);
        apply Forall_nil_2].
    apply bind_ok_inv in Hseg as (reply & w2 & Hcall & Hseg).
    apply bind_ok_inv in Hseg as (seg'' & w3 & Hset & Hseg).
    apply lift_ok_inv in Hset as [Hset ->]. injection Hseg as -> _.
    apply IH in H as (cleaned & -> & Hall).
    exists (seg' :: cleaned). rewrite <- app_assoc. split; [reflexivity|].
    constructor; [|exact Hall]. exists text, reply, w, w2. auto.
Qed.


Lemma editor_check_orderly segs : forall i, orderly (LLMEditingAgent.check_segments i segs).
Proof.
  induction segs as [|seg segs IH]; intros i; cbn [LLMEditingAgent.check_segments];
    orderly_tac.
Qed.

Lemma editor_validate_orderly v : orderly (LLMEditingAgent.validate_transcript v).
Proof.
  unfold LLMEditingAgent.validate_transcript. orderly_tac; apply editor_check_orderly.
Qed.



(** The decision log is the only file [log_decision] may touch. *)
Lemma editor_log_decision_spec file_name reason w :
  exists w1,
    editor_log_decision file_name reason w = (Ok tt, w1) /\ protected w1 = protected w /\
    (forall p, (forall dir, p <> editing_log_path dir file_name) -> fs w1 !! p = fs w !! p) /\
    forall dir,
      dir_configured (LLMEditingAgent.log_base_dir me) = Some dir ->
      editing_log_path dir file_name ∉ protected w ->
      decision_recorded w1 (editing_log_path dir file_name) file_name "llm_editing" reason.
Proof.
  unfold LLMEditingAgent.log_decision.
  destruct (dir_configured (LLMEditingAgent.log_base_dir me)) as [dir|].
  - unfold try_except, write_file. fold (editing_log_path dir file_name).
    case_bool_decide as Hp; cbn.
    + eexists. split; [reflexivity|]. split; [reflexivity|]. split; [reflexivity|].
      intros ? [= <-] Hn. contradiction.
    + eexists. split; [reflexivity|]. split; [reflexivity|]. split.
      * intros p Hne. cbn. apply lookup_insert_ne. intros Heq. apply (Hne dir). auto.
      * intros ? [= <-] _. eexists. cbn. apply lookup_insert_eq.
  - eexists. split; [reflexivity|]. split; [reflexivity|]. split; [reflexivity|]. discriminate.
Qed.

Lemma editor_log_decision_orderly file_name reason :
  orderly (editor_log_decision file_name reason).
Proof.
  intros w r w1 H.
  destruct (editor_log_decision_spec file_name reason w) as (w1' & Hrun & Hp & _).
  rewrite Hrun in H. injection H as <- <-. split; [exact Hp | apply pure_ok_Ok].
Qed.

Lemma editor_try_orderly file_name : orderly (editor_try file_name).
Proof.
  unfold LLMEditingAgent.process_file_try. orderly_tac.
  - apply editor_validate_orderly.
  - apply clean_segments_orderly.
  - apply editor_log_decision_orderly.
Qed.



Lemma cleaned_path_is_not_a_log file_name dir :
  cleaned_path file_name <> editing_log_path dir file_name.
Proof. unfold cleaned_path, editing_log_path. apply paths_differ; [reflexivity | discriminate]. Qed.


(** A [try] block that succeeds has written the whole cleaned transcript. *)
Lemma editor_try_ok file_name w w1 :
  editor_try file_name w = (Ok tt, w1) ->
  exists transcript segments cleaned,
    fs w !! transcript_path file_name = Some (JsonDoc transcript) /\
    LLMEditingAgent.segments_of transcript = Ok segments /\
    Forall2 cleaned_by segments cleaned /\
    fs w1 !! cleaned_path file_name
    = Some (JsonDoc (LLMEditingAgent.with_segments transcript cleaned)).
Proof.
  unfold LLMEditingAgent.process_file_try. intros H.
  apply bind_ok_inv in H as (found & w0 & Hex & H). injection Hex as <- <-.
  destruct (negb _); [discriminate|].
  apply bind_ok_inv in H as (transcript & w0 & Hread & H).
  assert (Hin : fs w !! transcript_path file_name = Some (JsonDoc transcript) /\ w0 = w).
  { unfold read_json in Hread. fold (transcript_path file_name) in Hread.
    destruct (fs w !! transcript_path file_name) as [[]|]; try discriminate.
    injection Hread as <- <-. auto. }
  destruct Hin as [Hin ->].
  apply bind_ok_inv in H as (ok & wv & Hval & H).
  destruct (negb ok); [discriminate|].
  apply bind_ok_inv in H as (segments & w0 & Hsegs & H). apply lift_ok_inv in Hsegs as [Hsegs ->].
  apply bind_ok_inv in H as (cleaned & wc & Hclean & H).
  apply bind_ok_inv in H as (u & ww & Hwrite & H).
  apply bind_ok_inv in H as (u' & wl & Hlog & H). injection H as <-.
  apply clean_segments_ok in Hclean as (cleaned' & -> & Hall). cbn [app] in *.
  apply write_file_ok_inv in Hwrite as [_ ->].
  destruct (editor_log_decision_spec file_name "success"
              (with_fs wc (<[cleaned_path file_name :=
                 JsonDoc (LLMEditingAgent.with_segments transcript cleaned')]> (fs wc))))
    as (wl' & Hlog' & _ & Hfs & _).
  unfold cleaned_path in Hlog' at 1. rewrite Hlog' in Hlog. injection Hlog as <-. subst wl'.
  exists transcript, segments, cleaned'. repeat split; auto.
  cbn [fs add_log]. rewrite Hfs; [|apply cleaned_path_is_not_a_log].
  cbn. apply lookup_insert_eq.
Qed.


End EditorStage.

(** A transcript of two segments, and a service that answers the first
    request and refuses all later ones. *)
Definition two_segment_transcript : pyval :=
  PDict [("segments",
          PList [PDict [("start", PFloat 0); ("end", PFloat 2); ("text", PStr "um hello")];
                 PDict [("start", PFloat 5); ("end", PFloat 8); ("text", PStr "uh world")]])].

Definition answers_once (k : nat) : result pyval :=
  match k with
  | O => Ok (PDict [("response", PStr "hello")])
  | S _ => Raise connection_refused
  end.

Definition one_transcript : world :=
  with_fs empty_world (<["transcripts/talk_transcript.json" := JsonDoc two_segment_transcript]> ∅).

Lemma answers_once_errors url body t w : pure_ok (scripted answers_once url body t w).
Proof. unfold scripted, answers_once. destruct (posts_made w); intros e [= <-]; reflexivity. Qed.


(** ** The pipeline driver *)

Section Batch.

Variable OLLAMA_URL : string.
Variable http_get : string -> Z -> world -> result Z.
Variable abspath : string -> string.
Variable setup : string -> M unit.
Variable denoise_process_file : string -> string -> M unit.
Variable transcriber_run : string -> M unit.
Variable editor_run : string -> M unit.
Variable video_editor_run : string -> M unit.
Variable timeline_generator_run : string -> M unit.

Abbreviation check_ollama_availability := (Main.check_ollama_availability OLLAMA_URL http_get).
Abbreviation denoise_and_transcribe :=
  (Main.denoise_and_transcribe abspath setup denoise_process_file transcriber_run).
Abbreviation pipeline :=
  (Main.pipeline OLLAMA_URL http_get abspath setup denoise_process_file transcriber_run
     editor_run video_editor_run timeline_generator_run).
Abbreviation process_video :=
  (Main.process_video OLLAMA_URL http_get abspath setup denoise_process_file transcriber_run
     editor_run video_editor_run timeline_generator_run).
Abbreviation process_directory :=
  (Main.process_directory OLLAMA_URL http_get abspath setup denoise_process_file
     transcriber_run editor_run video_editor_run timeline_generator_run).

Definition ollama_down_message : string :=
  "Ollama server is not running at " ++ OLLAMA_URL
  ++ ". Please start Ollama before running the pipeline.".

Definition exit_1 : exn := Exn SystemExit "1".

(** The service counts as unavailable when the request fails or answers
    with a status other than 200. *)
Lemma ollama_unavailable w :
  (exists e, http_get (OLLAMA_URL ++ "/api/tags") 5 w = Raise e /\
             isinstance_exn e RequestException = true) \/
  (exists status, http_get (OLLAMA_URL ++ "/api/tags") 5 w = Ok status /\ status <> 200) ->
  check_ollama_availability w = (Ok false, step_tick w).
Proof.
  unfold Main.check_ollama_availability, try_except, bind, call_ext, ret.
  intros [(e & -> & He)|(status & -> & Hs)].
  - cbn [List.find fst snd]. rewrite He. reflexivity.
  - apply Z.eqb_neq in Hs. rewrite Hs. reflexivity.
Qed.

(** With the service unavailable after steps 1 and 2, the [try] block raises
    the [RuntimeError] of step 3. *)
Lemma pipeline_stops_at_step_3 video_path model_path w w1 w2 :
  denoise_and_transcribe video_path model_path w = (Ok tt, w1) ->
  check_ollama_availability (add_log w1 (INFO, "Step 3: Editing transcript")) = (Ok false, w2) ->
  pipeline video_path model_path w
  = (Raise (Exn RuntimeError ollama_down_message), add_log w2 (ERROR, ollama_down_message)).
Proof.
  intros Hpre Hcheck. unfold Main.pipeline.
  rewrite (bind_ok _ _ _ _ _ Hpre).
  unfold bind at 1, log_msg at 1. rewrite (bind_ok _ _ _ _ _ Hcheck). reflexivity.
Qed.

(** An error in the pipeline of one video leaves [process_video] as
    [SystemExit(1)], raised by the [finally] clause. *)
Lemma process_video_exits video_path model_path w e w1 :
  pipeline video_path model_path w = (Raise e, w1) ->
  is_exception e = true ->
  process_video video_path model_path w
  = (Raise exit_1,
     add_log
       (add_log w1 (ERROR, "Pipeline failed for " ++ video_path ++ ": " ++ exn_str e))
       (ERROR, "Pipeline failed - some steps may have completed but others failed")).
Proof.
  intros Hpipe He. unfold Main.process_video. rewrite Hpipe.
  unfold is_exception in He. rewrite He. reflexivity.
Qed.

(** C7 (failing input): in a batch, when the pipeline of one video fails with
    an error (for instance the text-cleaning service is unreachable before
    step 3), [process_video] leaves through [sys.exit(1)]; the loop of [main]
    catches [Exception] only, so the [SystemExit] ends the loop and the
    videos after it are never attempted: the outcome of the batch is the
    outcome of that one video, whatever videos follow. *)
Theorem batch_stops_at_first_failed_video video_path rest model_path w e w1 :
  pipeline video_path model_path w = (Raise e, w1) ->
  is_exception e = true ->
  fst (process_video video_path model_path w) = Raise exit_1 /\
  process_directory (video_path :: rest) model_path w = process_video video_path model_path w.
Proof.
  intros Hpipe He. rewrite (process_video_exits _ _ _ _ _ Hpipe He).
  split; [reflexivity|].
  unfold Main.process_directory. cbn [for_each]. unfold bind at 1, try_except at 1.
  rewrite (process_video_exits _ _ _ _ _ Hpipe He). reflexivity.
Qed.

End Batch.

(** A batch of two videos, all of whose stages succeed, with the
    text-cleaning service down. *)
Definition service_down (url : string) (timeout : Z) (w : world) : result Z :=
  Raise connection_refused.

Definition no_op : M unit := ret tt.

Definition example_main : result unit * world :=
  Main.main "http://localhost:11434" service_down (fun p => p)
    (fun _ => no_op) (fun _ _ => no_op) (fun _ => no_op) (fun _ => no_op) (fun _ => no_op)
    (fun _ => no_op) no_op no_op (fun _ _ => false)
    (fun _ _ => ["videos/a.mp4"; "videos/b.mp4"])
    "videos" "models/lq.rnnn" empty_world.

Definition logged (w : world) (msg : string) : bool :=
  existsb (fun r => String.eqb (snd r) msg) (logs w).

Lemma batch_stops_at_first_failed_video_witness :
  fst example_main = Raise exit_1 /\
  logged (snd example_main) "Starting pipeline for videos/a.mp4" = true /\
  logged (snd example_main) "Starting pipeline for videos/b.mp4" = false.
Proof.
  assert (Hpipe :
    Main.pipeline "http://localhost:11434" service_down (fun p => p)
      (fun _ => no_op) (fun _ _ => no_op) (fun _ => no_op) (fun _ => no_op) (fun _ => no_op)
      (fun _ => no_op) "videos/a.mp4" "models/lq.rnnn" empty_world
    = (Raise (Exn RuntimeError (ollama_down_message "http://localhost:11434")),
       snd (Main.pipeline "http://localhost:11434" service_down (fun p => p)
              (fun _ => no_op) (fun _ _ => no_op) (fun _ => no_op) (fun _ => no_op)
              (fun _ => no_op) (fun _ => no_op) "videos/a.mp4" "models/lq.rnnn" empty_world)))
    by (vm_compute; reflexivity).
  destruct (batch_stops_at_first_failed_video "http://localhost:11434" service_down (fun p => p)
              (fun _ => no_op) (fun _ _ => no_op) (fun _ => no_op) (fun _ => no_op)
              (fun _ => no_op) (fun _ => no_op)
              "videos/a.mp4" ["videos/b.mp4"] "models/lq.rnnn" empty_world _ _ Hpipe eq_refl)
    as [Hexit Hbatch].
  vm_compute. repeat split.
Defined.

(** ** Cutting *)

Definition is_run (ev : io_event) : bool :=
  match ev with
  | EvRun _ => true
  | _ => false
  end.

(** Number of external commands run so far. *)
Definition commands_run (w : world) : nat := length (List.filter is_run (trace w)).

Section Cutting.

Variable subprocess_run : list string -> world -> result (Z * string) * gmap string content.
Variable py_str : pyval -> string.

Abbreviation trim_segments := (VideoSegmentEditor.trim_segments subprocess_run py_str).

Lemma run_cmd_world cmd w r w1 :
  VideoSegmentEditor.run_cmd subprocess_run cmd w = (r, w1) ->
  logs w1 = logs w /\ commands_run w1 = S (commands_run w).
Proof.
  unfold VideoSegmentEditor.run_cmd. destruct (subprocess_run cmd w) as [r' files].
  intros H. injection H as <- <-. split; [reflexivity|].
  unfold commands_run. cbn [trace add_event with_fs].
  rewrite List.filter_app, length_app. cbn. lia.
Qed.

(** The segment loop of the video cutter logs nothing, and when it ends
    normally it has run one trim command per segment and kept one clip per
    segment: no segment is left out, wherever it lies in the source. *)
Lemma trim_segments_cuts_all input_path temp_dir segments :
  forall idx paths w r paths' w',
    trim_segments input_path temp_dir idx paths segments w = (r, paths', w') ->
    logs w' = logs w /\
    (r = Ok tt ->
     length paths' = (length paths + length segments)%nat /\
     commands_run w' = (commands_run w + length segments)%nat).
Proof.
  induction segments as [|seg segments IH]; intros idx paths w r paths' w' H.
  - injection H as <- <- <-. split; [reflexivity|]. intros _. cbn [length]. split; lia.
  - cbn [VideoSegmentEditor.trim_segments] in H.
    destruct (py_getitem seg "start") as [start|e0];
      [|injection H as <- <- <-; split; [reflexivity | discriminate]].
    destruct (rbind _ _) as [duration|e0];
      [|injection H as <- <- <-; split; [reflexivity | discriminate]].
    destruct (VideoSegmentEditor.run_cmd _ _ w) as [[[returncode stderr]|e0] w1] eqn:Hrun;
      destruct (run_cmd_world _ _ _ _ Hrun) as [Hlog Hcount];
      [|injection H as <- <- <-; split; [exact Hlog | discriminate]].
    destruct (negb _);
      [injection H as <- <- <-; split; [exact Hlog | discriminate]|].
    apply IH in H as [Hlog' Hok]. split; [congruence|].
    intros Hr. destruct (Hok Hr) as [Hlen Hcmds]. rewrite length_app in Hlen. cbn in Hlen.
    cbn [length]. split; lia.
Qed.

(** The loop of the audio cleaner, in contrast, drops a segment that starts
    at or after the end of the audio, or ends after it, with a warning, and
    goes on with the next segment. *)
Lemma audio_cleaner_skips_out_of_bounds file_name audio_len cleaned seg rest w st en start_ms end_ms :
  py_getitem seg "start" = Ok st -> to_ms st = Ok start_ms ->
  py_getitem seg "end" = Ok en -> to_ms en = Ok end_ms ->
  audio_len <= start_ms \/ audio_len < end_ms ->
  SegmentAudioCleaner.collect_slices file_name audio_len cleaned (seg :: rest) w
  = SegmentAudioCleaner.collect_slices file_name audio_len cleaned rest
      (add_log w (WARNING,
                  "Segment timing out of bounds for " ++ file_name ++ ": "
                  ++ str_of_int start_ms ++ "-" ++ str_of_int end_ms ++ "ms")).
Proof.
  intros Hst Hsms Hen Hems Hout. cbn [SegmentAudioCleaner.collect_slices].
  unfold bind, lift. rewrite Hst, Hsms, Hen, Hems.
  assert (Hb : (audio_len <=? start_ms) || (audio_len <? end_ms) = true).
  { apply orb_true_iff. destruct Hout; [left; apply Z.leb_le | right; apply Z.ltb_lt]; lia. }
  rewrite Hb. reflexivity.
Qed.

End Cutting.

(** A 10-second source and a transcript whose second segment, (20, 25), lies
    outside it. *)
Definition out_of_range_transcript : pyval :=
  PDict [("segments",
          PList [PDict [("start", PFloat 0); ("end", PFloat 2); ("text", PStr "intro")];
                 PDict [("start", PFloat 20); ("end", PFloat 25); ("text", PStr "late")]])].

Definition example_cutter : VideoSegmentEditor.self :=
  {| VideoSegmentEditor.video_input_folder := "denoised";
     VideoSegmentEditor.transcript_folder := "edited";
     VideoSegmentEditor.output_folder := "edited_segments";
     VideoSegmentEditor.log_base_dir := Some "logs" |}.

Definition example_audio_cleaner : SegmentAudioCleaner.self :=
  {| SegmentAudioCleaner.audio_input_folder := "denoised";
     SegmentAudioCleaner.transcript_folder := "edited";
     SegmentAudioCleaner.output_folder := "audio";
     SegmentAudioCleaner.log_base_dir := Some "logs" |}.

(** [str(x)] for the numbers of the example. *)
Definition example_str (v : pyval) : string :=
  match v with
  | PFloat f =>
      if (f =? 0)%float then "0.0" else if (f =? 2)%float then "2.0"
      else if (f =? 5)%float then "5.0" else if (f =? 20)%float then "20.0" else "?"
  | PStr s => s
  | _ => "?"
  end.

Definition last_argument (cmd : list string) : string := List.last cmd "".

(** A media tool that cuts whatever it is asked to, writing the clip. *)
Definition ffmpeg_lenient (cmd : list string) (w : world)
  : result (Z * string) * gmap string content :=
  (Ok (0, ""), <[last_argument cmd := Blob "media"]> (fs w)).

(** A media tool that refuses to seek to second 20 of the 10-second source. *)
Definition ffmpeg_strict (cmd : list string) (w : world)
  : result (Z * string) * gmap string content :=
  if existsb (String.eqb "20.0") cmd
  then (Ok (1, "Invalid seek position"), fs w)
  else (Ok (0, ""), <[last_argument cmd := Blob "media"]> (fs w)).

Definition cutting_world : world :=
  with_fs empty_world
    (<["denoised/talk.mp4" := Blob "video"]>
       (<["denoised/talk_clean.wav" := Blob "audio"]>
          (<["edited/talk_llm_cleaned.json" := JsonDoc out_of_range_transcript]> ∅))).

Definition warnings (w : world) : list string :=
  map snd (List.filter (fun r => match fst r with WARNING => true | _ => false end) (logs w)).

Definition cut_lenient : result unit * world :=
  VideoSegmentEditor.process_file ffmpeg_lenient example_str example_cutter "talk.mp4"
    cutting_world.

Definition cut_strict : result unit * world :=
  VideoSegmentEditor.process_file ffmpeg_strict example_str example_cutter "talk.mp4"
    cutting_world.

Definition clean_audio : result unit * world :=
  SegmentAudioCleaner.process_file (fun _ _ => Ok 10000) example_audio_cleaner "talk.mp4"
    cutting_world.

(** C6 (failing input): on a 10-second source with segments (0,2) and
    (20,25), the video cutter asks the media tool to cut both segments. If
    the tool complies, the out-of-range segment is part of the output and no
    warning is logged; if the tool refuses, the whole item fails and no output
    is produced. The audio cleaner on the same input skips the segment with a
    warning and writes the in-bounds slice. *)
Theorem video_cutter_does_not_skip :
  (fst cut_lenient = Ok tt /\
   commands_run (snd cut_lenient) = 3%nat /\
   warnings (snd cut_lenient) = [] /\
   decision_of (snd cut_lenient) "logs/talk_video_edit.json" = Some (PStr "success")) /\
  (fst cut_strict = Ok tt /\
   warnings (snd cut_strict) = [] /\
   fs (snd cut_strict) !! "edited_segments/talk_video_clean.mp4" = None /\
   decision_of (snd cut_strict) "logs/talk_video_edit.json"
   = Some (PStr "failed - FFmpeg segment creation failed: Invalid seek position")) /\
  (fst clean_audio = Ok tt /\
   warnings (snd clean_audio)
   = ["Segment timing out of bounds for talk.mp4: 20000-25000ms"] /\
   fs (snd clean_audio) !! "audio/talk_audio_clean.wav" = Some (WavDoc [(0, 2000)]) /\
   decision_of (snd clean_audio) "logs/talk_audio_clean.json" = Some (PStr "success")).
Proof. vm_compute. repeat split. Qed.

(** * Further properties of the stages *)

(** ** The item skeleton shared by the stages *)

(** An [except] clause of [process_file]: the class it catches, the line it
    logs at level ERROR, and the prefix it puts before [str(e)] in the
    decision. *)
Definition clause : Type := pyclass * (exn -> string) * string.

(** The handlers of a [process_file]: each logs its line and hands the
    description of the error to [log_decision]. *)
Definition handlers_of (log_decision : string -> string -> M unit) (file_name : string)
    (clauses : list clause) : list (pyclass * (exn -> M unit)) :=
  map (fun cl : clause =>
         (fst (fst cl),
          fun e => bind (log_msg ERROR (snd (fst cl) e))
                     (fun _ => log_decision file_name (snd cl ++ exn_str e))))
    clauses.

(** The prefix of the first clause that catches [e]. *)
Definition caught_prefix (clauses : list clause) (e : exn) : string :=
  match List.find (fun cl : clause => isinstance_exn e (fst (fst cl))) clauses with
  | Some cl => snd cl
  | None => ""
  end.

(** The clauses of the stages that tell [FileNotFoundError] and a second
    class from every other error. *)
Definition processing_line (file_name prefix : string) (e : exn) : string :=
  "Processing " ++ file_name ++ ": " ++ (prefix ++ exn_str e).

Definition three_clauses (second : pyclass) (second_prefix file_name : string) : list clause :=
  [(FileNotFoundError, processing_line file_name "File not found: ", "File not found: ");
   (second, processing_line file_name second_prefix, second_prefix);
   (Exception_, processing_line file_name "Unexpected error: ", "Unexpected error: ")].

(** The single clause of the audio cleaner and of the video segment editor. *)
Definition one_clause (file_name : string) : list clause :=
  [(Exception_,
    fun e => "[ERROR] Processing " ++ file_name ++ ": " ++ ("failed - " ++ exn_str e),
    "failed - ")].

(** Where the decision of [file_name] goes, when a log directory is
    configured. *)
Definition decision_log_path (log_base_dir : option string) (suffix file_name : string)
  : option string :=
  match dir_configured log_base_dir with
  | Some dir => Some (path_join dir (fst (splitext file_name) ++ suffix))
  | None => None
  end.

(** A stage whose [log_decision] guards the write can always log; one that
    writes directly can log when the decision log is not write-protected. *)
Definition loggable (guarded : bool) (log_path : option string) (w : world) : Prop :=
  guarded = true \/ forall lp, log_path = Some lp -> lp ∉ protected w.

(** [log_decision] ends normally, touches no file but the decision log, and
    records the reason when the log can be written. *)
Definition records_decisions (guarded : bool) (stage : string)
    (log_path : string -> option string) (log_decision : string -> string -> M unit) : Prop :=
  forall file_name reason w,
    loggable guarded (log_path file_name) w ->
    exists w1,
      log_decision file_name reason w = (Ok tt, w1) /\ protected w1 = protected w /\
      (forall p, log_path file_name <> Some p -> fs w1 !! p = fs w !! p) /\
      (forall lp, log_path file_name = Some lp -> lp ∉ protected w ->
                  decision_recorded w1 lp file_name stage reason).

(** Processing one item never raises; a successful item leaves ["success"] in
    its decision log and a failed item the description of its error. *)
Definition isolates_failures (guarded : bool) (stage : string)
    (log_path : string -> option string) (clauses : string -> list clause)
    (process_file_try process_file : string -> M unit) : Prop :=
  forall file_name w,
    loggable guarded (log_path file_name) w ->
    exists w',
      process_file file_name w = (Ok tt, w') /\ protected w' = protected w /\
      forall lp,
        log_path file_name = Some lp -> lp ∉ protected w ->
        (forall w1, process_file_try file_name w = (Ok tt, w1) ->
                    decision_recorded w' lp file_name stage "success") /\
        (forall e w1, process_file_try file_name w = (Raise e, w1) ->
                      decision_recorded w' lp file_name stage
                        (caught_prefix (clauses file_name) e ++ exn_str e)).

(** The items a stage discovers: the names of the folder that pass the
    stage's filter, renamed to the name of the original video. *)
Definition discover (listdir : string -> world -> result (list string)) (folder : string)
    (eligible : string -> bool) (original : string -> string) (w : world)
  : result (list string) :=
  let* names := listdir folder w in
  Ok (map original (List.filter eligible names)).

(** [run] processes every discovered item, one after the other, whatever
    happened to the items before it; with no item it does nothing (but log
    [idle] as a warning, in the stages that have one). *)
Definition processes_every_item (guarded : bool) (log_path : string -> option string)
    (discovered : world -> result (list string)) (idle : option string)
    (process_file : string -> M unit) (run : M unit) : Prop :=
  forall w items,
    discovered w = Ok items ->
    (forall f, In f items -> loggable guarded (log_path f) w) ->
    run w =
    (Ok tt,
     match items with
     | [] =>
         match idle with
         | Some msg => add_log (step_tick w) (WARNING, msg)
         | None => step_tick w
         end
     | _ => fold_left (fun w f => snd (process_file f w)) items (step_tick w)
     end).

Lemma for_each_map {A B} (g : A -> B) (f : B -> M unit) (l : list A) :
  for_each (map g l) f = for_each l (fun x => f (g x)).
Proof. induction l as [|x l IH]; cbn [map for_each]; [reflexivity | rewrite IH; reflexivity]. Qed.

(** *** The shape shared by the stages *)

Lemma guarded_write_records asctime log_base_dir suffix stage :
  records_decisions true stage (decision_log_path log_base_dir suffix)
    (fun file_name reason =>
       match dir_configured log_base_dir with
       | None => ret tt
       | Some dir =>
           let log_path := path_join dir (fst (splitext file_name) ++ suffix) in
           try_except
             (fun w =>
                write_file log_path
                  (JsonDoc (decision_entry file_name stage reason (Some (asctime w)))) w)
             [(Exception_,
               fun e => log_msg ERROR ("Failed to write decision log: " ++ exn_str e))]
       end).
Proof.
  intros file_name reason w _. unfold decision_log_path.
  destruct (dir_configured log_base_dir) as [dir|].
  - unfold try_except, write_file. case_bool_decide as Hp; cbn.
    + eexists. split; [reflexivity|]. split; [reflexivity|]. split; [reflexivity|].
      intros ? [= <-] Hn. contradiction.
    + eexists. split; [reflexivity|]. split; [reflexivity|]. split.
      * intros p Hne. cbn. apply lookup_insert_ne. congruence.
      * intros ? [= <-] _. eexists. cbn. apply lookup_insert_eq.
  - eexists. split; [reflexivity|]. split; [reflexivity|]. split; [reflexivity|]. discriminate.
Qed.

Lemma direct_write_records log_base_dir suffix stage :
  records_decisions false stage (decision_log_path log_base_dir suffix)
    (fun file_name reason =>
       match dir_configured log_base_dir with
       | None => ret tt
       | Some dir =>
           let log_path := path_join dir (fst (splitext file_name) ++ suffix) in
           write_file log_path (JsonDoc (decision_entry file_name stage reason None))
       end).
Proof.
  intros file_name reason w [Hg|Hw]; [discriminate|]. unfold decision_log_path in *.
  destruct (dir_configured log_base_dir) as [dir|].
  - unfold write_file. specialize (Hw _ eq_refl). rewrite bool_decide_eq_false_2 by exact Hw.
    eexists. split; [reflexivity|]. split; [reflexivity|]. split.
    + intros p Hne. cbn. apply lookup_insert_ne. congruence.
    + intros ? [= <-] _. eexists. cbn. apply lookup_insert_eq.
  - eexists. split; [reflexivity|]. split; [reflexivity|]. split; [reflexivity|]. discriminate.
Qed.

Lemma records_decisions_orderly guarded stage log_path log_decision file_name reason :
  records_decisions guarded stage log_path log_decision ->
  guarded = true -> orderly (log_decision file_name reason).
Proof.
  intros Hlog Hg w r w1 H.
  destruct (Hlog file_name reason w (or_introl Hg)) as (w1' & Hrun & Hp & _).
  rewrite Hrun in H. injection H as <- <-. split; [exact Hp | apply pure_ok_Ok].
Qed.

Section Skeleton.

Variable guarded : bool.
Variable stage : string.
Variable log_path : string -> option string.
Variable log_decision : string -> string -> M unit.
Variable file_name : string.
Variable body : M unit.
Variable clauses : list clause.

Hypothesis log_spec : records_decisions guarded stage log_path log_decision.
Hypothesis body_orderly : orderly body.
Hypothesis body_success :
  forall w w1 lp,
    body w = (Ok tt, w1) -> log_path file_name = Some lp -> lp ∉ protected w ->
    decision_recorded w1 lp file_name stage "success".
Hypothesis catch_all : exists line prefix, In (Exception_, line, prefix) clauses.

Lemma loggable_same_protection w w1 :
  protected w1 = protected w ->
  loggable guarded (log_path file_name) w -> loggable guarded (log_path file_name) w1.
Proof. intros Hp [Hg|Hw]; [left; exact Hg | right; intros lp Hlp; rewrite Hp; auto]. Qed.

Lemma find_handler e :
  is_exception e = true ->
  exists cl,
    List.find (fun cl : clause => isinstance_exn e (fst (fst cl))) clauses = Some cl /\
    List.find (fun h : pyclass * (exn -> M unit) => isinstance_exn e (fst h))
      (handlers_of log_decision file_name clauses)
    = Some (fst (fst cl),
            fun e => bind (log_msg ERROR (snd (fst cl) e))
                       (fun _ => log_decision file_name (snd cl ++ exn_str e))).
Proof.
  intros He. destruct catch_all as (line & prefix & Hin). clear catch_all.
  unfold handlers_of. induction clauses as [|cl cls IH]; [destruct Hin|].
  cbn [List.find map fst]. destruct (isinstance_exn e (fst (fst cl))) eqn:Hcl.
  - exists cl. split; reflexivity.
  - destruct Hin as [->|Hin]; [cbn in Hcl; unfold is_exception in He; congruence|].
    apply IH, Hin.
Qed.

(** The item skeleton: [try: body  except ...: log; log_decision]. *)
Lemma item_isolated w :
  loggable guarded (log_path file_name) w ->
  exists w',
    try_except body (handlers_of log_decision file_name clauses) w = (Ok tt, w') /\
    protected w' = protected w /\
    (forall p, log_path file_name <> Some p ->
       forall r w1, body w = (r, w1) -> fs w' !! p = fs w1 !! p) /\
    forall lp,
      log_path file_name = Some lp -> lp ∉ protected w ->
      (forall w1, body w = (Ok tt, w1) -> decision_recorded w' lp file_name stage "success") /\
      (forall e w1, body w = (Raise e, w1) ->
         decision_recorded w' lp file_name stage (caught_prefix clauses e ++ exn_str e)).
Proof.
  intros Hlog. unfold try_except.
  destruct (body w) as [[[]|e] w1] eqn:Hbody.
  - destruct (body_orderly _ _ _ Hbody) as [Hp _].
    exists w1. split; [reflexivity|]. split; [exact Hp|]. split.
    + intros p _ r w2 [= <- <-]. reflexivity.
    + intros lp Hlp Hn. split.
      * intros w2 [= <-]. eapply body_success; eauto.
      * intros e w2 Habs. discriminate.
  - destruct (body_orderly _ _ _ Hbody) as [Hp He]. specialize (He e eq_refl).
    destruct (find_handler e He) as (cl & Hfind & Hh). rewrite Hh. cbn [snd].
    unfold bind at 1, log_msg at 1.
    destruct (log_spec file_name (snd cl ++ exn_str e)
                (add_log w1 (ERROR, snd (fst cl) e)))
      as (w2 & Hrun & Hp2 & Hkeep & Hrec).
    { apply (loggable_same_protection w); [exact Hp | exact Hlog]. }
    exists w2. split; [exact Hrun|]. split; [cbn in Hp2; congruence|]. split.
    + intros p Hne r w3 [= <- <-]. rewrite (Hkeep p Hne). reflexivity.
    + intros lp Hlp Hn. split.
      * intros w3 Habs. discriminate.
      * intros e' w3 [= <- <-]. unfold caught_prefix. rewrite Hfind.
        apply Hrec; [exact Hlp|]. cbn. rewrite Hp. exact Hn.
Qed.

End Skeleton.

(** A loop over items that are each isolated runs them all. *)
Lemma for_each_isolated guarded stage log_path clauses process_file_try process_file :
  isolates_failures guarded stage log_path clauses process_file_try process_file ->
  forall items w,
    (forall f, In f items -> loggable guarded (log_path f) w) ->
    for_each items process_file w
    = (Ok tt, fold_left (fun w f => snd (process_file f w)) items w).
Proof.
  intros Hiso. induction items as [|f items IH]; intros w Hlog; [reflexivity|].
  cbn [for_each fold_left]. unfold bind.
  destruct (Hiso f w (Hlog f (or_introl eq_refl))) as (w' & Hrun & Hp & _).
  rewrite Hrun. cbn [snd]. apply IH.
  intros f' Hin. destruct (Hlog f' (or_intror Hin)) as [Hg|Hw]; [left; exact Hg|].
  right. intros lp Hlp. rewrite Hp. auto.
Qed.

(** *** Items that end with a decision *)

(** The last character of a string. *)
Fixpoint last_char (s : string) : option ascii :=
  match s with
  | EmptyString => None
  | String c rest =>
      match rest with
      | EmptyString => Some c
      | String _ _ => last_char rest
      end
  end.

Lemma last_char_append (a s : string) :
  s <> EmptyString -> last_char (a ++ s)%string = last_char s.
Proof.
  intros Hs. induction a as [|x a IH]; [reflexivity|].
  rewrite append_cons. cbn [last_char]. destruct (a ++ s)%string as [|y t] eqn:E.
  - destruct a as [|x' a'].
    + change ("" ++ s)%string with s in E. contradiction.
    + rewrite append_cons in E. discriminate.
  - exact IH.
Qed.

(** Two paths whose names end in different characters are different. *)
Lemma paths_end_differently folder1 name1 folder2 name2 (suffix1 suffix2 : string) :
  suffix1 <> EmptyString -> suffix2 <> EmptyString ->
  last_char suffix1 <> last_char suffix2 ->
  path_join folder1 (name1 ++ suffix1)%string <> path_join folder2 (name2 ++ suffix2)%string.
Proof.
  intros H1 H2 Hne Heq.
  destruct (path_join_suffix folder1 name1 suffix1) as [p1 E1].
  destruct (path_join_suffix folder2 name2 suffix2) as [p2 E2].
  rewrite E1, E2 in Heq. apply (f_equal last_char) in Heq.
  rewrite !last_char_append in Heq by assumption. contradiction.
Qed.

Section Recorded.

Variable guarded : bool.
Variable stage : string.
Variable log_path : string -> option string.
Variable log_decision : string -> string -> M unit.
Variable file_name : string.

Hypothesis log_spec : records_decisions guarded stage log_path log_decision.

(** A [try] block that, when it ends normally, has just recorded
    ["success"]. *)
Definition ends_recorded (m : M unit) : Prop :=
  forall w w1 lp,
    m w = (Ok tt, w1) -> log_path file_name = Some lp -> lp ∉ protected w ->
    decision_recorded w1 lp file_name stage "success".

Lemma ends_recorded_throw c msg : ends_recorded (throw c msg).
Proof. intros w w1 lp H. unfold throw in H. discriminate. Qed.

Lemma ends_recorded_bind {A} (m : M A) (k : A -> M unit) :
  orderly m -> (forall a, ends_recorded (k a)) -> ends_recorded (bind m k).
Proof.
  intros Hm Hk w w2 lp H Hlp Hp.
  apply bind_ok_inv in H as (a & w1 & Hma & Hka).
  destruct (Hm _ _ _ Hma) as [Hpr _].
  eapply Hk; [exact Hka | exact Hlp | rewrite Hpr; exact Hp].
Qed.

Lemma ends_recorded_success lv msg :
  ends_recorded (bind (log_decision file_name "success") (fun _ => log_msg lv msg)).
Proof.
  intros w w2 lp H Hlp Hp.
  apply bind_ok_inv in H as (u & w1 & Hlog & Hmsg).
  unfold log_msg in Hmsg. injection Hmsg as <-.
  destruct (log_spec file_name "success" w) as (w1' & Hrun & _ & _ & Hrec).
  { right. intros lp' Hlp'. rewrite Hlp in Hlp'. injection Hlp' as <-. exact Hp. }
  rewrite Hrun in Hlog. injection Hlog as Hw. subst w1'.
  destruct (Hrec lp Hlp Hp) as [ts Hts]. exists ts. exact Hts.
Qed.

End Recorded.

(** Walk down a [try] block to the statement that records ["success"],
    leaving the orderliness of the statements before it to be shown. *)
Ltac recorded_tac log_spec :=
  cbv zeta;
  repeat first
    [ apply (ends_recorded_success _ _ _ _ _ log_spec)
    | apply ends_recorded_throw
    | apply ends_recorded_bind; [|intros ?]
    | match goal with
      | |- ends_recorded _ _ _ (if ?c then _ else _) => destruct c
      end ].

(** *** When the decision log cannot be written *)

Section Unrecorded.

Variable log_decision : string -> string -> M unit.
Variable file_name : string.

(** A [try] block that cannot end normally without having called
    [log_decision] with ["success"], under the protections it started with. *)
Definition reaches_log (m : M unit) : Prop :=
  forall w w1,
    m w = (Ok tt, w1) ->
    exists w0 w0',
      protected w0 = protected w /\ log_decision file_name "success" w0 = (Ok tt, w0').

Lemma reaches_log_throw c msg : reaches_log (throw c msg).
Proof. intros w w1 H. unfold throw in H. discriminate. Qed.

Lemma reaches_log_bind {A} (m : M A) (k : A -> M unit) :
  orderly m -> (forall a, reaches_log (k a)) -> reaches_log (bind m k).
Proof.
  intros Hm Hk w w2 H. apply bind_ok_inv in H as (a & w1 & Hma & Hka).
  destruct (Hm _ _ _ Hma) as [Hpr _].
  destruct (Hk a _ _ Hka) as (w0 & w0' & Hp & Hlog).
  exists w0, w0'. split; [congruence | exact Hlog].
Qed.

Lemma reaches_log_success lv msg :
  reaches_log (bind (log_decision file_name "success") (fun _ => log_msg lv msg)).
Proof.
  intros w w2 H. apply bind_ok_inv in H as ([] & w1 & Hlog & _).
  exists w, w1. split; [reflexivity | exact Hlog].
Qed.

End Unrecorded.

Ltac reaches_tac :=
  cbv zeta;
  repeat first
    [ apply reaches_log_success
    | apply reaches_log_throw
    | apply reaches_log_bind; [|intros ?]
    | match goal with
      | |- reaches_log _ _ (if ?c then _ else _) => destruct c
      end ].

(** A [log_decision] that writes directly raises when the log is protected. *)
Lemma direct_write_protected log_base_dir suffix stage file_name reason w lp :
  decision_log_path log_base_dir suffix file_name = Some lp ->
  lp ∈ protected w ->
  match dir_configured log_base_dir with
  | None => ret tt
  | Some dir =>
      write_file (path_join dir (fst (splitext file_name) ++ suffix))
        (JsonDoc (decision_entry file_name stage reason None))
  end w
  = (raise OSError ("[Errno 13] Permission denied: '" ++ lp ++ "'"), w).
Proof.
  unfold decision_log_path. destruct (dir_configured log_base_dir) as [dir|]; [|discriminate].
  intros [= <-] Hp. unfold write_file. rewrite bool_decide_eq_true_2 by exact Hp. reflexivity.
Qed.

(** An item whose [try] block reaches a direct [log_decision], handled by a
    single clause that calls it again: with a protected log the item raises. *)
Lemma unguarded_item_raises log_base_dir suffix stage file_name (body : M unit) line w lp :
  let log_decision := fun f reason =>
    match dir_configured log_base_dir with
    | None => ret tt
    | Some dir =>
        write_file (path_join dir (fst (splitext f) ++ suffix))
          (JsonDoc (decision_entry f stage reason None))
    end in
  orderly body ->
  reaches_log log_decision file_name body ->
  decision_log_path log_base_dir suffix file_name = Some lp ->
  lp ∈ protected w ->
  exists w',
    try_except body
      [(Exception_,
        fun e => bind (log_msg ERROR (line e))
                   (fun _ => log_decision file_name ("failed - " ++ exn_str e)))] w
    = (raise OSError ("[Errno 13] Permission denied: '" ++ lp ++ "'"), w').
Proof.
  intros log_decision Hbody Hreach Hlp Hp. unfold try_except.
  destruct (body w) as [[[]|e] w1] eqn:Hrun.
  - destruct (Hreach _ _ Hrun) as (w0 & w0' & Hp0 & Hlog).
    unfold log_decision in Hlog.
    rewrite (direct_write_protected _ _ stage _ _ w0 lp Hlp) in Hlog by (rewrite Hp0; exact Hp).
    discriminate.
  - destruct (Hbody _ _ _ Hrun) as [Hp1 He]. specialize (He e eq_refl).
    unfold is_exception in He. cbn [List.find fst snd]. rewrite He.
    unfold bind, log_msg. eexists. unfold log_decision.
    apply (direct_write_protected _ _ stage); [exact Hlp|]. cbn. rewrite Hp1. exact Hp.
Qed.

(** *** The audio cleaner *)

Section AudioCleanerStage.

Variable listdir : string -> world -> result (list string).
Variable from_wav : string -> world -> result Z.
Variable me : SegmentAudioCleaner.self.

Hypothesis from_wav_errors : forall p w, pure_ok (from_wav p w).

Lemma audio_cleaner_records :
  records_decisions false "audio_segment_clean"
    (decision_log_path (SegmentAudioCleaner.log_base_dir me) "_audio_clean.json")
    (SegmentAudioCleaner.log_decision me).
Proof.
  exact (direct_write_records (SegmentAudioCleaner.log_base_dir me)
           "_audio_clean.json" "audio_segment_clean").
Qed.

Lemma audio_cleaner_log_orderly file_name reason :
  orderly (SegmentAudioCleaner.log_decision me file_name reason).
Proof. unfold SegmentAudioCleaner.log_decision. orderly_tac. Qed.

Lemma collect_slices_orderly file_name audio_len segments :
  forall cleaned,
    orderly (SegmentAudioCleaner.collect_slices file_name audio_len cleaned segments).
Proof.
  induction segments as [|seg rest IH]; intros cleaned;
    cbn [SegmentAudioCleaner.collect_slices]; orderly_tac.
Qed.

Ltac audio_cleaner_steps :=
  try match goal with
  | |- orderly (call_ext _) => apply orderly_call_ext; intros ?; apply from_wav_errors
  | |- orderly (SegmentAudioCleaner.collect_slices _ _ _ _) => apply collect_slices_orderly
  | |- orderly (SegmentAudioCleaner.log_decision _ _ _) => apply audio_cleaner_log_orderly
  end.

Lemma audio_cleaner_try_orderly file_name :
  orderly (SegmentAudioCleaner.process_file_try from_wav me file_name).
Proof.
  unfold SegmentAudioCleaner.process_file_try, SegmentAudioCleaner.validate_transcript.
  orderly_tac; audio_cleaner_steps.
Qed.

Lemma audio_cleaner_success file_name :
  ends_recorded "audio_segment_clean"
    (decision_log_path (SegmentAudioCleaner.log_base_dir me) "_audio_clean.json")
    file_name (SegmentAudioCleaner.process_file_try from_wav me file_name).
Proof.
  unfold SegmentAudioCleaner.process_file_try, SegmentAudioCleaner.validate_transcript.
  recorded_tac audio_cleaner_records; orderly_tac; audio_cleaner_steps.
Qed.

Lemma audio_cleaner_reaches_log file_name :
  reaches_log (SegmentAudioCleaner.log_decision me) file_name
    (SegmentAudioCleaner.process_file_try from_wav me file_name).
Proof.
  unfold SegmentAudioCleaner.process_file_try, SegmentAudioCleaner.validate_transcript.
  reaches_tac; orderly_tac; audio_cleaner_steps.
Qed.

Lemma audio_cleaner_raises file_name w lp :
  decision_log_path (SegmentAudioCleaner.log_base_dir me) "_audio_clean.json" file_name
  = Some lp ->
  lp ∈ protected w ->
  exists w',
    SegmentAudioCleaner.process_file from_wav me file_name w
    = (raise OSError ("[Errno 13] Permission denied: '" ++ lp ++ "'"), w').
Proof.
  intros Hlp Hp.
  exact (unguarded_item_raises (SegmentAudioCleaner.log_base_dir me) "_audio_clean.json"
           "audio_segment_clean" file_name _ _ w lp
           (audio_cleaner_try_orderly file_name) (audio_cleaner_reaches_log file_name) Hlp Hp).
Qed.

Lemma audio_cleaner_isolates :
  isolates_failures false "audio_segment_clean"
    (decision_log_path (SegmentAudioCleaner.log_base_dir me) "_audio_clean.json")
    one_clause
    (SegmentAudioCleaner.process_file_try from_wav me)
    (SegmentAudioCleaner.process_file from_wav me).
Proof.
  intros file_name w Hlog.
  destruct (item_isolated false "audio_segment_clean" _ _ file_name _ (one_clause file_name)
              audio_cleaner_records (audio_cleaner_try_orderly file_name)
              (audio_cleaner_success file_name)
              ltac:(eexists _, _; left; reflexivity) w Hlog)
    as (w' & Hrun & Hp & _ & Hrec).
  exists w'. split; [exact Hrun|]. split; [exact Hp|]. exact Hrec.
Qed.

Lemma audio_cleaner_runs_all :
  processes_every_item false
    (decision_log_path (SegmentAudioCleaner.log_base_dir me) "_audio_clean.json")
    (discover listdir (SegmentAudioCleaner.audio_input_folder me)
       (fun f => endswith f "_clean.wav") (fun f => replace f "_clean.wav" ".mp4"))
    None
    (SegmentAudioCleaner.process_file from_wav me)
    (SegmentAudioCleaner.run listdir from_wav me).
Proof.
  intros w items Hdisc Hlog. unfold discover in Hdisc.
  destruct (listdir _ w) as [names|] eqn:Hls; [|discriminate]. injection Hdisc as <-.
  unfold SegmentAudioCleaner.run, bind, call_ext. rewrite Hls.
  rewrite <- for_each_map.
  rewrite (for_each_isolated _ _ _ _ _ _ audio_cleaner_isolates);
    [|intros f Hin; exact (Hlog f Hin)].
  destruct (map _ _); reflexivity.
Qed.

End AudioCleanerStage.

(** *** The video segment editor *)

Lemma pure_ok_retype {A B} (e : exn) : pure_ok (@Raise A e) -> pure_ok (@Raise B e).
Proof. intros H e' He'. injection He' as <-. apply H. reflexivity. Qed.

Lemma pure_video_py_sub a b : pure_ok (VideoSegmentEditor.py_sub a b).
Proof. unfold VideoSegmentEditor.py_sub. pure_tac. Qed.

Section VideoCutterStage.

Variable listdir : string -> world -> result (list string).
Variable subprocess_run : list string -> world -> result (Z * string) * gmap string content.
Variable py_str : pyval -> string.
Variable me : VideoSegmentEditor.self.

(** Starting a program fails with errors, not with interpreter exits. *)
Hypothesis subprocess_errors : forall cmd w, pure_ok (fst (subprocess_run cmd w)).

Lemma run_cmd_orderly cmd : orderly (VideoSegmentEditor.run_cmd subprocess_run cmd).
Proof.
  intros w r w1. unfold VideoSegmentEditor.run_cmd.
  pose proof (subprocess_errors cmd w) as Hr.
  destruct (subprocess_run cmd w) as [r0 files]. intros H. injection H as <- <-.
  split; [reflexivity | exact Hr].
Qed.

Lemma trim_segments_orderly input_path temp_dir segments :
  forall idx paths w r paths' w1,
    VideoSegmentEditor.trim_segments subprocess_run py_str input_path temp_dir idx paths
      segments w = (r, paths', w1) ->
    protected w1 = protected w /\ pure_ok r.
Proof.
  induction segments as [|seg rest IH]; intros idx paths w r paths' w1 H;
    cbn [VideoSegmentEditor.trim_segments] in H.
  - injection H as <- <- <-. split; [reflexivity | apply pure_ok_Ok].
  - destruct (py_getitem seg "start") as [start|e] eqn:Es.
    2:{ injection H as <- <- <-. split; [reflexivity|].
        apply (pure_ok_retype (A := pyval)). rewrite <- Es. apply pure_py_getitem. }
    match type of H with
    | match ?d with _ => _ end = _ =>
        assert (Hd : pure_ok d) by (pure_tac; apply pure_video_py_sub);
        destruct d as [duration|e]
    end.
    2:{ injection H as <- <- <-. split; [reflexivity | exact (pure_ok_retype e Hd)]. }
    match type of H with
    | match VideoSegmentEditor.run_cmd _ ?c ?w0 with _ => _ end = _ =>
        destruct (VideoSegmentEditor.run_cmd subprocess_run c w0) as [[[rc err]|e] w2] eqn:Er;
        destruct (run_cmd_orderly _ _ _ _ Er) as [Hp Hr]
    end.
    2:{ injection H as <- <- <-. split; [exact Hp | exact (pure_ok_retype e Hr)]. }
    destruct (negb (rc =? 0)).
    + injection H as <- <- <-. split; [exact Hp | apply pure_ok_raise; reflexivity].
    + apply IH in H as [Hp' Hr']. split; [congruence | exact Hr'].
Qed.

Lemma remove_if_exists_orderly p : orderly (VideoSegmentEditor.remove_if_exists p).
Proof. unfold VideoSegmentEditor.remove_if_exists. orderly_tac. Qed.

Lemma run_ffmpeg_trim_orderly input_path output_path segments :
  orderly (VideoSegmentEditor.run_ffmpeg_trim subprocess_run py_str me input_path output_path
             segments).
Proof.
  unfold VideoSegmentEditor.run_ffmpeg_trim. apply orderly_bind; [apply orderly_makedirs|].
  intros _ w r w1.
  destruct (VideoSegmentEditor.trim_segments _ _ _ _ _ _ _ w) as [[r0 paths] w0] eqn:Et.
  apply trim_segments_orderly in Et as [Hp Hr]. intros H.
  assert (Hfin : forall body : M unit, orderly body ->
            orderly (try_finally body
                       (bind (for_each paths VideoSegmentEditor.remove_if_exists)
                          (fun _ =>
                             bind (VideoSegmentEditor.remove_if_exists
                                     (path_join (path_join (VideoSegmentEditor.output_folder me)
                                                   "temp") "temp_concat.txt"))
                               (fun _ =>
                                  bind (path_exists
                                          (path_join (VideoSegmentEditor.output_folder me) "temp"))
                                    (fun found =>
                                       if found
                                       then rmdir (path_join
                                                     (VideoSegmentEditor.output_folder me) "temp")
                                       else ret tt)))))).
  { intros body Hb. orderly_tac; try assumption; apply remove_if_exists_orderly. }
  eapply Hfin in H.
  - destruct H as [Hp' Hr']. split; [congruence | exact Hr'].
  - orderly_tac; try apply run_cmd_orderly.
Qed.

Lemma video_cutter_records :
  records_decisions false "video_segment_edit"
    (decision_log_path (VideoSegmentEditor.log_base_dir me) "_video_edit.json")
    (VideoSegmentEditor.log_decision me).
Proof.
  exact (direct_write_records (VideoSegmentEditor.log_base_dir me)
           "_video_edit.json" "video_segment_edit").
Qed.

Lemma video_cutter_log_orderly file_name reason :
  orderly (VideoSegmentEditor.log_decision me file_name reason).
Proof. unfold VideoSegmentEditor.log_decision. orderly_tac. Qed.

Ltac video_cutter_steps :=
  try match goal with
  | |- orderly (VideoSegmentEditor.run_ffmpeg_trim _ _ _ _ _ _) => apply run_ffmpeg_trim_orderly
  | |- orderly (VideoSegmentEditor.log_decision _ _ _) => apply video_cutter_log_orderly
  end.

Lemma video_cutter_try_orderly file_name :
  orderly (VideoSegmentEditor.process_file_try subprocess_run py_str me file_name).
Proof.
  unfold VideoSegmentEditor.process_file_try, VideoSegmentEditor.validate_transcript.
  orderly_tac; video_cutter_steps.
Qed.

Lemma video_cutter_success file_name :
  ends_recorded "video_segment_edit"
    (decision_log_path (VideoSegmentEditor.log_base_dir me) "_video_edit.json")
    file_name (VideoSegmentEditor.process_file_try subprocess_run py_str me file_name).
Proof.
  unfold VideoSegmentEditor.process_file_try, VideoSegmentEditor.validate_transcript.
  recorded_tac video_cutter_records; orderly_tac; video_cutter_steps.
Qed.

Lemma video_cutter_reaches_log file_name :
  reaches_log (VideoSegmentEditor.log_decision me) file_name
    (VideoSegmentEditor.process_file_try subprocess_run py_str me file_name).
Proof.
  unfold VideoSegmentEditor.process_file_try, VideoSegmentEditor.validate_transcript.
  reaches_tac; orderly_tac; video_cutter_steps.
Qed.

Lemma video_cutter_raises file_name w lp :
  decision_log_path (VideoSegmentEditor.log_base_dir me) "_video_edit.json" file_name
  = Some lp ->
  lp ∈ protected w ->
  exists w',
    VideoSegmentEditor.process_file subprocess_run py_str me file_name w
    = (raise OSError ("[Errno 13] Permission denied: '" ++ lp ++ "'"), w').
Proof.
  intros Hlp Hp.
  exact (unguarded_item_raises (VideoSegmentEditor.log_base_dir me) "_video_edit.json"
           "video_segment_edit" file_name _ _ w lp
           (video_cutter_try_orderly file_name) (video_cutter_reaches_log file_name) Hlp Hp).
Qed.

Lemma video_cutter_isolates :
  isolates_failures false "video_segment_edit"
    (decision_log_path (VideoSegmentEditor.log_base_dir me) "_video_edit.json")
    one_clause
    (VideoSegmentEditor.process_file_try subprocess_run py_str me)
    (VideoSegmentEditor.process_file subprocess_run py_str me).
Proof.
  intros file_name w Hlog.
  destruct (item_isolated false "video_segment_edit" _ _ file_name _ (one_clause file_name)
              video_cutter_records (video_cutter_try_orderly file_name)
              (video_cutter_success file_name)
              ltac:(eexists _, _; left; reflexivity) w Hlog)
    as (w' & Hrun & Hp & _ & Hrec).
  exists w'. split; [exact Hrun|]. split; [exact Hp|]. exact Hrec.
Qed.

Lemma video_cutter_runs_all :
  processes_every_item false
    (decision_log_path (VideoSegmentEditor.log_base_dir me) "_video_edit.json")
    (discover listdir (VideoSegmentEditor.video_input_folder me)
       (fun f => endswith f ".mp4") (fun f => f))
    None
    (VideoSegmentEditor.process_file subprocess_run py_str me)
    (VideoSegmentEditor.run listdir subprocess_run py_str me).
Proof.
  intros w items Hdisc Hlog. unfold discover in Hdisc.
  destruct (listdir _ w) as [names|] eqn:Hls; [|discriminate]. injection Hdisc as <-.
  rewrite map_id in *.
  unfold VideoSegmentEditor.run, bind, call_ext. rewrite Hls.
  rewrite (for_each_isolated _ _ _ _ _ _ video_cutter_isolates);
    [|intros f Hin; exact (Hlog f Hin)].
  destruct (List.filter _ _); reflexivity.
Qed.

End VideoCutterStage.

(** *** The timeline generator *)

Lemma pure_format_3f x : pure_ok (format_3f x).
Proof. unfold format_3f. pure_tac. Qed.

Lemma pure_time_to_seconds_string x : pure_ok (TimelineGenerator.time_to_seconds_string x).
Proof. unfold TimelineGenerator.time_to_seconds_string. pure_tac. apply pure_format_3f. Qed.

Lemma pure_time_string_of v : pure_ok (TimelineGenerator.time_string_of v).
Proof.
  unfold TimelineGenerator.time_string_of. pure_tac. apply pure_time_to_seconds_string.
Qed.

Lemma pure_timeline_py_sub a b : pure_ok (TimelineGenerator.py_sub a b).
Proof. unfold TimelineGenerator.py_sub. pure_tac. Qed.

Lemma pure_frame_duration r : pure_ok (TimelineGenerator.frame_duration r).
Proof. unfold TimelineGenerator.frame_duration. pure_tac. Qed.

Lemma pure_clips media_id segments :
  forall i offset, pure_ok (TimelineGenerator.clips media_id i offset segments).
Proof.
  induction segments as [|seg rest IH]; intros i offset; cbn [TimelineGenerator.clips].
  - apply pure_ok_Ok.
  - pure_tac;
      first [ apply pure_timeline_py_sub | apply pure_time_to_seconds_string
            | apply pure_time_string_of | apply IH ].
Qed.

Lemma pure_fcpxml_document width height frame_rate frame_duration media_id src segments :
  pure_ok (TimelineGenerator.fcpxml_document width height frame_rate frame_duration media_id
             src segments).
Proof. unfold TimelineGenerator.fcpxml_document. pure_tac. apply pure_clips. Qed.

Section TimelineStage.

Variable asctime : world -> string.
Variable listdir : string -> world -> result (list string).
Variable probe : string -> world -> result (option TimelineGenerator.video_stream).
Variable uuid4 : world -> string.
Variable abspath : string -> string.
Variable me : TimelineGenerator.self.

(** Probing a file fails with errors, not with interpreter exits. *)
Hypothesis probe_errors : forall p w, pure_ok (probe p w).

Lemma timeline_check_orderly segs :
  forall i, orderly (TimelineGenerator.check_segments i segs).
Proof.
  induction segs as [|seg segs IH]; intros i; cbn [TimelineGenerator.check_segments];
    orderly_tac.
Qed.

Lemma timeline_validate_orderly v : orderly (TimelineGenerator.validate_transcript v).
Proof.
  unfold TimelineGenerator.validate_transcript. orderly_tac; apply timeline_check_orderly.
Qed.

Lemma get_video_metadata_orderly p : orderly (TimelineGenerator.get_video_metadata probe p).
Proof.
  unfold TimelineGenerator.get_video_metadata. orderly_tac.
  apply orderly_call_ext. intros w. apply probe_errors.
Qed.

Lemma create_fcpxml_orderly segments video_filename output_path :
  orderly (TimelineGenerator.create_fcpxml probe uuid4 abspath segments video_filename
             output_path).
Proof.
  unfold TimelineGenerator.create_fcpxml. orderly_tac;
    try match goal with
    | |- orderly (TimelineGenerator.get_video_metadata _ _) => apply get_video_metadata_orderly
    | |- pure_ok (TimelineGenerator.frame_duration _) => apply pure_frame_duration
    | |- pure_ok (TimelineGenerator.fcpxml_document _ _ _ _ _ _ _) =>
        apply pure_fcpxml_document
    | |- orderly (fun w => (Ok _, step_tick w)) =>
        intros w0 r0 w1 [= <- <-]; split; [reflexivity | apply pure_ok_Ok]
    end.
Qed.

Lemma timeline_records :
  records_decisions true "timeline_generation"
    (decision_log_path (TimelineGenerator.log_base_dir me) "_timeline.json")
    (TimelineGenerator.log_decision asctime me).
Proof.
  exact (guarded_write_records asctime (TimelineGenerator.log_base_dir me)
           "_timeline.json" "timeline_generation").
Qed.

Ltac timeline_steps :=
  try match goal with
  | |- orderly (TimelineGenerator.validate_transcript _) => apply timeline_validate_orderly
  | |- orderly (TimelineGenerator.create_fcpxml _ _ _ _ _ _) => apply create_fcpxml_orderly
  | |- orderly (TimelineGenerator.log_decision _ _ _ _) =>
      eapply records_decisions_orderly; [apply timeline_records | reflexivity]
  end.

Lemma timeline_try_orderly file_name :
  orderly (TimelineGenerator.process_file_try asctime probe uuid4 abspath me file_name).
Proof. unfold TimelineGenerator.process_file_try. orderly_tac; timeline_steps. Qed.

Lemma timeline_success file_name :
  ends_recorded "timeline_generation"
    (decision_log_path (TimelineGenerator.log_base_dir me) "_timeline.json")
    file_name (TimelineGenerator.process_file_try asctime probe uuid4 abspath me file_name).
Proof.
  unfold TimelineGenerator.process_file_try.
  recorded_tac timeline_records; orderly_tac; timeline_steps.
Qed.

Lemma timeline_isolates :
  isolates_failures true "timeline_generation"
    (decision_log_path (TimelineGenerator.log_base_dir me) "_timeline.json")
    (three_clauses ValueError "Invalid data: ")
    (TimelineGenerator.process_file_try asctime probe uuid4 abspath me)
    (TimelineGenerator.process_file asctime probe uuid4 abspath me).
Proof.
  intros file_name w Hlog.
  destruct (item_isolated true "timeline_generation" _ _ file_name _
              (three_clauses ValueError "Invalid data: " file_name)
              timeline_records (timeline_try_orderly file_name) (timeline_success file_name)
              ltac:(eexists _, _; right; right; left; reflexivity) w Hlog)
    as (w' & Hrun & Hp & _ & Hrec).
  exists w'. split; [exact Hrun|]. split; [exact Hp|]. exact Hrec.
Qed.

Lemma timeline_runs_all :
  processes_every_item true
    (decision_log_path (TimelineGenerator.log_base_dir me) "_timeline.json")
    (discover listdir (TimelineGenerator.transcript_folder me)
       (fun f => endswith f "_llm_cleaned.json") (fun f => replace f "_llm_cleaned.json" ".mp4"))
    (Some "No transcript files found to process")
    (TimelineGenerator.process_file asctime probe uuid4 abspath me)
    (TimelineGenerator.run asctime listdir probe uuid4 abspath me).
Proof.
  intros w items Hdisc Hlog. unfold discover in Hdisc.
  destruct (listdir _ w) as [names|] eqn:Hls; [|discriminate]. injection Hdisc as <-.
  unfold TimelineGenerator.run, try_except, bind, call_ext. rewrite Hls.
  destruct (List.filter _ names) as [|f fs] eqn:Hf; [reflexivity|].
  rewrite <- for_each_map.
  rewrite (for_each_isolated _ _ _ _ _ _ timeline_isolates); [reflexivity|].
  intros f' _. left. reflexivity.
Qed.

End TimelineStage.

(** *** The denoising stage *)

Section DenoiseStage.

Variable asctime : world -> string.
Variable listdir : string -> world -> result (list string).
Variable subprocess_run : list string -> world -> result (Z * string) * gmap string content.
Variable me : DenoiseAgent.self.

(** Starting a program fails with errors, not with interpreter exits. *)
Hypothesis subprocess_errors : forall cmd w, pure_ok (fst (subprocess_run cmd w)).

(** The temporary recording of an item. *)
Definition temp_wav (file_name : string) : string :=
  path_join (DenoiseAgent.audio_output me) (fst (splitext file_name) ++ "_raw.wav").

Lemma run_checked_orderly cmd : orderly (DenoiseAgent.run_checked subprocess_run cmd).
Proof.
  intros w r w1. unfold DenoiseAgent.run_checked.
  pose proof (subprocess_errors cmd w) as Hr.
  destruct (subprocess_run cmd w) as [[[rc err]|e] files]; cbn [fst] in Hr.
  - destruct (rc =? 0); intros H; injection H as <- <-;
      (split; [reflexivity|]); [apply pure_ok_Ok | intros e [= <-]; reflexivity].
  - intros H. injection H as <- <-. split; [reflexivity | exact (pure_ok_retype e Hr)].
Qed.

Ltac denoise_steps :=
  try match goal with
  | |- orderly (DenoiseAgent.run_checked _ _) => apply run_checked_orderly
  end.

Lemma convert_mp4_to_wav_orderly a b :
  orderly (DenoiseAgent.convert_mp4_to_wav subprocess_run a b).
Proof. unfold DenoiseAgent.convert_mp4_to_wav. orderly_tac; denoise_steps. Qed.

Lemma apply_noise_reduction_orderly a b :
  orderly (DenoiseAgent.apply_noise_reduction subprocess_run me a b).
Proof. unfold DenoiseAgent.apply_noise_reduction. orderly_tac; denoise_steps. Qed.

Lemma convert_wav_to_mp4_orderly a b c :
  orderly (DenoiseAgent.convert_wav_to_mp4 subprocess_run a b c).
Proof. unfold DenoiseAgent.convert_wav_to_mp4. orderly_tac; denoise_steps. Qed.

Lemma denoise_records :
  records_decisions true "denoise"
    (decision_log_path (DenoiseAgent.log_base_dir me) "_denoise.json")
    (DenoiseAgent.log_decision asctime me).
Proof.
  exact (guarded_write_records asctime (DenoiseAgent.log_base_dir me) "_denoise.json" "denoise").
Qed.

Ltac denoise_try_steps :=
  try match goal with
  | |- orderly (DenoiseAgent.convert_mp4_to_wav _ _ _) => apply convert_mp4_to_wav_orderly
  | |- orderly (DenoiseAgent.apply_noise_reduction _ _ _ _) =>
      apply apply_noise_reduction_orderly
  | |- orderly (DenoiseAgent.convert_wav_to_mp4 _ _ _ _) => apply convert_wav_to_mp4_orderly
  | |- orderly (DenoiseAgent.log_decision _ _ _ _) =>
      eapply records_decisions_orderly; [apply denoise_records | reflexivity]
  end.

Lemma denoise_try_orderly file_name :
  orderly (DenoiseAgent.process_file_try asctime subprocess_run me file_name).
Proof. unfold DenoiseAgent.process_file_try. orderly_tac; denoise_try_steps. Qed.

Lemma denoise_success file_name :
  ends_recorded "denoise" (decision_log_path (DenoiseAgent.log_base_dir me) "_denoise.json")
    file_name (DenoiseAgent.process_file_try asctime subprocess_run me file_name).
Proof.
  unfold DenoiseAgent.process_file_try.
  recorded_tac denoise_records; orderly_tac; denoise_try_steps.
Qed.

(** The [finally] block always ends normally, leaves no temporary recording
    and touches no other file. *)
Lemma cleanup_spec file_name w :
  exists w',
    DenoiseAgent.cleanup me file_name w = (Ok tt, w') /\ protected w' = protected w /\
    fs w' !! temp_wav file_name = None /\
    forall p, p <> temp_wav file_name -> fs w' !! p = fs w !! p.
Proof.
  unfold DenoiseAgent.cleanup. fold (temp_wav file_name).
  unfold bind at 1, path_exists.
  destruct (fs w !! temp_wav file_name) as [c|] eqn:Hfile.
  - rewrite bool_decide_eq_true_2 by eauto. cbn [orb].
    unfold try_except, bind, remove_file, log_msg. rewrite Hfile.
    eexists. split; [reflexivity|]. split; [reflexivity|]. split.
    + cbn. apply lookup_delete_eq.
    + intros p Hne. cbn. apply lookup_delete_ne. congruence.
  - rewrite bool_decide_eq_false_2 by (intros [c Hc]; discriminate). cbn [orb].
    destruct (bool_decide _).
    + unfold try_except, bind, remove_file, log_msg. rewrite Hfile. cbn.
      eexists. split; [reflexivity|]. split; [reflexivity|]. split; [exact Hfile|].
      intros p _. reflexivity.
    + eexists. split; [reflexivity|]. split; [reflexivity|]. split; [exact Hfile|].
      intros p _. reflexivity.
Qed.

Lemma temp_wav_is_not_a_log file_name lp :
  decision_log_path (DenoiseAgent.log_base_dir me) "_denoise.json" file_name = Some lp ->
  lp <> temp_wav file_name.
Proof.
  unfold decision_log_path, temp_wav.
  destruct (dir_configured _) as [dir|]; [|discriminate]. intros [= <-].
  apply paths_end_differently; [discriminate | discriminate | discriminate].
Qed.

Lemma denoise_isolates :
  isolates_failures true "denoise"
    (decision_log_path (DenoiseAgent.log_base_dir me) "_denoise.json")
    (three_clauses RuntimeError "Processing error: ")
    (DenoiseAgent.process_file_try asctime subprocess_run me)
    (DenoiseAgent.process_file asctime subprocess_run me).
Proof.
  intros file_name w Hlog.
  destruct (item_isolated true "denoise" _ _ file_name _
              (three_clauses RuntimeError "Processing error: " file_name)
              denoise_records (denoise_try_orderly file_name) (denoise_success file_name)
              ltac:(eexists _, _; right; right; left; reflexivity) w Hlog)
    as (w1 & Hrun & Hp & _ & Hrec).
  destruct (cleanup_spec file_name w1) as (w2 & Hclean & Hp2 & _ & Hkeep).
  exists w2. split.
  - unfold DenoiseAgent.process_file, try_finally.
    change (try_except _ _ w) with
      (try_except (DenoiseAgent.process_file_try asctime subprocess_run me file_name)
         (handlers_of (DenoiseAgent.log_decision asctime me) file_name
            (three_clauses RuntimeError "Processing error: " file_name)) w).
    rewrite Hrun, Hclean. reflexivity.
  - split; [congruence|]. intros lp Hlp Hn.
    destruct (Hrec lp Hlp Hn) as [Hok Hfail].
    pose proof (temp_wav_is_not_a_log file_name lp Hlp) as Hne.
    split.
    + intros w0 H0. destruct (Hok w0 H0) as [ts Hts]. exists ts. rewrite (Hkeep lp Hne). exact Hts.
    + intros e w0 H0. destruct (Hfail e w0 H0) as [ts Hts]. exists ts.
      rewrite (Hkeep lp Hne). exact Hts.
Qed.

(** After an item has been processed, no temporary recording is left. *)
Lemma denoise_leaves_no_temp file_name w :
  fs (snd (DenoiseAgent.process_file asctime subprocess_run me file_name w))
    !! temp_wav file_name = None.
Proof.
  unfold DenoiseAgent.process_file, try_finally.
  destruct (try_except _ _ w) as [r w1].
  destruct (cleanup_spec file_name w1) as (w2 & Hclean & _ & Hgone & _).
  rewrite Hclean. exact Hgone.
Qed.

Lemma denoise_runs_all :
  processes_every_item true
    (decision_log_path (DenoiseAgent.log_base_dir me) "_denoise.json")
    (discover listdir (DenoiseAgent.input_folder me) (fun f => endswith f ".mp4") (fun f => f))
    (Some "No MP4 files found to process")
    (DenoiseAgent.process_file asctime subprocess_run me)
    (DenoiseAgent.run asctime listdir subprocess_run me).
Proof.
  intros w items Hdisc Hlog. unfold discover in Hdisc.
  destruct (listdir _ w) as [names|] eqn:Hls; [|discriminate]. injection Hdisc as <-.
  rewrite map_id.
  unfold DenoiseAgent.run, try_except, bind, call_ext. rewrite Hls.
  destruct (List.filter _ names) as [|f fs] eqn:Hf; [reflexivity|].
  rewrite (for_each_isolated _ _ _ _ _ _ denoise_isolates); [reflexivity|].
  intros f' _. left. reflexivity.
Qed.

End DenoiseStage.

(** *** The editing stage as a whole *)

Section EditorRuns.

Variable asctime : world -> string.
Variable listdir : string -> world -> result (list string).
Variable post : string -> pyval -> Z -> world -> result pyval.
Variable py_repr : pyval -> string.
Variable me : LLMEditingAgent.self.

Hypothesis post_errors : forall url body t w, pure_ok (post url body t w).

Lemma editor_records :
  records_decisions true "llm_editing"
    (decision_log_path (LLMEditingAgent.log_base_dir me) "_llm_editing.json")
    (LLMEditingAgent.log_decision asctime me).
Proof.
  exact (guarded_write_records asctime (LLMEditingAgent.log_base_dir me)
           "_llm_editing.json" "llm_editing").
Qed.

Lemma editor_success file_name :
  ends_recorded "llm_editing"
    (decision_log_path (LLMEditingAgent.log_base_dir me) "_llm_editing.json")
    file_name (LLMEditingAgent.process_file_try asctime post py_repr me file_name).
Proof.
  unfold LLMEditingAgent.process_file_try.
  recorded_tac editor_records; orderly_tac;
    try match goal with
    | |- orderly (LLMEditingAgent.validate_transcript _) => apply editor_validate_orderly
    | |- orderly (LLMEditingAgent.clean_segments _ _ _ _ _ _ _) =>
        apply (clean_segments_orderly asctime); exact post_errors
    end.
Qed.

Lemma editor_isolates :
  isolates_failures true "llm_editing"
    (decision_log_path (LLMEditingAgent.log_base_dir me) "_llm_editing.json")
    (three_clauses ValueError "Invalid data: ")
    (LLMEditingAgent.process_file_try asctime post py_repr me)
    (LLMEditingAgent.process_file asctime post py_repr me).
Proof.
  intros file_name w Hlog.
  destruct (item_isolated true "llm_editing" _ _ file_name _
              (three_clauses ValueError "Invalid data: " file_name)
              editor_records (editor_try_orderly asctime post py_repr me post_errors file_name)
              (editor_success file_name)
              ltac:(eexists _, _; right; right; left; reflexivity) w Hlog)
    as (w' & Hrun & Hp & _ & Hrec).
  exists w'. split; [exact Hrun|]. split; [exact Hp|]. exact Hrec.
Qed.

Lemma editor_runs_all :
  processes_every_item true
    (decision_log_path (LLMEditingAgent.log_base_dir me) "_llm_editing.json")
    (discover listdir (LLMEditingAgent.transcript_input_folder me)
       (fun f => endswith f "_transcript.json") (fun f => replace f "_transcript.json" ".mp4"))
    (Some "No transcript files found to process")
    (LLMEditingAgent.process_file asctime post py_repr me)
    (LLMEditingAgent.run asctime listdir post py_repr me).
Proof.
  intros w items Hdisc Hlog. unfold discover in Hdisc.
  destruct (listdir _ w) as [names|] eqn:Hls; [|discriminate]. injection Hdisc as <-.
  unfold LLMEditingAgent.run, try_except, bind, call_ext. rewrite Hls.
  destruct (List.filter _ names) as [|f fs] eqn:Hf; [reflexivity|].
  rewrite <- for_each_map.
  rewrite (for_each_isolated _ _ _ _ _ _ editor_isolates); [reflexivity|].
  intros f' _. left. reflexivity.
Qed.

End EditorRuns.

(** *** Example runs of the stages *)

Definition penultimate (cmd : list string) : string := nth (length cmd - 2) cmd "".

(** A media tool that fails on every command naming [bad] and otherwise
    writes its output, the argument before the closing [-y]. *)
Definition ffmpeg_failing_on (bad : string) (cmd : list string) (w : world)
  : result (Z * string) * gmap string content :=
  if existsb (String.eqb bad) cmd
  then (Ok (1, "Invalid data found when processing input"), fs w)
  else (Ok (0, ""), <[penultimate cmd := Blob "media"]> (fs w)).

Definition example_denoiser : DenoiseAgent.self :=
  {| DenoiseAgent.input_folder := "raw";
     DenoiseAgent.audio_output := "denoised";
     DenoiseAgent.video_output := "denoised";
     DenoiseAgent.model_path := "models/lq.rnnn";
     DenoiseAgent.log_base_dir := Some "logs" |}.

Definition listdir_videos (folder : string) (w : world) : result (list string) :=
  Ok ["a.mp4"; "b.mp4"; "notes.txt"].

Definition two_videos : world :=
  with_fs empty_world
    (<["raw/a.mp4" := Blob "a"]>
       (<["raw/b.mp4" := Blob "b"]> (<["models/lq.rnnn" := Blob "model"]> ∅))).

Definition denoise_run : result unit * world :=
  DenoiseAgent.run example_clock listdir_videos (ffmpeg_failing_on "raw/b.mp4")
    example_denoiser two_videos.

(** X1: in the denoising stage, processing one item always ends normally
    (the media tool failing with an error, a missing input or a missing
    model included); when the decision log is configured and writable a
    successful item leaves ["success"] in its decision log and a failed item
    leaves the description of its error, prefixed by the clause that caught
    it; and [run] processes every [.mp4] of the input folder in turn,
    whatever happened to the items before it, or logs a warning when there is
    none. *)
Theorem denoise_stage_isolates_failures asctime listdir subprocess_run me :
  (forall cmd w, pure_ok (fst (subprocess_run cmd w))) ->
  isolates_failures true "denoise"
    (decision_log_path (DenoiseAgent.log_base_dir me) "_denoise.json")
    (three_clauses RuntimeError "Processing error: ")
    (DenoiseAgent.process_file_try asctime subprocess_run me)
    (DenoiseAgent.process_file asctime subprocess_run me) /\
  processes_every_item true
    (decision_log_path (DenoiseAgent.log_base_dir me) "_denoise.json")
    (discover listdir (DenoiseAgent.input_folder me) (fun f => endswith f ".mp4") (fun f => f))
    (Some "No MP4 files found to process")
    (DenoiseAgent.process_file asctime subprocess_run me)
    (DenoiseAgent.run asctime listdir subprocess_run me).
Proof.
  intros Herr. split.
  - apply denoise_isolates, Herr.
  - apply denoise_runs_all, Herr.
Qed.

Lemma ffmpeg_failing_on_errors bad cmd w : pure_ok (fst (ffmpeg_failing_on bad cmd w)).
Proof. unfold ffmpeg_failing_on. destruct (existsb _ cmd); intros e He; discriminate. Qed.

Lemma denoise_stage_isolates_failures_witness :
  fst denoise_run = Ok tt /\
  decision_of (snd denoise_run) "logs/a_denoise.json" = Some (PStr "success") /\
  decision_of (snd denoise_run) "logs/b_denoise.json"
  = Some (PStr ("Processing error: Failed to convert MP4 to WAV: Command '['ffmpeg', '-i', "
                ++ "'raw/b.mp4', '-vn', '-acodec', 'pcm_s16le', '-ar', '48000', '-ac', '2', "
                ++ "'denoised/b_raw.wav', '-y']' returned non-zero exit status 1.")) /\
  fs (snd denoise_run) !! "denoised/a.mp4" = Some (Blob "media") /\
  fs (snd denoise_run) !! "denoised/b.mp4" = None.
Proof.
  unfold denoise_run.
  rewrite (proj2 (denoise_stage_isolates_failures example_clock listdir_videos
                    (ffmpeg_failing_on "raw/b.mp4") example_denoiser
                    (ffmpeg_failing_on_errors "raw/b.mp4"))
             two_videos _ eq_refl (fun _ _ => or_introl eq_refl)).
  vm_compute. repeat split.
Defined.

(** X2: whatever happens to an item of the denoising stage, its temporary
    recording [<base>_raw.wav] is not among the files when [process_file]
    has finished. *)
Theorem denoise_removes_temporary_audio asctime subprocess_run me file_name w :
  fs (snd (DenoiseAgent.process_file asctime subprocess_run me file_name w))
    !! path_join (DenoiseAgent.audio_output me) (fst (splitext file_name) ++ "_raw.wav")
  = None.
Proof. apply denoise_leaves_no_temp. Qed.

Definition one_segment_transcript : pyval :=
  PDict [("segments",
          PList [PDict [("start", PFloat 0); ("end", PFloat 2); ("text", PStr "um hello")]])].

Definition listdir_transcripts (folder : string) (w : world) : result (list string) :=
  Ok ["a_transcript.json"; "b_transcript.json"; "notes.txt"].

Definition two_transcripts : world :=
  with_fs empty_world
    (<["transcripts/a_transcript.json" := JsonDoc one_segment_transcript]>
       (<["transcripts/b_transcript.json" := JsonDoc one_segment_transcript]> ∅)).

(** The service answers the first request and refuses all later ones. *)
Definition editor_run : result unit * world :=
  LLMEditingAgent.run example_clock listdir_transcripts (scripted answers_once) (fun _ => "")
    example_editor two_transcripts.

Definition listdir_cleaned (folder : string) (w : world) : result (list string) :=
  Ok ["a_llm_cleaned.json"; "b_llm_cleaned.json"; "notes.txt"].

(** Two cleaned transcripts; the cut video of the second one is missing. *)
Definition two_cleaned : world :=
  with_fs empty_world
    (<["edited/a_llm_cleaned.json" := JsonDoc one_segment_transcript]>
       (<["edited/b_llm_cleaned.json" := JsonDoc one_segment_transcript]>
          (<["edited_segments/a.mp4" := Blob "a"]> ∅))).

Definition timeline_run : result unit * world :=
  TimelineGenerator.run example_clock listdir_cleaned
    (fun _ _ => Ok (Some (example_stream 30 1))) (fun _ => "asset-1")
    (fun p => "/videos/" ++ p) example_generator two_cleaned.

Definition listdir_audio (folder : string) (w : world) : result (list string) :=
  Ok ["a_clean.wav"; "b_clean.wav"; "a.mp4"].

(** Two recordings; the cleaned transcript of the second one is missing. *)
Definition two_recordings : world :=
  with_fs empty_world
    (<["denoised/a_clean.wav" := Blob "a"]>
       (<["denoised/b_clean.wav" := Blob "b"]>
          (<["denoised/a.mp4" := Blob "a"]>
             (<["denoised/b.mp4" := Blob "b"]>
                (<["edited/a_llm_cleaned.json" := JsonDoc one_segment_transcript]> ∅))))).

Definition audio_cleaner_run : result unit * world :=
  SegmentAudioCleaner.run listdir_audio (fun _ _ => Ok 10000) example_audio_cleaner
    two_recordings.

Definition video_cutter_run : result unit * world :=
  VideoSegmentEditor.run listdir_videos ffmpeg_lenient example_str example_cutter
    two_recordings.

(** The same recordings with the decision log of the first one protected. *)
Definition protected_log : world :=
  mkWorld (fs two_recordings) ∅ {["logs/a_audio_clean.json"; "logs/a_video_edit.json"]} [] [] 0.

(** X3: in the editing stage, processing one item always ends normally; when
    the decision log is configured and writable a successful item leaves
    ["success"] in its decision log and a failed item the description of its
    error; and [run] processes every [_transcript.json] of the input folder
    in turn, whatever happened to the items before it, or logs a warning when
    there is none. *)
Theorem editor_stage_isolates_failures asctime listdir post py_repr me :
  (forall url body t w, pure_ok (post url body t w)) ->
  isolates_failures true "llm_editing"
    (decision_log_path (LLMEditingAgent.log_base_dir me) "_llm_editing.json")
    (three_clauses ValueError "Invalid data: ")
    (LLMEditingAgent.process_file_try asctime post py_repr me)
    (LLMEditingAgent.process_file asctime post py_repr me) /\
  processes_every_item true
    (decision_log_path (LLMEditingAgent.log_base_dir me) "_llm_editing.json")
    (discover listdir (LLMEditingAgent.transcript_input_folder me)
       (fun f => endswith f "_transcript.json") (fun f => replace f "_transcript.json" ".mp4"))
    (Some "No transcript files found to process")
    (LLMEditingAgent.process_file asctime post py_repr me)
    (LLMEditingAgent.run asctime listdir post py_repr me).
Proof.
  intros Herr. split.
  - apply editor_isolates, Herr.
  - apply editor_runs_all, Herr.
Qed.

Lemma editor_stage_isolates_failures_witness :
  fst editor_run = Ok tt /\
  decision_of (snd editor_run) "logs/a_llm_editing.json" = Some (PStr "success") /\
  decision_of (snd editor_run) "logs/b_llm_editing.json"
  = Some (PStr "Unexpected error: Failed to call LLM API after 3 retries: connection refused") /\
  is_Some (fs (snd editor_run) !! "edited/a_llm_cleaned.json") /\
  fs (snd editor_run) !! "edited/b_llm_cleaned.json" = None.
Proof.
  unfold editor_run.
  rewrite (proj2 (editor_stage_isolates_failures example_clock listdir_transcripts
                    (scripted answers_once) (fun _ => "") example_editor answers_once_errors)
             two_transcripts _ eq_refl (fun _ _ => or_introl eq_refl)).
  vm_compute. repeat split. eexists. reflexivity.
Defined.

(** X4: in the timeline stage, processing one item always ends normally; when
    the decision log is configured and writable a successful item leaves
    ["success"] in its decision log and a failed item the description of its
    error; and [run] processes every [_llm_cleaned.json] of the transcript
    folder in turn, whatever happened to the items before it, or logs a
    warning when there is none. *)
Theorem timeline_stage_isolates_failures asctime listdir probe uuid4 abspath me :
  (forall p w, pure_ok (probe p w)) ->
  isolates_failures true "timeline_generation"
    (decision_log_path (TimelineGenerator.log_base_dir me) "_timeline.json")
    (three_clauses ValueError "Invalid data: ")
    (TimelineGenerator.process_file_try asctime probe uuid4 abspath me)
    (TimelineGenerator.process_file asctime probe uuid4 abspath me) /\
  processes_every_item true
    (decision_log_path (TimelineGenerator.log_base_dir me) "_timeline.json")
    (discover listdir (TimelineGenerator.transcript_folder me)
       (fun f => endswith f "_llm_cleaned.json") (fun f => replace f "_llm_cleaned.json" ".mp4"))
    (Some "No transcript files found to process")
    (TimelineGenerator.process_file asctime probe uuid4 abspath me)
    (TimelineGenerator.run asctime listdir probe uuid4 abspath me).
Proof.
  intros Herr. split.
  - apply timeline_isolates, Herr.
  - apply timeline_runs_all, Herr.
Qed.

Lemma timeline_stage_isolates_failures_witness :
  fst timeline_run = Ok tt /\
  decision_of (snd timeline_run) "logs/a_timeline.json" = Some (PStr "success") /\
  decision_of (snd timeline_run) "logs/b_timeline.json"
  = Some (PStr "File not found: Video file not found: edited_segments/b.mp4") /\
  is_Some (fs (snd timeline_run) !! "timelines/a_timeline.xml") /\
  fs (snd timeline_run) !! "timelines/b_timeline.xml" = None.
Proof.
  unfold timeline_run.
  rewrite (proj2 (timeline_stage_isolates_failures example_clock listdir_cleaned
                    (fun _ _ => Ok (Some (example_stream 30 1))) (fun _ => "asset-1")
                    (fun p => "/videos/" ++ p) example_generator
                    (fun _ _ => pure_ok_Ok _))
             two_cleaned _ eq_refl (fun _ _ => or_introl eq_refl)).
  vm_compute. repeat split. eexists. reflexivity.
Defined.

Lemma nothing_protected guarded log_path (w : world) :
  protected w = ∅ -> loggable guarded log_path w.
Proof. intros Hw. right. intros lp _. rewrite Hw. apply not_elem_of_empty. Qed.

(** X5: in the audio cleaner, whose [log_decision] writes the decision log
    without a guard, processing one item ends normally whenever that log is
    not write-protected, leaving ["success"] or ["failed - "] followed by the
    description of the error in it; under the same condition for every
    discovered item, [run] processes every [_clean.wav] of the input folder
    in turn, and does nothing when there is none. *)
Theorem audio_cleaner_stage_isolates_failures listdir from_wav me :
  (forall p w, pure_ok (from_wav p w)) ->
  isolates_failures false "audio_segment_clean"
    (decision_log_path (SegmentAudioCleaner.log_base_dir me) "_audio_clean.json")
    one_clause
    (SegmentAudioCleaner.process_file_try from_wav me)
    (SegmentAudioCleaner.process_file from_wav me) /\
  processes_every_item false
    (decision_log_path (SegmentAudioCleaner.log_base_dir me) "_audio_clean.json")
    (discover listdir (SegmentAudioCleaner.audio_input_folder me)
       (fun f => endswith f "_clean.wav") (fun f => replace f "_clean.wav" ".mp4"))
    None
    (SegmentAudioCleaner.process_file from_wav me)
    (SegmentAudioCleaner.run listdir from_wav me).
Proof.
  intros Herr. split.
  - apply audio_cleaner_isolates, Herr.
  - apply audio_cleaner_runs_all, Herr.
Qed.

Lemma audio_cleaner_stage_isolates_failures_witness :
  fst audio_cleaner_run = Ok tt /\
  decision_of (snd audio_cleaner_run) "logs/a_audio_clean.json" = Some (PStr "success") /\
  decision_of (snd audio_cleaner_run) "logs/b_audio_clean.json"
  = Some (PStr "failed - Transcript file not found: edited/b_llm_cleaned.json") /\
  fs (snd audio_cleaner_run) !! "audio/a_audio_clean.wav" = Some (WavDoc [(0, 2000)]) /\
  fs (snd audio_cleaner_run) !! "audio/b_audio_clean.wav" = None.
Proof.
  unfold audio_cleaner_run.
  rewrite (proj2 (audio_cleaner_stage_isolates_failures listdir_audio (fun _ _ => Ok 10000)
                    example_audio_cleaner (fun _ _ => pure_ok_Ok _))
             two_recordings _ eq_refl (fun _ _ => nothing_protected _ _ two_recordings eq_refl)).
  vm_compute. repeat split.
Defined.

(** X6: in the video segment editor, whose [log_decision] writes the decision
    log without a guard, processing one item ends normally whenever that log
    is not write-protected, leaving ["success"] or ["failed - "] followed by
    the description of the error in it; under the same condition for every
    discovered item, [run] processes every [.mp4] of the input folder in
    turn, and does nothing when there is none. *)
Theorem video_cutter_stage_isolates_failures listdir subprocess_run py_str me :
  (forall cmd w, pure_ok (fst (subprocess_run cmd w))) ->
  isolates_failures false "video_segment_edit"
    (decision_log_path (VideoSegmentEditor.log_base_dir me) "_video_edit.json")
    one_clause
    (VideoSegmentEditor.process_file_try subprocess_run py_str me)
    (VideoSegmentEditor.process_file subprocess_run py_str me) /\
  processes_every_item false
    (decision_log_path (VideoSegmentEditor.log_base_dir me) "_video_edit.json")
    (discover listdir (VideoSegmentEditor.video_input_folder me)
       (fun f => endswith f ".mp4") (fun f => f))
    None
    (VideoSegmentEditor.process_file subprocess_run py_str me)
    (VideoSegmentEditor.run listdir subprocess_run py_str me).
Proof.
  intros Herr. split.
  - apply video_cutter_isolates, Herr.
  - apply video_cutter_runs_all, Herr.
Qed.

Lemma video_cutter_stage_isolates_failures_witness :
  fst video_cutter_run = Ok tt /\
  decision_of (snd video_cutter_run) "logs/a_video_edit.json" = Some (PStr "success") /\
  decision_of (snd video_cutter_run) "logs/b_video_edit.json"
  = Some (PStr "failed - Transcript file not found: edited/b_llm_cleaned.json") /\
  is_Some (fs (snd video_cutter_run) !! "edited_segments/a_video_clean.mp4") /\
  fs (snd video_cutter_run) !! "edited_segments/b_video_clean.mp4" = None.
Proof.
  unfold video_cutter_run.
  rewrite (proj2 (video_cutter_stage_isolates_failures listdir_videos ffmpeg_lenient
                    example_str example_cutter (fun _ _ => pure_ok_Ok _))
             two_recordings _ eq_refl (fun _ _ => nothing_protected _ _ two_recordings eq_refl)).
  vm_compute. repeat split. eexists. reflexivity.
Defined.

(** X7: the audio cleaner and the video segment editor write the decision
    log without a guard, in the [try] block and in its only [except] clause.
    When the decision log of an item is write-protected, [process_file]
    therefore raises the [OSError] of that write, whether the item itself
    succeeded or failed, and a [run] whose first item is such an item raises
    it too, before any other item is processed. *)
Theorem unguarded_log_failure_escapes :
  (forall listdir from_wav me,
     (forall p w, pure_ok (from_wav p w)) ->
     (forall file_name w lp,
        decision_log_path (SegmentAudioCleaner.log_base_dir me) "_audio_clean.json" file_name
        = Some lp ->
        lp ∈ protected w ->
        exists w',
          SegmentAudioCleaner.process_file from_wav me file_name w
          = (raise OSError ("[Errno 13] Permission denied: '" ++ lp ++ "'"), w')) /\
     (forall w names first rest lp,
        listdir (SegmentAudioCleaner.audio_input_folder me) w = Ok names ->
        List.filter (fun f => endswith f "_clean.wav") names = first :: rest ->
        decision_log_path (SegmentAudioCleaner.log_base_dir me) "_audio_clean.json"
          (replace first "_clean.wav" ".mp4") = Some lp ->
        lp ∈ protected w ->
        SegmentAudioCleaner.run listdir from_wav me w
        = SegmentAudioCleaner.process_file from_wav me (replace first "_clean.wav" ".mp4")
            (step_tick w))) /\
  (forall listdir subprocess_run py_str me,
     (forall cmd w, pure_ok (fst (subprocess_run cmd w))) ->
     (forall file_name w lp,
        decision_log_path (VideoSegmentEditor.log_base_dir me) "_video_edit.json" file_name
        = Some lp ->
        lp ∈ protected w ->
        exists w',
          VideoSegmentEditor.process_file subprocess_run py_str me file_name w
          = (raise OSError ("[Errno 13] Permission denied: '" ++ lp ++ "'"), w')) /\
     (forall w names first rest lp,
        listdir (VideoSegmentEditor.video_input_folder me) w = Ok names ->
        List.filter (fun f => endswith f ".mp4") names = first :: rest ->
        decision_log_path (VideoSegmentEditor.log_base_dir me) "_video_edit.json" first
        = Some lp ->
        lp ∈ protected w ->
        VideoSegmentEditor.run listdir subprocess_run py_str me w
        = VideoSegmentEditor.process_file subprocess_run py_str me first (step_tick w))).
Proof.
  split.
  - intros listdir from_wav me Herr. split.
    + intros file_name w lp. apply audio_cleaner_raises, Herr.
    + intros w names first rest lp Hls Hf Hlp Hp.
      unfold SegmentAudioCleaner.run, bind at 1, call_ext. rewrite Hls, Hf.
      cbn [for_each]. unfold bind.
      destruct (audio_cleaner_raises from_wav me Herr _ (step_tick w) lp Hlp Hp) as [w' Hrun].
      rewrite Hrun. reflexivity.
  - intros listdir subprocess_run py_str me Herr. split.
    + intros file_name w lp. apply video_cutter_raises, Herr.
    + intros w names first rest lp Hls Hf Hlp Hp.
      unfold VideoSegmentEditor.run, bind at 1, call_ext. rewrite Hls, Hf.
      cbn [for_each]. unfold bind.
      destruct (video_cutter_raises subprocess_run py_str me Herr _ (step_tick w) lp Hlp Hp)
        as [w' Hrun].
      rewrite Hrun. reflexivity.
Qed.

Lemma log_is_protected : "logs/a_audio_clean.json" ∈ protected protected_log.
Proof. vm_compute. set_solver. Qed.

Lemma unguarded_log_failure_escapes_witness :
  fst (SegmentAudioCleaner.run listdir_audio (fun _ _ => Ok 10000) example_audio_cleaner
         protected_log)
  = raise OSError "[Errno 13] Permission denied: 'logs/a_audio_clean.json'" /\
  fs (snd (SegmentAudioCleaner.run listdir_audio (fun _ _ => Ok 10000) example_audio_cleaner
             protected_log)) !! "logs/b_audio_clean.json" = None.
Proof.
  rewrite (proj2 (proj1 unguarded_log_failure_escapes listdir_audio (fun _ _ => Ok 10000)
                    example_audio_cleaner (fun _ _ => pure_ok_Ok _))
             protected_log _ _ _ "logs/a_audio_clean.json" eq_refl eq_refl eq_refl
             log_is_protected).
  vm_compute. split; reflexivity.
Defined.

(** * Further properties of the validators *)

(** What the loops of the validators look at in one segment: a dict with the
    three keys whose [start] and [end] are numbers for which
    [end <= start] is false. *)
Definition timed_segment (seg : pyval) : bool :=
  match seg with
  | PDict d =>
      match dict_get "start" d, dict_get "end" d, dict_get "text" d with
      | Some st, Some en, Some _ =>
          match as_num st, as_num en with
          | Some s, Some e => negb (num_le e s)
          | _, _ => false
          end
      | _, _, _ => false
      end
  | _ => false
  end.

(** What the transcriber's loop looks at in addition: a [text] that is a str
    and is not blank. *)
Definition spoken_segment (seg : pyval) : bool :=
  timed_segment seg &&
  match seg with
  | PDict d =>
      match dict_get "text" d with
      | Some (PStr t) => str_truthy (strip t)
      | _ => false
      end
  | _ => false
  end.

(** The value of [transcript["segments"]] when it is a list. *)
Definition segment_list (transcript : pyval) : option (list pyval) :=
  match transcript with
  | PDict d =>
      match dict_get "segments" d with
      | Some (PList segs) => Some segs
      | _ => None
      end
  | _ => None
  end.

Definition accepted_by_cutters (transcript : pyval) : bool :=
  match segment_list transcript with
  | Some segs => forallb timed_segment segs
  | None => false
  end.

Definition accepted_by_editor (transcript : pyval) : bool :=
  match segment_list transcript with
  | Some (seg :: segs) => forallb timed_segment (seg :: segs)
  | _ => false
  end.

Definition accepted_by_transcriber (transcript : pyval) : bool :=
  match segment_list transcript with
  | Some (seg :: segs) => forallb spoken_segment (seg :: segs)
  | _ => false
  end.

(** The world after a verdict: untouched by [True], one more line at level
    ERROR after [False]. *)
Definition verdict_logged (b : bool) (w w' : world) : Prop :=
  if b then w' = w else exists msg, w' = add_log w (ERROR, msg).

Lemma silent_check_verdict segs b :
  check_segments_silent segs = Ok b -> b = forallb timed_segment segs.
Proof.
  induction segs as [|seg segs IH]; cbn [check_segments_silent forallb].
  - intros [= <-]. reflexivity.
  - destruct seg as [| | | |t|l|d];
      try (destruct (all_keys_in ["start"; "end"; "text"] _) as [[|]|e];
           cbn; intros H; first [discriminate | injection H as <-; reflexivity]).
    rewrite all_keys_in_record. cbn [forallb timed_segment rbind].
    destruct (dict_get "start" d) as [st|] eqn:Hst; cbn;
      [|intros H; injection H as <-; reflexivity].
    destruct (dict_get "end" d) as [en|] eqn:Hen; cbn;
      [|intros H; injection H as <-; reflexivity].
    destruct (dict_get "text" d) as [tx|] eqn:Htx; cbn;
      [|intros H; injection H as <-; reflexivity].
    rewrite ?Hst, ?Hen. cbn. destruct (as_num st) as [s|]; [|intros H; injection H as <-; reflexivity].
    rewrite ?Hen. cbn. destruct (as_num en) as [e|]; [|intros H; injection H as <-; reflexivity].
    destruct (num_le e s); cbn; [intros H; injection H as <-; reflexivity|].
    exact IH.
Qed.

Lemma silent_check_accepts segs :
  forallb timed_segment segs = true -> check_segments_silent segs = Ok true.
Proof.
  induction segs as [|seg segs IH]; cbn [check_segments_silent forallb]; [reflexivity|].
  intros H. apply andb_prop in H as [Hseg Hrest].
  destruct seg as [| | | | | |d]; try discriminate.
  rewrite all_keys_in_record. cbn [forallb timed_segment rbind] in *.
  destruct (dict_get "start" d) as [st|] eqn:Hst; [|discriminate].
  destruct (dict_get "end" d) as [en|] eqn:Hen; [|discriminate].
  destruct (dict_get "text" d) as [tx|] eqn:Htx; [|discriminate].
  cbn. rewrite ?Hst, ?Hen. cbn. destruct (as_num st) as [s|]; [|discriminate].
  rewrite ?Hen. cbn. destruct (as_num en) as [e|]; [|discriminate].
  destruct (num_le e s); [discriminate|]. cbn. apply IH, Hrest.
Qed.

Ltac rejected :=
  let H := fresh in
  intros H; first [discriminate | injection H as <- <-; split; [reflexivity | eexists; reflexivity]].

Ltac not_a_record :=
  destruct (all_keys_in ["start"; "end"; "text"] _) as [[|]|?]; run_monad; rejected.

Lemma editor_check_verdict segs :
  forall i w b w',
    LLMEditingAgent.check_segments i segs w = (Ok b, w') ->
    b = forallb timed_segment segs /\ verdict_logged b w w'.
Proof.
  induction segs as [|seg segs IH]; intros i w b w';
    cbn [LLMEditingAgent.check_segments forallb].
  - intros H. injection H as <- <-. split; reflexivity.
  - destruct seg as [| | | |t|l|d]; try not_a_record.
    rewrite all_keys_in_record. cbn [forallb timed_segment py_getitem].
    destruct (dict_get "start" d) as [st|]; [|run_monad; rejected].
    destruct (dict_get "end" d) as [en|]; [|run_monad; rejected].
    destruct (dict_get "text" d) as [tx|]; [|run_monad; rejected].
    run_monad.
    destruct (as_num st) as [s|]; [|rejected].
    destruct (as_num en) as [e|]; [|rejected].
    destruct (num_le e s); [rejected|]. cbn. apply IH.
Qed.

Lemma timeline_check_verdict segs :
  forall i w b w',
    TimelineGenerator.check_segments i segs w = (Ok b, w') ->
    b = forallb timed_segment segs /\ verdict_logged b w w'.
Proof.
  induction segs as [|seg segs IH]; intros i w b w';
    cbn [TimelineGenerator.check_segments forallb].
  - intros H. injection H as <- <-. split; reflexivity.
  - destruct seg as [| | | |t|l|d]; try not_a_record.
    rewrite all_keys_in_record. cbn [forallb timed_segment py_getitem].
    destruct (dict_get "start" d) as [st|]; [|run_monad; rejected].
    destruct (dict_get "end" d) as [en|]; [|run_monad; rejected].
    destruct (dict_get "text" d) as [tx|]; [|run_monad; rejected].
    run_monad.
    destruct (as_num st) as [s|]; [|rejected].
    destruct (as_num en) as [e|]; [|rejected].
    destruct (num_le e s); [rejected|]. cbn. apply IH.
Qed.

Lemma transcriber_check_verdict segs :
  forall i w b w',
    TranscriberAgent.check_segments i segs w = (Ok b, w') ->
    b = forallb spoken_segment segs /\ verdict_logged b w w'.
Proof.
  induction segs as [|seg segs IH]; intros i w b w';
    cbn [TranscriberAgent.check_segments forallb].
  - intros H. injection H as <- <-. split; reflexivity.
  - destruct seg as [| | | |t|l|d]; try not_a_record.
    rewrite all_keys_in_record. unfold spoken_segment at 1.
    cbn [forallb timed_segment py_getitem].
    destruct (dict_get "start" d) as [st|]; [|run_monad; rejected].
    destruct (dict_get "end" d) as [en|]; [|run_monad; rejected].
    destruct (dict_get "text" d) as [tx|]; [|run_monad; rejected].
    run_monad.
    destruct (as_num st) as [s|]; [|rejected].
    destruct (as_num en) as [e|]; [|rejected].
    destruct (num_le e s); [rejected|]. cbn.
    destruct tx as [| | | |t| |]; try rejected.
    destruct (str_truthy (strip t)); [|rejected]. apply IH.
Qed.

Lemma editor_check_accepts segs i w :
  forallb timed_segment segs = true -> LLMEditingAgent.check_segments i segs w = (Ok true, w).
Proof.
  revert i. induction segs as [|seg segs IH]; intros i;
    cbn [LLMEditingAgent.check_segments forallb]; [reflexivity|].
  intros H. apply andb_prop in H as [Hseg Hrest].
  destruct seg as [| | | | | |d]; try discriminate.
  rewrite all_keys_in_record. cbn [forallb timed_segment py_getitem] in *.
  destruct (dict_get "start" d) as [st|]; [|discriminate].
  destruct (dict_get "end" d) as [en|]; [|discriminate].
  destruct (dict_get "text" d) as [tx|]; [|discriminate].
  run_monad.
  destruct (as_num st) as [s|]; [|discriminate].
  destruct (as_num en) as [e|]; [|discriminate].
  destruct (num_le e s); [discriminate|]. cbn. apply IH, Hrest.
Qed.

Lemma timeline_check_accepts segs i w :
  forallb timed_segment segs = true -> TimelineGenerator.check_segments i segs w = (Ok true, w).
Proof.
  revert i. induction segs as [|seg segs IH]; intros i;
    cbn [TimelineGenerator.check_segments forallb]; [reflexivity|].
  intros H. apply andb_prop in H as [Hseg Hrest].
  destruct seg as [| | | | | |d]; try discriminate.
  rewrite all_keys_in_record. cbn [forallb timed_segment py_getitem] in *.
  destruct (dict_get "start" d) as [st|]; [|discriminate].
  destruct (dict_get "end" d) as [en|]; [|discriminate].
  destruct (dict_get "text" d) as [tx|]; [|discriminate].
  run_monad.
  destruct (as_num st) as [s|]; [|discriminate].
  destruct (as_num en) as [e|]; [|discriminate].
  destruct (num_le e s); [discriminate|]. cbn. apply IH, Hrest.
Qed.

Lemma transcriber_check_accepts segs i w :
  forallb spoken_segment segs = true ->
  TranscriberAgent.check_segments i segs w = (Ok true, w).
Proof.
  revert i. induction segs as [|seg segs IH]; intros i;
    cbn [TranscriberAgent.check_segments forallb]; [reflexivity|].
  intros H. apply andb_prop in H as [Hseg Hrest].
  destruct seg as [| | | | | |d]; try discriminate.
  rewrite all_keys_in_record. unfold spoken_segment in Hseg.
  cbn [forallb timed_segment py_getitem] in *.
  destruct (dict_get "start" d) as [st|]; [|discriminate].
  destruct (dict_get "end" d) as [en|]; [|discriminate].
  destruct (dict_get "text" d) as [tx|]; [|discriminate].
  run_monad.
  destruct (as_num st) as [s|]; [|discriminate].
  destruct (as_num en) as [e|]; [|discriminate].
  destruct (num_le e s); [discriminate|]. cbn in *.
  destruct tx as [| | | |t| |]; try discriminate.
  destruct (str_truthy (strip t)); [|discriminate]. apply IH, Hrest.
Qed.

Lemma spoken_is_timed seg : spoken_segment seg = true -> timed_segment seg = true.
Proof. unfold spoken_segment. intros H. apply andb_prop in H as [H _]. exact H. Qed.

Lemma forallb_spoken_timed segs :
  forallb spoken_segment segs = true -> forallb timed_segment segs = true.
Proof.
  induction segs as [|seg segs IH]; cbn [forallb]; [reflexivity|].
  intros H. apply andb_prop in H as [H1 H2].
  rewrite (spoken_is_timed _ H1), (IH H2). reflexivity.
Qed.

Lemma editor_validate_verdict t w b w' :
  LLMEditingAgent.validate_transcript t w = (Ok b, w') ->
  b = accepted_by_editor t /\ verdict_logged b w w'.
Proof.
  unfold LLMEditingAgent.validate_transcript, accepted_by_editor, segment_list.
  destruct t as [| | | | | |d]; try (run_monad; rejected).
  destruct (dict_get "segments" d) as [[| | | | |[|seg segs]|]|]; try (run_monad; rejected).
  apply editor_check_verdict.
Qed.

Lemma timeline_validate_verdict t w b w' :
  TimelineGenerator.validate_transcript t w = (Ok b, w') ->
  b = accepted_by_editor t /\ verdict_logged b w w'.
Proof.
  unfold TimelineGenerator.validate_transcript, accepted_by_editor, segment_list.
  destruct t as [| | | | | |d]; try (run_monad; rejected).
  destruct (dict_get "segments" d) as [[| | | | |[|seg segs]|]|]; try (run_monad; rejected).
  apply timeline_check_verdict.
Qed.

Lemma transcriber_validate_verdict t w b w' :
  TranscriberAgent.validate_transcript t w = (Ok b, w') ->
  b = accepted_by_transcriber t /\ verdict_logged b w w'.
Proof.
  unfold TranscriberAgent.validate_transcript, accepted_by_transcriber, segment_list.
  destruct t as [| | | | | |d]; try (run_monad; rejected).
  destruct (dict_get "segments" d) as [[| | | | |[|seg segs]|]|]; try (run_monad; rejected).
  apply transcriber_check_verdict.
Qed.

Lemma silent_validate_verdict t b :
  validate_transcript_silent t = Ok b -> b = accepted_by_cutters t.
Proof.
  unfold validate_transcript_silent, accepted_by_cutters, segment_list.
  destruct t as [| | | | | |d]; try (intros [= <-]; reflexivity).
  destruct (dict_get "segments" d) as [[| | | | |segs|]|]; try (intros [= <-]; reflexivity).
  apply silent_check_verdict.
Qed.

Lemma editor_validate_accepts t w :
  accepted_by_editor t = true -> LLMEditingAgent.validate_transcript t w = (Ok true, w).
Proof.
  unfold LLMEditingAgent.validate_transcript, accepted_by_editor, segment_list.
  destruct t as [| | | | | |d]; try discriminate.
  destruct (dict_get "segments" d) as [[| | | | |[|seg segs]|]|]; try discriminate.
  apply editor_check_accepts.
Qed.

Lemma timeline_validate_accepts t w :
  accepted_by_editor t = true -> TimelineGenerator.validate_transcript t w = (Ok true, w).
Proof.
  unfold TimelineGenerator.validate_transcript, accepted_by_editor, segment_list.
  destruct t as [| | | | | |d]; try discriminate.
  destruct (dict_get "segments" d) as [[| | | | |[|seg segs]|]|]; try discriminate.
  apply timeline_check_accepts.
Qed.

Lemma transcriber_validate_accepts t w :
  accepted_by_transcriber t = true -> TranscriberAgent.validate_transcript t w = (Ok true, w).
Proof.
  unfold TranscriberAgent.validate_transcript, accepted_by_transcriber, segment_list.
  destruct t as [| | | | | |d]; try discriminate.
  destruct (dict_get "segments" d) as [[| | | | |[|seg segs]|]|]; try discriminate.
  apply transcriber_check_accepts.
Qed.

Lemma silent_validate_accepts t :
  accepted_by_cutters t = true -> validate_transcript_silent t = Ok true.
Proof.
  unfold validate_transcript_silent, accepted_by_cutters, segment_list.
  destruct t as [| | | | | |d]; try discriminate.
  destruct (dict_get "segments" d) as [[| | | | |segs|]|]; try discriminate.
  apply silent_check_accepts.
Qed.

Lemma transcriber_accepted_editor t :
  accepted_by_transcriber t = true -> accepted_by_editor t = true.
Proof.
  unfold accepted_by_transcriber, accepted_by_editor.
  destruct (segment_list t) as [[|seg segs]|]; try discriminate. apply forallb_spoken_timed.
Qed.

Lemma editor_accepted_cutters t :
  accepted_by_editor t = true -> accepted_by_cutters t = true.
Proof.
  unfold accepted_by_editor, accepted_by_cutters.
  destruct (segment_list t) as [[|seg segs]|]; try discriminate. auto.
Qed.

(** X8: each validator returns [True] on exactly the transcripts described
    by its list of conditions, and then leaves the log alone: a dict whose
    [segments] is a list of dicts having [start], [end] and [text], with
    numeric [start] and [end] for which [end <= start] is false; the list
    may be empty for the audio cleaner and the video segment editor only,
    and [text] must be a non-blank str for the transcriber only. *)
Theorem validators_accept_exactly transcript w w' :
  (TranscriberAgent.validate_transcript transcript w = (Ok true, w')
   <-> accepted_by_transcriber transcript = true /\ w' = w) /\
  (LLMEditingAgent.validate_transcript transcript w = (Ok true, w')
   <-> accepted_by_editor transcript = true /\ w' = w) /\
  (TimelineGenerator.validate_transcript transcript w = (Ok true, w')
   <-> accepted_by_editor transcript = true /\ w' = w) /\
  (SegmentAudioCleaner.validate_transcript transcript = Ok true
   <-> accepted_by_cutters transcript = true) /\
  (VideoSegmentEditor.validate_transcript transcript = Ok true
   <-> accepted_by_cutters transcript = true).
Proof.
  repeat split.
  - apply transcriber_validate_verdict in H as [H _]. auto.
  - apply transcriber_validate_verdict in H as [_ H]. exact H.
  - intros [H ->]. apply transcriber_validate_accepts, H.
  - apply editor_validate_verdict in H as [H _]. auto.
  - apply editor_validate_verdict in H as [_ H]. exact H.
  - intros [H ->]. apply editor_validate_accepts, H.
  - apply timeline_validate_verdict in H as [H _]. auto.
  - apply timeline_validate_verdict in H as [_ H]. exact H.
  - intros [H ->]. apply timeline_validate_accepts, H.
  - intros H. apply silent_validate_verdict in H. auto.
  - apply silent_validate_accepts.
  - intros H. apply silent_validate_verdict in H. auto.
  - apply silent_validate_accepts.
Qed.

Lemma validators_accept_exactly_witness :
  TranscriberAgent.validate_transcript one_segment_transcript empty_world
  = (Ok true, empty_world) /\
  accepted_by_editor text_blank = true /\
  accepted_by_cutters segments_empty = true.
Proof.
  split; [|split].
  - apply (proj2 (proj1 (validators_accept_exactly one_segment_transcript empty_world
                           empty_world))).
    split; reflexivity.
  - apply (proj1 (proj1 (proj2 (validators_accept_exactly text_blank empty_world
                                  empty_world)))).
    reflexivity.
  - apply (proj1 (proj1 (proj2 (proj2 (proj2 (validators_accept_exactly segments_empty
                                                empty_world empty_world)))))).
    reflexivity.
Defined.

(** X9: when the validator of the transcriber, of the editing agent or of
    the timeline generator returns [False], it has logged exactly one line,
    at level ERROR, and changed nothing else. *)
Theorem rejection_is_logged_once transcript w w' :
  (TranscriberAgent.validate_transcript transcript w = (Ok false, w') ->
   exists reason, w' = add_log w (ERROR, reason)) /\
  (LLMEditingAgent.validate_transcript transcript w = (Ok false, w') ->
   exists reason, w' = add_log w (ERROR, reason)) /\
  (TimelineGenerator.validate_transcript transcript w = (Ok false, w') ->
   exists reason, w' = add_log w (ERROR, reason)).
Proof.
  split; [|split]; intros H.
  - apply transcriber_validate_verdict in H as [_ H]. exact H.
  - apply editor_validate_verdict in H as [_ H]. exact H.
  - apply timeline_validate_verdict in H as [_ H]. exact H.
Qed.

Lemma rejection_is_logged_once_witness :
  exists reason,
    add_log empty_world (ERROR, "Segment 0 has invalid time range")
    = add_log empty_world (ERROR, reason).
Proof.
  exact (proj1 (proj2 (rejection_is_logged_once end_not_after_start empty_world
                         (add_log empty_world (ERROR, "Segment 0 has invalid time range"))))
           eq_refl).
Defined.

(** X10: the validators get weaker down the pipeline: a transcript accepted
    by the transcriber's validator is accepted by the editing agent's and the
    timeline generator's, and a transcript accepted by either of these is
    accepted by the audio cleaner's and the video segment editor's. *)
Theorem validators_weaken_downstream transcript w w' :
  (TranscriberAgent.validate_transcript transcript w = (Ok true, w') ->
   forall w2,
     LLMEditingAgent.validate_transcript transcript w2 = (Ok true, w2) /\
     TimelineGenerator.validate_transcript transcript w2 = (Ok true, w2)) /\
  (LLMEditingAgent.validate_transcript transcript w = (Ok true, w') \/
   TimelineGenerator.validate_transcript transcript w = (Ok true, w') ->
   SegmentAudioCleaner.validate_transcript transcript = Ok true /\
   VideoSegmentEditor.validate_transcript transcript = Ok true).
Proof.
  split.
  - intros H w2. apply transcriber_validate_verdict in H as [H _].
    symmetry in H. apply transcriber_accepted_editor in H.
    split; [apply editor_validate_accepts | apply timeline_validate_accepts]; exact H.
  - intros H.
    assert (Ha : accepted_by_editor transcript = true).
    { destruct H as [H|H];
        [apply editor_validate_verdict in H | apply timeline_validate_verdict in H];
        destruct H as [H _]; auto. }
    apply editor_accepted_cutters in Ha.
    split; apply silent_validate_accepts, Ha.
Qed.

Lemma validators_weaken_downstream_witness :
  LLMEditingAgent.validate_transcript one_segment_transcript two_videos
  = (Ok true, two_videos) /\
  VideoSegmentEditor.validate_transcript one_segment_transcript = Ok true.
Proof.
  split.
  - apply (proj1 (validators_weaken_downstream one_segment_transcript empty_world empty_world)
             eq_refl two_videos).
  - apply (proj2 (validators_weaken_downstream one_segment_transcript empty_world empty_world)
             (or_introl eq_refl)).
Defined.

(** A segment whose [end] is the float NaN. *)
Definition endless_segment (start text : pyval) : pyval :=
  PDict [("start", start); ("end", PFloat nan); ("text", text)].

Lemma nan_not_le (s : pynum) : num_le (NFloat nan) s = false.
Proof. unfold num_le. destruct (num_val s); reflexivity. Qed.

Lemma nan_not_gt (s : pynum) : num_lt s (NFloat nan) = false.
Proof. unfold num_lt. destruct (num_val s); reflexivity. Qed.

(** X11: the validators test [end <= start], which is false when [end] is
    NaN (a value [json.load] produces from the literal [NaN]): a segment with
    a numeric [start] and [end = NaN] passes every validator, the
    transcriber's included when its text is a non-blank str, although its
    [end] is not greater than its [start]. *)
Theorem validators_accept_nan_end start s text w :
  as_num start = Some s ->
  let transcript := PDict [("segments", PList [endless_segment start text])] in
  num_lt s (NFloat nan) = false /\
  LLMEditingAgent.validate_transcript transcript w = (Ok true, w) /\
  TimelineGenerator.validate_transcript transcript w = (Ok true, w) /\
  SegmentAudioCleaner.validate_transcript transcript = Ok true /\
  VideoSegmentEditor.validate_transcript transcript = Ok true /\
  (forall t, text = PStr t -> str_truthy (strip t) = true ->
             TranscriberAgent.validate_transcript transcript w = (Ok true, w)).
Proof.
  intros Hs transcript.
  assert (Htimed : timed_segment (endless_segment start text) = true).
  { unfold endless_segment. cbn -[num_le nan]. rewrite Hs. cbn -[num_le nan].
    rewrite nan_not_le. reflexivity. }
  assert (Ha : accepted_by_editor transcript = true).
  { change (accepted_by_editor transcript)
      with (timed_segment (endless_segment start text) && true).
    rewrite Htimed. reflexivity. }
  split; [apply nan_not_gt|].
  split; [apply editor_validate_accepts, Ha|].
  split; [apply timeline_validate_accepts, Ha|].
  split; [apply silent_validate_accepts, editor_accepted_cutters, Ha|].
  split; [apply silent_validate_accepts, editor_accepted_cutters, Ha|].
  intros t -> Ht. apply transcriber_validate_accepts.
  change (accepted_by_transcriber transcript)
    with (spoken_segment (endless_segment start (PStr t)) && true).
  unfold spoken_segment. rewrite Htimed. cbn. rewrite Ht. reflexivity.
Qed.

Lemma validators_accept_nan_end_witness :
  TimelineGenerator.validate_transcript
    (PDict [("segments", PList [endless_segment (PInt 3) (PStr "late")])]) empty_world
  = (Ok true, empty_world).
Proof.
  exact (proj1 (proj2 (proj2 (validators_accept_nan_end (PInt 3) (NInt 3) (PStr "late")
                                empty_world eq_refl)))).
Defined.

(** * Further properties of the editing agent *)

Lemma getitem_raises_no_request_error v key e :
  py_getitem v key = Raise e -> isinstance_exn e RequestException = false.
Proof.
  destruct v as [| | | | | |d]; cbn; try (intros [= <-]; reflexivity).
  destruct (dict_get key d); [discriminate | intros [= <-]; reflexivity].
Qed.

(** X12: only request errors are retried. When the service answers but the
    answer has no usable ["response"] field, [call_llm_api] raises the
    [KeyError] or [TypeError] of the lookup at once, whatever the retry
    count and the retry limit: one request has been sent, and neither a
    warning nor a sleep follows it. *)
Theorem malformed_answer_is_not_retried post me prompt retry_count w response e :
  post (LLMEditingAgent.ollama_url me ++ "/api/generate")
    (LLMEditingAgent.generate_request me prompt) (LLMEditingAgent.timeout me) w
  = Ok response ->
  py_getitem response "response" = Raise e ->
  LLMEditingAgent.call_llm_api post me prompt retry_count w
  = (Raise e, add_event w (request_event me prompt)) /\
  isinstance_exn e RequestException = false.
Proof.
  intros Hpost Hget. pose proof (getitem_raises_no_request_error _ _ _ Hget) as Hno.
  split; [|exact Hno].
  rewrite call_llm_api_step.
  unfold LLMEditingAgent.request_once, LLMEditingAgent.http_post, bind, lift.
  rewrite Hpost, Hget, Hno. reflexivity.
Qed.

Lemma malformed_answer_is_not_retried_witness :
  let out :=
    LLMEditingAgent.call_llm_api (fun _ _ _ _ => Ok (PDict [("error", PStr "model not found")]))
      example_editor "clean this" 0 empty_world in
  fst out = raise KeyError "'response'" /\ posts_made (snd out) = 1%nat.
Proof.
  cbv zeta.
  rewrite (proj1 (malformed_answer_is_not_retried
                    (fun _ _ _ _ => Ok (PDict [("error", PStr "model not found")]))
                    example_editor "clean this" 0 empty_world
                    (PDict [("error", PStr "model not found")])
                    (Exn KeyError "'response'") eq_refl eq_refl)).
  split; reflexivity.
Defined.

Lemma string_eqb_neq (a b : string) : a <> b -> String.eqb a b = false.
Proof. intros H. apply String.eqb_neq, H. Qed.

Lemma dict_get_set_eq k v d : dict_get k (dict_set k v d) = Some v.
Proof.
  induction d as [|[k' v'] d IH]; cbn [dict_set dict_get].
  - rewrite String.eqb_refl. reflexivity.
  - destruct (String.eqb k k') eqn:E; cbn [dict_get]; rewrite E; [reflexivity | exact IH].
Qed.

Lemma dict_get_set_ne k k0 v d : k0 <> k -> dict_get k0 (dict_set k v d) = dict_get k0 d.
Proof.
  intros Hne. induction d as [|[k' v'] d IH]; cbn [dict_set dict_get].
  - rewrite (string_eqb_neq _ _ Hne). reflexivity.
  - destruct (String.eqb k k') eqn:E; cbn [dict_get].
    + apply String.eqb_eq in E. subst k'. rewrite (string_eqb_neq _ _ Hne). reflexivity.
    + destruct (String.eqb k0 k'); [reflexivity | exact IH].
Qed.

(** Replacing the text of a segment the loops accept gives a segment they
    accept, with every other field as it was. *)
Lemma setitem_text_keeps seg reply seg' :
  LLMEditingAgent.py_setitem seg "text" reply = Ok seg' ->
  (forall key, key <> "text" -> py_getitem seg' key = py_getitem seg key) /\
  py_getitem seg' "text" = Ok reply /\
  (timed_segment seg = true -> timed_segment seg' = true).
Proof.
  destruct seg as [| | | | | |d]; try discriminate. intros [= <-].
  split; [|split].
  - intros key Hne. cbn [py_getitem]. rewrite dict_get_set_ne by exact Hne. reflexivity.
  - cbn [py_getitem]. rewrite dict_get_set_eq. reflexivity.
  - cbn [timed_segment]. rewrite dict_get_set_eq.
    rewrite !dict_get_set_ne by discriminate.
    destruct (dict_get "start" d), (dict_get "end" d), (dict_get "text" d);
      try discriminate; auto.
Qed.

Section EditorOutput.

Variable asctime : world -> string.
Variable post : string -> pyval -> Z -> world -> result pyval.
Variable py_repr : pyval -> string.
Variable me : LLMEditingAgent.self.

(** [after] is [before] with a new text and nothing else changed. *)
Definition retimed (before after : pyval) : Prop :=
  (forall key, key <> "text" -> py_getitem after key = py_getitem before key) /\
  exists reply, py_getitem after "text" = Ok reply.

Lemma cleaned_segments_keep_timing segments cleaned :
  Forall2 (cleaned_by post py_repr me) segments cleaned ->
  Forall2 retimed segments cleaned /\
  (forallb timed_segment segments = true -> forallb timed_segment cleaned = true).
Proof.
  induction 1 as [|seg seg' segments cleaned Hseg Hall [IH1 IH2]].
  - split; [constructor | reflexivity].
  - destruct Hseg as (text & reply & w & w1 & _ & _ & Hset).
    apply setitem_text_keeps in Hset as (Hkeep & Htext & Htimed).
    split.
    + constructor; [|exact IH1]. split; [exact Hkeep | eauto].
    + cbn [forallb]. intros H. apply andb_prop in H as [H1 H2].
      rewrite (Htimed H1), (IH2 H2). reflexivity.
Qed.

Lemma segments_of_list transcript segments :
  LLMEditingAgent.segments_of transcript = Ok segments ->
  segment_list transcript = Some segments /\
  forall cleaned,
    segment_list (LLMEditingAgent.with_segments transcript cleaned) = Some cleaned.
Proof.
  unfold LLMEditingAgent.segments_of, segment_list, LLMEditingAgent.with_segments.
  destruct transcript as [| | | | | |d]; try discriminate. cbn [py_getitem rbind].
  destruct (dict_get "segments" d) as [[| | | | |l|]|]; try discriminate.
  cbn. intros [= <-]. split; [reflexivity|].
  intros cleaned. rewrite dict_get_set_eq. reflexivity.
Qed.

(** A [try] block that ends normally read a transcript its validator
    accepted and wrote it back with the texts replaced. *)
Lemma editor_try_ok_validated file_name w w1 :
  LLMEditingAgent.process_file_try asctime post py_repr me file_name w = (Ok tt, w1) ->
  exists transcript segments cleaned,
    fs w !! transcript_path me file_name = Some (JsonDoc transcript) /\
    accepted_by_editor transcript = true /\
    LLMEditingAgent.segments_of transcript = Ok segments /\
    Forall2 (cleaned_by post py_repr me) segments cleaned /\
    fs w1 !! cleaned_path me file_name
    = Some (JsonDoc (LLMEditingAgent.with_segments transcript cleaned)).
Proof.
  intros H.
  destruct (editor_try_ok asctime post py_repr me file_name w w1 H)
    as (transcript & segments & cleaned & Hin & Hsegs & Hall & Hout).
  exists transcript, segments, cleaned. repeat split; try assumption.
  unfold LLMEditingAgent.process_file_try in H.
  apply bind_ok_inv in H as (found & w0 & Hex & H). injection Hex as <- <-.
  destruct (negb _); [discriminate|].
  apply bind_ok_inv in H as (transcript' & w0 & Hread & H).
  unfold read_json in Hread. fold (transcript_path me file_name) in Hread.
  rewrite Hin in Hread. injection Hread as <- <-.
  apply bind_ok_inv in H as (ok & wv & Hval & H).
  destruct ok; [|discriminate].
  apply editor_validate_verdict in Hval as [Hacc _]. auto.
Qed.

End EditorOutput.

(** X13: when the [try] block of an editing item ends normally, the
    transcript it wrote has as many segments as the one it read, each with
    every field but [text] unchanged (its time range in particular) and with
    a [text] field; and the written transcript passes the validators of the
    editing agent itself, of the timeline generator, of the audio cleaner and
    of the video segment editor. *)
Theorem editing_keeps_timing asctime post py_repr me file_name w w1 :
  LLMEditingAgent.process_file_try asctime post py_repr me file_name w = (Ok tt, w1) ->
  exists transcript segments written cleaned,
    fs w !! transcript_path me file_name = Some (JsonDoc transcript) /\
    segment_list transcript = Some segments /\
    fs w1 !! cleaned_path me file_name = Some (JsonDoc written) /\
    segment_list written = Some cleaned /\
    Forall2 retimed segments cleaned /\
    (forall w2,
       LLMEditingAgent.validate_transcript written w2 = (Ok true, w2) /\
       TimelineGenerator.validate_transcript written w2 = (Ok true, w2)) /\
    SegmentAudioCleaner.validate_transcript written = Ok true /\
    VideoSegmentEditor.validate_transcript written = Ok true.
Proof.
  intros H.
  apply editor_try_ok_validated in H
    as (transcript & segments & cleaned & Hin & Hacc & Hsegs & Hall & Hout).
  apply segments_of_list in Hsegs as [Hlist Hwritten].
  apply cleaned_segments_keep_timing in Hall as [Hkeep Htimed].
  exists transcript, segments, (LLMEditingAgent.with_segments transcript cleaned), cleaned.
  assert (Ha : accepted_by_editor (LLMEditingAgent.with_segments transcript cleaned) = true).
  { unfold accepted_by_editor in *. rewrite Hwritten. rewrite Hlist in Hacc.
    destruct segments as [|seg segments]; [discriminate|].
    inversion Hkeep; subst. apply Htimed, Hacc. }
  repeat split; try assumption; try apply Hwritten.
  - apply editor_validate_accepts, Ha.
  - apply timeline_validate_accepts, Ha.
  - apply silent_validate_accepts, editor_accepted_cutters, Ha.
  - apply silent_validate_accepts, editor_accepted_cutters, Ha.
Qed.

(** A service that answers every request with the same text. *)
Definition always_answers (url : string) (body : pyval) (timeout : Z) (w : world)
  : result pyval :=
  Ok (PDict [("response", PStr "hello")]).

Definition edited_talk : result unit * world :=
  LLMEditingAgent.process_file_try example_clock always_answers (fun _ => "") example_editor
    "talk.mp4" one_transcript.

Lemma editing_keeps_timing_witness :
  exists written cleaned,
    fs (snd edited_talk) !! "edited/talk_llm_cleaned.json" = Some (JsonDoc written) /\
    segment_list written = Some cleaned /\
    VideoSegmentEditor.validate_transcript written = Ok true.
Proof.
  assert (Hrun : LLMEditingAgent.process_file_try example_clock always_answers (fun _ => "")
                   example_editor "talk.mp4" one_transcript = (Ok tt, snd edited_talk))
    by (vm_compute; reflexivity).
  destruct (editing_keeps_timing _ _ _ _ _ _ _ Hrun)
    as (transcript & segments & written & cleaned & _ & _ & Hout & Hlist & _ & _ & _ & Hcut).
  exists written, cleaned. split; [exact Hout|]. split; [exact Hlist | exact Hcut].
Defined.

(** * Further properties of the transcriber *)

Section TranscriberOutput.

Variable asctime : world -> string.
Variable transcribe : string -> world -> result (list (float * float * string)).
Variable me : TranscriberAgent.self.

Definition clean_audio_path (file_name : string) : string :=
  path_join (TranscriberAgent.audio_input_folder me) (fst (splitext file_name) ++ "_clean.wav").

Definition transcript_output_path (file_name : string) : string :=
  path_join (TranscriberAgent.output_folder me) (fst (splitext file_name) ++ "_transcript.json").

(** The transcript built from what the recogniser heard. *)
Definition transcript_of (heard : list (float * float * string)) : pyval :=
  PDict [("segments", PList (map TranscriberAgent.whisper_segment heard))].

Lemma transcriber_log_records :
  records_decisions true "transcribe"
    (decision_log_path (TranscriberAgent.log_base_dir me) "_transcribe.json")
    (TranscriberAgent.log_decision asctime me).
Proof.
  exact (guarded_write_records asctime (TranscriberAgent.log_base_dir me)
           "_transcribe.json" "transcribe").
Qed.

Lemma transcribe_audio_ok audio_path w transcript w1 :
  TranscriberAgent.transcribe_audio transcribe audio_path w = (Ok transcript, w1) ->
  exists heard w0,
    transcribe audio_path w0 = Ok heard /\ transcript = transcript_of heard /\
    accepted_by_transcriber transcript = true /\ fs w1 = fs w /\ fs w0 = fs w.
Proof.
  unfold TranscriberAgent.transcribe_audio. intros H.
  apply try_except_rethrow_inv in H;
    [|repeat (apply Forall_cons_2; [cbn [snd]; intros; eexists _, _; reflexivity|]);
      apply Forall_nil_2].
  apply bind_ok_inv in H as (u & w0 & Hlog & H). injection Hlog as _ <-.
  apply bind_ok_inv in H as (heard & w2 & Hheard & H).
  apply call_ext_ok_inv in Hheard as [Hheard ->].
  apply bind_ok_inv in H as (ok & w3 & Hval & H).
  apply transcriber_validate_verdict in Hval as [Hacc Hlogged].
  destruct ok; [|discriminate]. cbn [negb] in H.
  apply bind_ok_inv in H as (u' & w4 & Hlog & H). injection Hlog as _ <-.
  injection H as <- <-. cbn in Hlogged. subst w3.
  exists heard, (add_log w (INFO, "Starting transcription of " ++ audio_path)).
  repeat split; auto.
Qed.

Lemma transcript_is_not_a_log file_name lp :
  decision_log_path (TranscriberAgent.log_base_dir me) "_transcribe.json" file_name = Some lp ->
  lp <> transcript_output_path file_name.
Proof.
  unfold decision_log_path, transcript_output_path.
  destruct (dir_configured _) as [dir|]; [|discriminate]. intros [= <-].
  apply paths_differ; [reflexivity | discriminate].
Qed.

End TranscriberOutput.

(** X14: when the [try] block of a transcription item ends normally, the
    transcript file it wrote holds exactly the segments the recogniser
    returned for the cleaned audio of the item, each text stripped, and that
    transcript passes the transcriber's own validator: the recogniser
    returned at least one segment, every [end <= start] is false and no text
    is blank. *)
Theorem transcriber_writes_accepted_transcripts asctime transcribe me file_name w w1 :
  TranscriberAgent.process_file_try asctime transcribe me file_name w = (Ok tt, w1) ->
  exists heard w0,
    transcribe (clean_audio_path me file_name) w0 = Ok heard /\ fs w0 = fs w /\
    fs w1 !! transcript_output_path me file_name = Some (JsonDoc (transcript_of heard)) /\
    accepted_by_transcriber (transcript_of heard) = true /\
    heard <> [].
Proof.
  unfold TranscriberAgent.process_file_try. intros H.
  apply bind_ok_inv in H as (found & w0 & Hex & H). injection Hex as <- <-.
  destruct (negb _); [discriminate|].
  apply bind_ok_inv in H as (u & w0 & Hlog & H). injection Hlog as _ <-.
  apply bind_ok_inv in H as (transcript & wa & Haudio & H).
  apply transcribe_audio_ok in Haudio as (heard & wh & Hheard & -> & Hacc & Hfsa & Hfsh).
  apply bind_ok_inv in H as (u0 & wb & Hwrite & H).
  apply write_file_ok_inv in Hwrite as [_ ->].
  apply bind_ok_inv in H as (u1 & wc & Hdec & H). injection H as <-.
  exists heard, wh. split; [exact Hheard|]. split; [exact Hfsh|]. split; [|split].
  - fold (transcript_output_path me file_name) in Hdec.
    match type of Hdec with
    | _ _ _ _ _ ?w0 = _ =>
        destruct (transcriber_log_records asctime me file_name "success" w0
                    (or_introl eq_refl)) as (wc' & Hrun & _ & Hkeep & _)
    end.
    rewrite Hrun in Hdec. injection Hdec as _ <-. cbn [fs add_log].
    rewrite Hkeep.
    + cbn. apply lookup_insert_eq.
    + intros Heq. eapply transcript_is_not_a_log; eauto.
  - exact Hacc.
  - intros ->. discriminate Hacc.
Qed.

Definition first_recording : result unit * world :=
  TranscriberAgent.process_file_try example_clock example_transcribe example_transcriber
    "a.mp4" three_recordings.

Lemma transcriber_writes_accepted_transcripts_witness :
  exists heard,
    fs (snd first_recording) !! "transcripts/a_transcript.json"
    = Some (JsonDoc (transcript_of heard)) /\
    heard <> [].
Proof.
  assert (Hrun : TranscriberAgent.process_file_try example_clock example_transcribe
                   example_transcriber "a.mp4" three_recordings
                 = (Ok tt, snd first_recording))
    by (vm_compute; reflexivity).
  destruct (transcriber_writes_accepted_transcripts _ _ _ _ _ _ Hrun)
    as (heard & w0 & _ & _ & Hout & _ & Hne).
  exists heard. split; [exact Hout | exact Hne].
Defined.

(** * Further properties of the timeline generator *)

(** A statement that leaves the files alone when it raises. *)
Definition keeps_files_on_error {A} (m : M A) : Prop :=
  forall w e w1, m w = (Raise e, w1) -> fs w1 = fs w.

Lemma keeps_files_bind {A B} (m : M A) (k : A -> M B) :
  quiet m -> (forall a, keeps_files_on_error (k a)) -> keeps_files_on_error (bind m k).
Proof.
  intros Hm Hk w e w2. unfold bind.
  destruct (m w) as [[a|e0] w1] eqn:Em; intros Hrun.
  - rewrite <- (Hm _ _ _ Em). exact (Hk a _ _ _ Hrun).
  - injection Hrun as _ <-. exact (Hm _ _ _ Em).
Qed.

Lemma keeps_files_write_then_log p c lv msg :
  keeps_files_on_error (bind (write_file p c) (fun _ => log_msg lv msg)).
Proof.
  intros w e w1. unfold bind, write_file, log_msg.
  case_bool_decide as Hp; [intros Heq; injection Heq as _ <-; reflexivity | discriminate].
Qed.

Lemma to_float_raises_arithmetic n e :
  to_float n = Raise e ->
  isinstance_exn e FfmpegError = false /\ is_exception e = true.
Proof.
  destruct n as [z|f]; cbn [to_float]; [|discriminate].
  unfold float_of_int. destruct (binary_normalize prec emax z 0 false);
    intros Heq; try discriminate; injection Heq as <-; split; reflexivity.
Qed.

Lemma truediv_raises_arithmetic a b e :
  num_truediv a b = Raise e ->
  isinstance_exn e FfmpegError = false /\ is_exception e = true.
Proof.
  unfold num_truediv.
  destruct (to_float a) as [x|ex] eqn:Ea; cbn [rbind];
    [|intros Heq; injection Heq as <-; exact (to_float_raises_arithmetic _ _ Ea)].
  destruct (to_float b) as [y|ey] eqn:Eb; cbn [rbind];
    [|intros Heq; injection Heq as <-; exact (to_float_raises_arithmetic _ _ Eb)].
  destruct (float_val y) as [| |m ex]; try discriminate.
  destruct m; try discriminate.
  intros Heq. injection Heq as <-. split; reflexivity.
Qed.

Section TimelineErrors.

Variable probe : string -> world -> result (option TimelineGenerator.video_stream).
Variable uuid4 : world -> string.
Variable abspath : string -> string.

Hypothesis probe_errors : forall p w, pure_ok (probe p w).

Lemma get_video_metadata_quiet video : quiet (TimelineGenerator.get_video_metadata probe video).
Proof. unfold TimelineGenerator.get_video_metadata. quiet_tac. Qed.

(** What [get_video_metadata] raises, from what went wrong. *)
Lemma get_video_metadata_raises video w e w1 :
  TimelineGenerator.get_video_metadata probe video w = (Raise e, w1) ->
  exn_class e = RuntimeError /\
  match probe video w with
  | Raise cause =>
      exn_str e = (if isinstance_exn cause FfmpegError then "FFmpeg error: "
                   else "Failed to extract video metadata: ") ++ exn_str cause
  | Ok None => exn_str e = "Failed to extract video metadata: No video stream found in file"
  | Ok (Some vs) =>
      exists cause,
        num_truediv (NInt (TimelineGenerator.vs_num vs)) (NInt (TimelineGenerator.vs_denom vs))
        = Raise cause /\
        exn_str e = "Failed to extract video metadata: " ++ exn_str cause
  end.
Proof.
  unfold TimelineGenerator.get_video_metadata, try_except, bind, call_ext.
  pose proof (probe_errors video w) as Hp.
  destruct (probe video w) as [[vs|]|cause].
  - unfold lift.
    destruct (num_truediv _ _) as [rate|cause] eqn:Hdiv; [discriminate|].
    destruct (truediv_raises_arithmetic _ _ _ Hdiv) as [Hff Hex].
    unfold is_exception in Hex. cbn [List.find fst snd]. rewrite Hff, Hex.
    cbn. intros Hrun. injection Hrun as <- _. split; [reflexivity|]. exists cause. auto.
  - cbn. intros Hrun. injection Hrun as <- _. split; reflexivity.
  - specialize (Hp cause eq_refl). unfold is_exception in Hp. cbn [List.find fst snd].
    destruct (isinstance_exn cause FfmpegError); [|rewrite Hp];
      cbn; intros Hrun; injection Hrun as <- _; split; reflexivity.
Qed.

End TimelineErrors.

Section FcpxmlErrors.

Variable probe : string -> world -> result (option TimelineGenerator.video_stream).
Variable uuid4 : world -> string.
Variable abspath : string -> string.

Hypothesis probe_errors : forall p w, pure_ok (probe p w).

Lemma fresh_id_quiet : quiet (fun w : world => (Ok (uuid4 w), step_tick w)).
Proof. intros w r w1 Heq. injection Heq as _ <-. reflexivity. Qed.

Lemma fresh_id_orderly : orderly (fun w : world => (Ok (uuid4 w), step_tick w)).
Proof.
  intros w r w1 Heq. injection Heq as <- <-. split; [reflexivity | apply pure_ok_Ok].
Qed.

(** A failing [create_fcpxml] raises the wrapping [RuntimeError] and has
    written nothing. *)
Lemma create_fcpxml_raises segments video out w e w1 :
  TimelineGenerator.create_fcpxml probe uuid4 abspath segments video out w = (Raise e, w1) ->
  exn_class e = RuntimeError /\
  (exists cause, exn_str e = "Failed to create FCPXML: " ++ cause) /\
  fs w1 = fs w.
Proof.
  unfold TimelineGenerator.create_fcpxml, try_except.
  match goal with
  | |- match ?b w with _ => _ end = _ -> _ =>
      assert (Ho : orderly b);
      [|assert (Hk : keeps_files_on_error b);
        [|destruct (b w) as [[u|e0] w0] eqn:Hb]]
  end.
  - orderly_tac;
      try match goal with
      | |- orderly (TimelineGenerator.get_video_metadata _ _) =>
          apply get_video_metadata_orderly; exact probe_errors
      | |- pure_ok (TimelineGenerator.frame_duration _) => apply pure_frame_duration
      | |- pure_ok (TimelineGenerator.fcpxml_document _ _ _ _ _ _ _) =>
          apply pure_fcpxml_document
      | |- orderly (fun w => (Ok _, step_tick w)) => apply fresh_id_orderly
      end.
  - apply keeps_files_bind; [apply get_video_metadata_quiet|].
    intros [[width height] frame_rate].
    apply keeps_files_bind; [apply quiet_lift|]. intros frame_duration.
    apply keeps_files_bind; [apply fresh_id_quiet|]. intros media_id.
    apply keeps_files_bind; [apply quiet_lift|]. intros fcpxml.
    apply keeps_files_write_then_log.
  - discriminate.
  - destruct (Ho _ _ _ Hb) as [_ He]. specialize (He e0 eq_refl).
    unfold is_exception in He. cbn [List.find fst snd]. rewrite He.
    unfold throw. intros Heq. injection Heq as <- <-.
    split; [reflexivity|]. split; [eexists; reflexivity | exact (Hk _ _ _ Hb)].
Qed.

End FcpxmlErrors.

(** X15: whatever goes wrong inside [create_fcpxml] (probing the video, a
    zero frame rate, a segment without a usable time range, a protected
    output path), the exception that leaves it is a [RuntimeError] whose
    message starts with ["Failed to create FCPXML: "], and no file has been
    written or changed. *)
Theorem create_fcpxml_failure_is_wrapped probe uuid4 abspath segments video out w e w1 :
  (forall p w, pure_ok (probe p w)) ->
  TimelineGenerator.create_fcpxml probe uuid4 abspath segments video out w = (Raise e, w1) ->
  exn_class e = RuntimeError /\
  (exists cause, exn_str e = "Failed to create FCPXML: " ++ cause) /\
  fs w1 = fs w.
Proof. intros Herr. apply create_fcpxml_raises, Herr. Qed.

Lemma create_fcpxml_failure_is_wrapped_witness :
  fst (example_create_fcpxml 0 1)
  = raise RuntimeError "Failed to create FCPXML: float division by zero" /\
  fs (snd (example_create_fcpxml 0 1)) = fs empty_world.
Proof.
  assert (Hrun : TimelineGenerator.create_fcpxml
                   (fun _ _ => Ok (Some (example_stream 0 1)))
                   (fun _ => "asset-1") (fun p => "/videos/" ++ p)
                   example_segments "talk.mp4" "timelines/talk_timeline.xml" empty_world
                 = (raise RuntimeError "Failed to create FCPXML: float division by zero",
                    snd (example_create_fcpxml 0 1)))
    by (vm_compute; reflexivity).
  split.
  - vm_compute. reflexivity.
  - exact (proj2 (proj2 (create_fcpxml_failure_is_wrapped _ _ _ _ _ _ _ _ _
                           (fun _ _ => pure_ok_Ok _) Hrun))).
Defined.

(** X16: [get_video_metadata] raises nothing but [RuntimeError]: an error of
    the probe that is an [ffmpeg.Error] becomes ["FFmpeg error: ..."], any
    other error of the probe becomes
    ["Failed to extract video metadata: ..."], and so do the
    [RuntimeError] raised inside the [try] for a file without a video stream
    and the error of the division for a frame rate written [num/0]. *)
Theorem metadata_errors_become_runtime_errors probe video w e w1 :
  (forall p w, pure_ok (probe p w)) ->
  TimelineGenerator.get_video_metadata probe video w = (Raise e, w1) ->
  exn_class e = RuntimeError /\
  match probe video w with
  | Raise cause =>
      exn_str e = (if isinstance_exn cause FfmpegError then "FFmpeg error: "
                   else "Failed to extract video metadata: ") ++ exn_str cause
  | Ok None => exn_str e = "Failed to extract video metadata: No video stream found in file"
  | Ok (Some vs) =>
      exists cause,
        num_truediv (NInt (TimelineGenerator.vs_num vs)) (NInt (TimelineGenerator.vs_denom vs))
        = Raise cause /\
        exn_str e = "Failed to extract video metadata: " ++ exn_str cause
  end.
Proof. intros Herr. apply get_video_metadata_raises, Herr. Qed.

Lemma metadata_errors_become_runtime_errors_witness :
  exists cause,
    num_truediv (NInt 30) (NInt 0) = Raise cause /\
    "Failed to extract video metadata: division by zero"
    = "Failed to extract video metadata: " ++ exn_str cause.
Proof.
  exact (proj2 (metadata_errors_become_runtime_errors
                  (fun _ _ => Ok (Some (example_stream 30 0))) "talk.mp4" empty_world
                  (Exn RuntimeError "Failed to extract video metadata: division by zero")
                  (step_tick empty_world) (fun _ _ => pure_ok_Ok _) eq_refl)).
Defined.

(** * Further properties of the audio cleaner *)

(** A slice that lies within a recording of [audio_len] milliseconds, as far
    as the loop of [process_file] tests it. *)
Definition within (audio_len : Z) (slice : Z * Z) : Prop :=
  fst slice < audio_len /\ snd slice <= audio_len.

(** X17: when the segment loop of the audio cleaner ends normally, every
    slice it added to the cleaned audio starts before the end of the
    recording and ends no later than it; each segment was either added or
    skipped with one warning; and no file was touched. *)
Theorem collect_slices_in_bounds file_name audio_len segments :
  forall cleaned w out w1,
    SegmentAudioCleaner.collect_slices file_name audio_len cleaned segments w = (Ok out, w1) ->
    exists kept skipped,
      out = (cleaned ++ kept)%list /\
      Forall (within audio_len) kept /\
      logs w1 = (logs w ++ map (fun msg => (WARNING, msg)) skipped)%list /\
      (length kept + length skipped = length segments)%nat /\
      fs w1 = fs w.
Proof.
  induction segments as [|seg rest IH]; intros cleaned w out w1 Hrun;
    cbn [SegmentAudioCleaner.collect_slices] in Hrun.
  - injection Hrun as <- <-. exists [], []. rewrite !app_nil_r.
    repeat split; constructor.
  - apply bind_ok_inv in Hrun as (st & w0 & Hst & Hrun). apply lift_ok_inv in Hst as [Hst ->].
    apply bind_ok_inv in Hrun as (start_ms & w0 & Hs & Hrun). apply lift_ok_inv in Hs as [Hs ->].
    apply bind_ok_inv in Hrun as (en & w0 & Hen & Hrun). apply lift_ok_inv in Hen as [Hen ->].
    apply bind_ok_inv in Hrun as (end_ms & w0 & He & Hrun). apply lift_ok_inv in He as [He ->].
    destruct ((audio_len <=? start_ms) || (audio_len <? end_ms)) eqn:Hout.
    + apply bind_ok_inv in Hrun as (u & w0 & Hlog & Hrun).
      unfold log_msg in Hlog. injection Hlog as _ <-.
      apply IH in Hrun as (kept & skipped & -> & Hin & Hlogs & Hlen & Hfs).
      eexists kept, (_ :: skipped). split; [reflexivity|]. split; [exact Hin|].
      split; [|split; [cbn [length]; lia | exact Hfs]].
      rewrite Hlogs. cbn [logs add_log map]. rewrite <- app_assoc. reflexivity.
    + apply IH in Hrun as (kept & skipped & -> & Hin & Hlogs & Hlen & Hfs).
      exists ((start_ms, end_ms) :: kept), skipped.
      split; [rewrite <- app_assoc; reflexivity|].
      split; [|split; [exact Hlogs | split; [cbn [length]; lia | exact Hfs]]].
      constructor; [|exact Hin]. apply orb_false_elim in Hout as [H1 H2].
      unfold within. cbn [fst snd]. lia.
Qed.

Lemma collect_slices_in_bounds_witness :
  exists (kept : list (Z * Z)) (skipped : list string),
    [(0, 2000)] = ([] ++ kept)%list /\
    Forall (within 10000) kept /\
    (length kept + length skipped = 2)%nat.
Proof.
  destruct (collect_slices_in_bounds "talk.mp4" 10000
              [PDict [("start", PFloat 0); ("end", PFloat 2); ("text", PStr "intro")];
               PDict [("start", PFloat 20); ("end", PFloat 25); ("text", PStr "late")]]
              [] empty_world [(0, 2000)]
              (add_log empty_world
                 (WARNING, "Segment timing out of bounds for talk.mp4: 20000-25000ms"))
              eq_refl)
    as (kept & skipped & Hout & Hin & _ & Hlen & _).
  exists kept, skipped. split; [exact Hout|]. split; [exact Hin | exact Hlen].
Defined.

(** * Further properties of the video segment editor *)

(** A statement that creates and removes no directory. *)
Definition keeps_dirs {A} (m : M A) : Prop :=
  forall w r w1, m w = (r, w1) -> dirs w1 = dirs w.

Lemma keeps_dirs_ret {A} (a : A) : keeps_dirs (ret a).
Proof. intros w r w1 Heq. injection Heq as _ <-. reflexivity. Qed.

Lemma keeps_dirs_throw {A} c msg : keeps_dirs (@throw A c msg).
Proof. intros w r w1 Heq. injection Heq as _ <-. reflexivity. Qed.

Lemma keeps_dirs_lift {A} (r : result A) : keeps_dirs (lift r).
Proof. intros w r' w1 Heq. injection Heq as _ <-. reflexivity. Qed.

Lemma keeps_dirs_path_exists p : keeps_dirs (path_exists p).
Proof. intros w r w1 Heq. injection Heq as _ <-. reflexivity. Qed.

Lemma keeps_dirs_write_file p c : keeps_dirs (write_file p c).
Proof.
  intros w r w1. unfold write_file.
  case_bool_decide as Hp; intros Heq; injection Heq as _ <-; reflexivity.
Qed.

Lemma keeps_dirs_remove_file p : keeps_dirs (remove_file p).
Proof.
  intros w r w1. unfold remove_file.
  destruct (fs w !! p); intros Heq; injection Heq as _ <-; reflexivity.
Qed.

Lemma keeps_dirs_bind {A B} (m : M A) (k : A -> M B) :
  keeps_dirs m -> (forall a, keeps_dirs (k a)) -> keeps_dirs (bind m k).
Proof.
  intros Hm Hk w r w2. unfold bind.
  destruct (m w) as [[a|e] w1] eqn:Em; intros Hrun.
  - rewrite (Hk a _ _ _ Hrun). exact (Hm _ _ _ Em).
  - injection Hrun as _ <-. exact (Hm _ _ _ Em).
Qed.

Lemma keeps_dirs_for_each {A} (l : list A) (f : A -> M unit) :
  (forall x, keeps_dirs (f x)) -> keeps_dirs (for_each l f).
Proof.
  intros Hf. induction l as [|x l IH]; cbn [for_each].
  - apply keeps_dirs_ret.
  - apply keeps_dirs_bind; auto.
Qed.

Ltac dirs_tac :=
  repeat match goal with
  | |- keeps_dirs (ret _) => apply keeps_dirs_ret
  | |- keeps_dirs (bind _ _) => apply keeps_dirs_bind; [|intros ?]
  | |- keeps_dirs (throw _ _) => apply keeps_dirs_throw
  | |- keeps_dirs (lift _) => apply keeps_dirs_lift
  | |- keeps_dirs (path_exists _) => apply keeps_dirs_path_exists
  | |- keeps_dirs (write_file _ _) => apply keeps_dirs_write_file
  | |- keeps_dirs (remove_file _) => apply keeps_dirs_remove_file
  | |- keeps_dirs (for_each _ _) => apply keeps_dirs_for_each; intros ?
  | |- keeps_dirs (if ?c then _ else _) => destruct c
  end.

Section CutCleanup.

Variable subprocess_run : list string -> world -> result (Z * string) * gmap string content.
Variable py_str : pyval -> string.
Variable me : VideoSegmentEditor.self.

(** The scratch directory of [run_ffmpeg_trim]. *)
Definition temp_dir : string := path_join (VideoSegmentEditor.output_folder me) "temp".

Lemma keeps_dirs_run_cmd cmd : keeps_dirs (VideoSegmentEditor.run_cmd subprocess_run cmd).
Proof.
  intros w r w1. unfold VideoSegmentEditor.run_cmd.
  destruct (subprocess_run cmd w) as [r0 files]. intros Heq. injection Heq as _ <-. reflexivity.
Qed.

Lemma keeps_dirs_remove_if_exists p : keeps_dirs (VideoSegmentEditor.remove_if_exists p).
Proof. unfold VideoSegmentEditor.remove_if_exists. dirs_tac. Qed.

Lemma trim_segments_dirs input_path segments :
  forall idx paths w r paths' w1,
    VideoSegmentEditor.trim_segments subprocess_run py_str input_path temp_dir idx paths
      segments w = (r, paths', w1) ->
    dirs w1 = dirs w.
Proof.
  induction segments as [|seg rest IH]; intros idx paths w r paths' w1 Hrun;
    cbn [VideoSegmentEditor.trim_segments] in Hrun.
  - injection Hrun as _ _ <-. reflexivity.
  - destruct (py_getitem seg "start") as [start|e]; [|injection Hrun as _ _ <-; reflexivity].
    match type of Hrun with
    | match ?d with _ => _ end = _ =>
        destruct d as [duration|e]; [|injection Hrun as _ _ <-; reflexivity]
    end.
    match type of Hrun with
    | match VideoSegmentEditor.run_cmd _ ?c ?w0 with _ => _ end = _ =>
        destruct (VideoSegmentEditor.run_cmd subprocess_run c w0) as [[[rc err]|e] w2] eqn:Er;
        pose proof (keeps_dirs_run_cmd _ _ _ _ Er) as Hd
    end.
    2:{ injection Hrun as _ _ <-. exact Hd. }
    destruct (negb (rc =? 0)).
    + injection Hrun as _ _ <-. exact Hd.
    + apply IH in Hrun. congruence.
Qed.

(** A file that exists is among the paths [os.rmdir] looks at. *)
Lemma file_is_listed (w : world) p c :
  fs w !! p = Some c -> In p (map fst (map_to_list (fs w))).
Proof.
  intros Hp. apply in_map_iff. exists (p, c). split; [reflexivity|].
  apply list_elem_of_In, elem_of_map_to_list, Hp.
Qed.

Lemma rmdir_ok p w u w1 :
  rmdir p w = (Ok u, w1) ->
  (p ∉ dirs w1) /\ fs w1 = fs w /\
  forall q, String.prefix (p ++ "/") q = true -> fs w !! q = None.
Proof.
  unfold rmdir. case_bool_decide as Hin; [|discriminate].
  destruct (existsb _ _) eqn:Hex; [discriminate|].
  intros Heq. injection Heq as _ <-. cbn [dirs fs with_dirs].
  split; [apply not_elem_of_difference; right; apply elem_of_singleton; reflexivity|].
  split; [reflexivity|].
  intros q Hq. destruct (fs w !! q) as [c|] eqn:Hfile; [|reflexivity].
  exfalso. apply file_is_listed in Hfile.
  assert (Hyes : existsb (fun k => String.prefix (p ++ "/") k) (map fst (map_to_list (fs w)))
                 = true)
    by (apply existsb_exists; exists q; auto).
  congruence.
Qed.

(** A [run_ffmpeg_trim] that ends normally has removed its scratch directory
    and left no file under it. *)
Lemma run_ffmpeg_trim_ok input_path output_path segments w w1 :
  VideoSegmentEditor.run_ffmpeg_trim subprocess_run py_str me input_path output_path segments w
  = (Ok tt, w1) ->
  (temp_dir ∉ dirs w1) /\
  forall q, String.prefix (temp_dir ++ "/") q = true -> fs w1 !! q = None.
Proof.
  unfold VideoSegmentEditor.run_ffmpeg_trim. fold temp_dir. intros Hrun.
  apply bind_ok_inv in Hrun as (u & w0 & Hmk & Hrun).
  unfold makedirs in Hmk. injection Hmk as _ <-.
  destruct (VideoSegmentEditor.trim_segments _ _ _ _ _ _ _ _) as [[r paths] wt] eqn:Ht.
  apply trim_segments_dirs in Ht. cbn [dirs with_dirs] in Ht.
  unfold try_finally in Hrun.
  match type of Hrun with
  | match ?b wt with _ => _ end = _ =>
      assert (Hbody : keeps_dirs b) by (dirs_tac; apply keeps_dirs_run_cmd);
      destruct (b wt) as [rb wb] eqn:Hb; apply Hbody in Hb
  end.
  match type of Hrun with
  | match ?f wb with _ => _ end = _ => destruct (f wb) as [[uf|ef] wf] eqn:Hf
  end; [|discriminate].
  injection Hrun as _ <-.
  apply bind_ok_inv in Hf as (u1 & wc & Hloop & Hf).
  apply (keeps_dirs_for_each _ _ keeps_dirs_remove_if_exists) in Hloop.
  apply bind_ok_inv in Hf as (u2 & wd & Hconcat & Hf).
  apply keeps_dirs_remove_if_exists in Hconcat.
  apply bind_ok_inv in Hf as (found & we & Hex & Hf).
  unfold path_exists in Hex. injection Hex as <- <-.
  assert (Hin : temp_dir ∈ dirs wd).
  { rewrite Hconcat, Hloop, Hb, Ht. apply elem_of_union_l, elem_of_singleton. reflexivity. }
  rewrite (bool_decide_eq_true_2 (temp_dir ∈ dirs wd)) in Hf by exact Hin.
  rewrite orb_true_r in Hf.
  apply rmdir_ok in Hf as (Hgone & Hfs & Hempty).
  split; [exact Hgone|]. intros q Hq. rewrite Hfs. apply Hempty, Hq.
Qed.

End CutCleanup.

(** X18: when [run_ffmpeg_trim] ends normally, its scratch directory
    [<output_folder>/temp] no longer exists and no file is left under it:
    neither a cut segment nor the list given to the concatenation. *)
Theorem successful_cut_leaves_no_scratch subprocess_run py_str me input_path output_path
    segments w w1 :
  VideoSegmentEditor.run_ffmpeg_trim subprocess_run py_str me input_path output_path segments w
  = (Ok tt, w1) ->
  (temp_dir me ∉ dirs w1) /\
  forall q, String.prefix (temp_dir me ++ "/") q = true -> fs w1 !! q = None.
Proof. apply run_ffmpeg_trim_ok. Qed.

Definition cut_talk : result unit * world :=
  VideoSegmentEditor.run_ffmpeg_trim ffmpeg_lenient example_str example_cutter
    "denoised/talk.mp4" "edited_segments/talk_video_clean.mp4"
    [PDict [("start", PFloat 0); ("end", PFloat 2); ("text", PStr "intro")]] cutting_world.

Lemma successful_cut_leaves_no_scratch_witness :
  fs (snd cut_talk) !! "edited_segments/temp/temp_segment_0.mp4" = None /\
  fs (snd cut_talk) !! "edited_segments/temp/temp_concat.txt" = None /\
  is_Some (fs (snd cut_talk) !! "edited_segments/talk_video_clean.mp4").
Proof.
  assert (Hrun : VideoSegmentEditor.run_ffmpeg_trim ffmpeg_lenient example_str example_cutter
                   "denoised/talk.mp4" "edited_segments/talk_video_clean.mp4"
                   [PDict [("start", PFloat 0); ("end", PFloat 2); ("text", PStr "intro")]]
                   cutting_world
                 = (Ok tt, snd cut_talk))
    by (vm_compute; reflexivity).
  destruct (successful_cut_leaves_no_scratch _ _ _ _ _ _ _ _ Hrun) as [_ Hempty].
  split; [apply Hempty; reflexivity|]. split; [apply Hempty; reflexivity|].
  vm_compute. eexists. reflexivity.
Defined.

(** * Further properties of the pipeline driver *)

Section Driver.

Variable OLLAMA_URL : string.
Variable http_get : string -> Z -> world -> result Z.
Variable abspath : string -> string.
Variable setup : string -> M unit.
Variable denoise_process_file : string -> string -> M unit.
Variable transcriber_run : string -> M unit.
Variable editor_run : string -> M unit.
Variable video_editor_run : string -> M unit.
Variable timeline_generator_run : string -> M unit.
Variable preprocess_directories : M unit.
Variable setup_logging : M unit.
Variable isfile : string -> world -> bool.
Variable glob_mp4 : string -> world -> list string.

Abbreviation driver_process_video :=
  (Main.process_video OLLAMA_URL http_get abspath setup denoise_process_file transcriber_run
     editor_run video_editor_run timeline_generator_run).

Abbreviation driver_main :=
  (Main.main OLLAMA_URL http_get abspath setup denoise_process_file transcriber_run
     editor_run video_editor_run timeline_generator_run preprocess_directories setup_logging
     isfile glob_mp4).

(** What leaves [process_video] is never an instance of [Exception]. *)
Lemma process_video_raises video_path model_path w e w1 :
  driver_process_video video_path model_path w = (Raise e, w1) ->
  isinstance_exn e Exception_ = false.
Proof.
  unfold Main.process_video.
  destruct (Main.pipeline _ _ _ _ _ _ _ _ _ _ _ w) as [[[]|e0] w0].
  - discriminate.
  - destruct (isinstance_exn e0 Exception_) eqn:He0.
    + unfold Main.sys_exit, throw. intros Heq. injection Heq as <- _. reflexivity.
    + intros Heq. injection Heq as <- _. exact He0.
Qed.

Lemma guarded_video_is_unguarded video_file model_path w :
  try_except (driver_process_video video_file model_path)
    [(Exception_,
      fun e => log_msg ERROR ("Failed to process " ++ video_file ++ ": " ++ exn_str e))] w
  = driver_process_video video_file model_path w.
Proof.
  unfold try_except.
  destruct (driver_process_video video_file model_path w) as [[[]|e] w1] eqn:Hrun;
    [reflexivity|].
  apply process_video_raises in Hrun. cbn [List.find fst]. rewrite Hrun. reflexivity.
Qed.

Lemma process_directory_unguarded mp4_files model_path :
  forall w,
    Main.process_directory OLLAMA_URL http_get abspath setup denoise_process_file
      transcriber_run editor_run video_editor_run timeline_generator_run mp4_files model_path w
    = for_each mp4_files (fun video_file => driver_process_video video_file model_path) w.
Proof.
  unfold Main.process_directory.
  induction mp4_files as [|v rest IH]; intros w; [reflexivity|].
  cbn [for_each]. unfold bind. rewrite guarded_video_is_unguarded.
  destruct (driver_process_video v model_path w) as [[[]|e] w1]; [apply IH | reflexivity].
Qed.

Lemma main_rejects input model_path w w1 w2 :
  preprocess_directories w = (Ok tt, w1) ->
  setup_logging w1 = (Ok tt, w2) ->
  (isfile input w2 = true /\ endswith input ".mp4" = false ->
   driver_main input model_path w
   = (raise SystemExit "1", add_log w2 (ERROR, "Input file must be an MP4 file"))) /\
  (isfile input w2 = false /\ glob_mp4 input w2 = [] ->
   driver_main input model_path w
   = (raise SystemExit "1", add_log w2 (ERROR, "No MP4 files found in input directory"))).
Proof.
  intros Hpre Hlog. unfold Main.main, bind. rewrite Hpre, Hlog. unfold try_except.
  split; intros [Hfile Hinput]; rewrite Hfile, Hinput; reflexivity.
Qed.

End Driver.

(** X19: what leaves [process_video] is never an instance of [Exception]:
    when its pipeline fails with one, the [finally] clause replaces it by
    [SystemExit]. The clause [except Exception ... continue] around each
    video of a directory therefore never runs, and the loop of [main] over a
    directory behaves as the bare loop: it stops at the first video whose
    pipeline fails, whatever the failure. *)
Theorem batch_guard_never_runs OLLAMA_URL http_get abspath setup denoise_process_file
    transcriber_run editor_run video_editor_run timeline_generator_run mp4_files model_path w :
  let process_video :=
    Main.process_video OLLAMA_URL http_get abspath setup denoise_process_file transcriber_run
      editor_run video_editor_run timeline_generator_run in
  (forall video_path e w1,
     process_video video_path model_path w = (Raise e, w1) ->
     isinstance_exn e Exception_ = false) /\
  Main.process_directory OLLAMA_URL http_get abspath setup denoise_process_file
    transcriber_run editor_run video_editor_run timeline_generator_run mp4_files model_path w
  = for_each mp4_files (fun video_file => process_video video_file model_path) w.
Proof.
  intros process_video. split.
  - intros video_path e w1. apply process_video_raises.
  - apply process_directory_unguarded.
Qed.

Lemma batch_guard_never_runs_witness :
  Main.process_directory "http://localhost:11434" service_down (fun p => p) (fun _ => no_op)
    (fun _ _ => no_op) (fun _ => no_op) (fun _ => no_op) (fun _ => no_op) (fun _ => no_op)
    ["videos/a.mp4"; "videos/b.mp4"] "models/lq.rnnn" empty_world
  = Main.process_video "http://localhost:11434" service_down (fun p => p) (fun _ => no_op)
      (fun _ _ => no_op) (fun _ => no_op) (fun _ => no_op) (fun _ => no_op) (fun _ => no_op)
      "videos/a.mp4" "models/lq.rnnn" empty_world.
Proof.
  rewrite (proj2 (batch_guard_never_runs "http://localhost:11434" service_down (fun p => p)
                    (fun _ => no_op) (fun _ _ => no_op) (fun _ => no_op) (fun _ => no_op)
                    (fun _ => no_op) (fun _ => no_op) ["videos/a.mp4"; "videos/b.mp4"]
                    "models/lq.rnnn" empty_world)).
  vm_compute. reflexivity.
Defined.

(** X20: [main] checks its input only after the output and log directories
    have been prepared: when the input is a file whose name does not end in
    [.mp4], or is not a file and holds no [.mp4], it logs the reason and
    leaves with exit status 1 without processing any video. *)
Theorem main_rejects_unusable_input OLLAMA_URL http_get abspath setup denoise_process_file
    transcriber_run editor_run video_editor_run timeline_generator_run
    preprocess_directories setup_logging isfile glob_mp4 input model_path w w1 w2 :
  let main :=
    Main.main OLLAMA_URL http_get abspath setup denoise_process_file transcriber_run
      editor_run video_editor_run timeline_generator_run preprocess_directories setup_logging
      isfile glob_mp4 in
  preprocess_directories w = (Ok tt, w1) ->
  setup_logging w1 = (Ok tt, w2) ->
  (isfile input w2 = true /\ endswith input ".mp4" = false ->
   main input model_path w
   = (raise SystemExit "1", add_log w2 (ERROR, "Input file must be an MP4 file"))) /\
  (isfile input w2 = false /\ glob_mp4 input w2 = [] ->
   main input model_path w
   = (raise SystemExit "1", add_log w2 (ERROR, "No MP4 files found in input directory"))).
Proof. intros main. apply main_rejects. Qed.

Lemma main_rejects_unusable_input_witness :
  Main.main "http://localhost:11434" service_down (fun p => p) (fun _ => no_op)
    (fun _ _ => no_op) (fun _ => no_op) (fun _ => no_op) (fun _ => no_op) (fun _ => no_op)
    no_op no_op (fun _ _ => true) (fun _ _ => []) "talk.mov" "models/lq.rnnn" empty_world
  = (raise SystemExit "1", add_log empty_world (ERROR, "Input file must be an MP4 file")).
Proof.
  exact (proj1 (main_rejects_unusable_input "http://localhost:11434" service_down (fun p => p)
                  (fun _ => no_op) (fun _ _ => no_op) (fun _ => no_op) (fun _ => no_op)
                  (fun _ => no_op) (fun _ => no_op) no_op no_op (fun _ _ => true)
                  (fun _ _ => []) "talk.mov" "models/lq.rnnn" empty_world empty_world
                  empty_world eq_refl eq_refl)
           (conj eq_refl eq_refl)).
Defined.

(** * Further properties of the denoising stage *)

(** The external commands run so far, oldest first. *)
Definition commands (w : world) : list io_event := List.filter is_run (trace w).

(** A statement that runs a prefix of the commands [cs], in that order, and
    all of them when it ends normally. *)
Definition issues {A} (cs : list (list string)) (m : M A) : Prop :=
  forall w r w1,
    m w = (r, w1) ->
    exists n,
      commands w1 = (commands w ++ map EvRun (firstn n cs))%list /\
      (forall a, r = Ok a -> firstn n cs = cs).

Lemma issues_nothing {A} (m : M A) :
  (forall w r w1, m w = (r, w1) -> trace w1 = trace w) -> issues [] m.
Proof.
  intros Hm w r w1 Hrun. exists O. unfold commands. rewrite (Hm _ _ _ Hrun).
  cbn. rewrite app_nil_r. auto.
Qed.

Lemma issues_ret {A} (a : A) : issues [] (ret a).
Proof. apply issues_nothing. intros w r w1 Heq. injection Heq as _ <-. reflexivity. Qed.

Lemma issues_throw {A} c msg : issues [] (@throw A c msg).
Proof. apply issues_nothing. intros w r w1 Heq. injection Heq as _ <-. reflexivity. Qed.

Lemma issues_log_msg lv msg : issues [] (log_msg lv msg).
Proof. apply issues_nothing. intros w r w1 Heq. injection Heq as _ <-. reflexivity. Qed.

Lemma issues_path_exists p : issues [] (path_exists p).
Proof. apply issues_nothing. intros w r w1 Heq. injection Heq as _ <-. reflexivity. Qed.

Lemma issues_bind {A B} cs1 cs2 (m : M A) (k : A -> M B) :
  issues cs1 m -> (forall a, issues cs2 (k a)) -> issues (cs1 ++ cs2) (bind m k).
Proof.
  intros Hm Hk w r w2. unfold bind.
  destruct (m w) as [[a|e] w1] eqn:Em; intros Hrun.
  - destruct (Hm _ _ _ Em) as (n1 & H1 & Hall). specialize (Hall a eq_refl).
    destruct (Hk a _ _ _ Hrun) as (n2 & H2 & Hall2).
    exists (length cs1 + n2)%nat. rewrite firstn_app_2. split.
    + rewrite H2, H1, Hall, map_app, <- app_assoc. reflexivity.
    + intros b Hb. rewrite (Hall2 b Hb). reflexivity.
  - injection Hrun as <- <-. destruct (Hm _ _ _ Em) as (n1 & H1 & _).
    exists (Nat.min n1 (length cs1)). split; [|discriminate].
    rewrite firstn_app. replace (Nat.min n1 (length cs1) - length cs1)%nat with O by lia.
    cbn [firstn]. rewrite app_nil_r, <- firstn_firstn, firstn_all. exact H1.
Qed.

(** Handlers that run no command and always raise leave the commands of the
    [try] block as they are. *)
Lemma issues_try_except {A} cs (body : M A) handlers :
  issues cs body ->
  Forall (fun h => forall e w, exists e' w1, snd h e w = (Raise e', w1) /\ trace w1 = trace w)
    handlers ->
  issues cs (try_except body handlers).
Proof.
  intros Hb Hh w r w2. unfold try_except.
  destruct (body w) as [[a|e] w1] eqn:Eb.
  - intros Heq. injection Heq as <- <-. exact (Hb _ _ _ Eb).
  - destruct (Hb _ _ _ Eb) as (n & Hn & _).
    match goal with
    | |- context [List.find ?f handlers] =>
        destruct (List.find f handlers) as [h|] eqn:Hfind
    end.
    + apply find_some in Hfind as [Hin _]. apply list_elem_of_In in Hin.
      rewrite Forall_forall in Hh. destruct (Hh h Hin e w1) as (e' & w1' & Hrun & Htrace).
      intros Heq. pose proof (eq_trans (eq_sym Hrun) Heq) as Hsame.
      injection Hsame as <- <-.
      exists n. split; [|discriminate]. unfold commands in *. rewrite Htrace. exact Hn.
    + intros Heq. injection Heq as <- <-. exists n. split; [exact Hn | discriminate].
Qed.

Ltac raising_handlers :=
  repeat (apply Forall_cons_2;
          [cbn [snd]; intros ? ?; eexists _, _; split; reflexivity|]);
  apply Forall_nil_2.

Section DenoiseCommands.

Variable asctime : world -> string.
Variable subprocess_run : list string -> world -> result (Z * string) * gmap string content.
Variable me : DenoiseAgent.self.

(** The three commands of an item, as [process_file] builds them. *)
Definition to_wav_command (file_name : string) : list string :=
  ["ffmpeg"; "-i"; path_join (DenoiseAgent.input_folder me) file_name; "-vn";
   "-acodec"; "pcm_s16le"; "-ar"; "48000"; "-ac"; "2";
   path_join (DenoiseAgent.audio_output me) (fst (splitext file_name) ++ "_raw.wav"); "-y"].

Definition denoise_command (file_name : string) : list string :=
  ["ffmpeg"; "-i";
   path_join (DenoiseAgent.audio_output me) (fst (splitext file_name) ++ "_raw.wav");
   "-af"; "arnndn=m=" ++ DenoiseAgent.model_path me;
   path_join (DenoiseAgent.audio_output me) (fst (splitext file_name) ++ "_clean.wav"); "-y"].

Definition mux_command (file_name : string) : list string :=
  ["ffmpeg"; "-i"; path_join (DenoiseAgent.input_folder me) file_name; "-i";
   path_join (DenoiseAgent.audio_output me) (fst (splitext file_name) ++ "_clean.wav");
   "-map"; "0:v:0"; "-map"; "1:a:0"; "-c:v"; "copy"; "-c:a"; "aac";
   "-b:a"; "192k"; "-ar"; "48000"; "-ac"; "2";
   path_join (DenoiseAgent.video_output me) file_name; "-y"].

Definition item_commands (file_name : string) : list (list string) :=
  [to_wav_command file_name; denoise_command file_name; mux_command file_name].

Lemma commands_add_run w cmd files :
  commands (add_event (with_fs w files) (EvRun cmd)) = (commands w ++ [EvRun cmd])%list.
Proof. unfold commands. cbn [trace add_event with_fs]. rewrite List.filter_app. reflexivity. Qed.

Lemma issues_run_checked cmd : issues [cmd] (DenoiseAgent.run_checked subprocess_run cmd).
Proof.
  intros w r w1. unfold DenoiseAgent.run_checked.
  destruct (subprocess_run cmd w) as [[[rc err]|e] files];
    [destruct (rc =? 0)|]; intros Heq; injection Heq as _ <-;
    exists 1%nat; rewrite commands_add_run; split; auto.
Qed.

Lemma issues_log_decision file_name reason :
  issues [] (DenoiseAgent.log_decision asctime me file_name reason).
Proof.
  apply issues_nothing. intros w r w1. unfold DenoiseAgent.log_decision.
  destruct (dir_configured _); [|intros Heq; injection Heq as _ <-; reflexivity].
  unfold try_except, write_file. case_bool_decide as Hp; cbn;
    intros Heq; injection Heq as _ <-; reflexivity.
Qed.

Lemma issues_convert_mp4_to_wav a b :
  issues [["ffmpeg"; "-i"; a; "-vn"; "-acodec"; "pcm_s16le"; "-ar"; "48000"; "-ac"; "2"; b; "-y"]]
    (DenoiseAgent.convert_mp4_to_wav subprocess_run a b).
Proof.
  unfold DenoiseAgent.convert_mp4_to_wav. apply issues_try_except; [|raising_handlers].
  apply (issues_bind [] [_]); [apply issues_log_msg | intros _].
  apply (issues_bind [_] []); [apply issues_run_checked | intros _; apply issues_log_msg].
Qed.

Lemma issues_apply_noise_reduction a b :
  issues [["ffmpeg"; "-i"; a; "-af"; "arnndn=m=" ++ DenoiseAgent.model_path me; b; "-y"]]
    (DenoiseAgent.apply_noise_reduction subprocess_run me a b).
Proof.
  unfold DenoiseAgent.apply_noise_reduction. apply issues_try_except; [|raising_handlers].
  apply (issues_bind [] [_]); [apply issues_log_msg | intros _].
  apply (issues_bind [] [_]); [apply issues_log_msg | intros _].
  apply (issues_bind [] [_]); [apply issues_path_exists | intros found].
  destruct (negb found).
  - intros w r w1 Heq. injection Heq as <- <-. exists O. cbn. rewrite app_nil_r.
    split; [reflexivity | discriminate].
  - apply (issues_bind [_] []); [apply issues_run_checked | intros _; apply issues_log_msg].
Qed.

Lemma issues_convert_wav_to_mp4 a b c :
  issues [["ffmpeg"; "-i"; c; "-i"; a; "-map"; "0:v:0"; "-map"; "1:a:0"; "-c:v"; "copy";
           "-c:a"; "aac"; "-b:a"; "192k"; "-ar"; "48000"; "-ac"; "2"; b; "-y"]]
    (DenoiseAgent.convert_wav_to_mp4 subprocess_run a b c).
Proof.
  unfold DenoiseAgent.convert_wav_to_mp4. apply issues_try_except; [|raising_handlers].
  apply (issues_bind [] [_]); [apply issues_log_msg | intros _].
  apply (issues_bind [_] []); [apply issues_run_checked | intros _; apply issues_log_msg].
Qed.

Lemma raised_issues_prefix {A} cs (w : world) (e : exn) (w1 : world) :
  w1 = w ->
  exists n,
    commands w1 = (commands w ++ map EvRun (firstn n cs))%list /\
    (forall a : A, Raise e = Ok a -> firstn n cs = cs).
Proof.
  intros ->. exists O. cbn. rewrite app_nil_r. split; [reflexivity | discriminate].
Qed.

Lemma issues_process_file_try file_name :
  issues (item_commands file_name)
    (DenoiseAgent.process_file_try asctime subprocess_run me file_name).
Proof.
  unfold DenoiseAgent.process_file_try, item_commands.
  apply (issues_bind [] [_; _; _]); [apply issues_path_exists | intros found].
  destruct (negb found).
  { intros w r w1 Heq. injection Heq as <- <-. apply raised_issues_prefix. reflexivity. }
  apply (issues_bind [] [_; _; _]); [apply issues_log_msg | intros _].
  apply (issues_bind [_] [_; _]); [apply issues_convert_mp4_to_wav | intros _].
  apply (issues_bind [_] [_]); [apply issues_apply_noise_reduction | intros _].
  apply (issues_bind [] [_]); [apply issues_path_exists | intros found'].
  destruct (negb found').
  { intros w r w1 Heq. injection Heq as <- <-. apply raised_issues_prefix. reflexivity. }
  apply (issues_bind [_] []); [apply issues_convert_wav_to_mp4 | intros _].
  apply (issues_bind [] []); [apply issues_log_decision | intros _; apply issues_log_msg].
Qed.

Lemma cleanup_keeps_trace file_name w r w1 :
  DenoiseAgent.cleanup me file_name w = (r, w1) -> trace w1 = trace w.
Proof.
  unfold DenoiseAgent.cleanup, bind, path_exists.
  destruct (_ || _); [|intros Heq; injection Heq as _ <-; reflexivity].
  unfold try_except, bind, remove_file, log_msg.
  destruct (fs w !! _); cbn; intros Heq; injection Heq as _ <-; reflexivity.
Qed.

Lemma on_error_keeps_trace file_name prefix e w r w1 :
  DenoiseAgent.on_error asctime me file_name prefix e w = (r, w1) -> trace w1 = trace w.
Proof.
  unfold DenoiseAgent.on_error, bind, log_msg, DenoiseAgent.log_decision.
  destruct (dir_configured _); [|intros Heq; injection Heq as _ <-; reflexivity].
  unfold try_except, write_file. case_bool_decide as Hp; cbn;
    intros Heq; injection Heq as _ <-; reflexivity.
Qed.

(** The commands an item runs, whatever becomes of it. *)
Lemma process_file_commands file_name w :
  exists n,
    commands (snd (DenoiseAgent.process_file asctime subprocess_run me file_name w))
    = (commands w ++ map EvRun (firstn n (item_commands file_name)))%list /\
    (forall w1,
       DenoiseAgent.process_file_try asctime subprocess_run me file_name w = (Ok tt, w1) ->
       firstn n (item_commands file_name) = item_commands file_name).
Proof.
  unfold DenoiseAgent.process_file, try_finally, try_except.
  destruct (DenoiseAgent.process_file_try asctime subprocess_run me file_name w)
    as [[[]|e] w1] eqn:Htry;
    destruct (issues_process_file_try file_name _ _ _ Htry) as (n & Hn & Hall).
  - destruct (DenoiseAgent.cleanup me file_name w1) as [[u|e] w2] eqn:Hc;
      apply cleanup_keeps_trace in Hc; exists n; cbn [snd]; unfold commands in *;
      rewrite Hc; split; auto; intros w0 _; apply (Hall tt eq_refl).
  - destruct (List.find _ _) as [h|] eqn:Hfind.
    + assert (Hh : forall r w2, snd h e w1 = (r, w2) -> trace w2 = trace w1).
      { apply find_some in Hfind as [Hin _].
        destruct Hin as [<-|[<-|[<-|[]]]]; cbn [snd]; intros r w2;
          apply on_error_keeps_trace. }
      destruct (snd h e w1) as [rh w2]. pose proof (Hh rh w2 eq_refl) as Hrun.
      destruct (DenoiseAgent.cleanup me file_name w2) as [[u|e'] w3] eqn:Hc;
        apply cleanup_keeps_trace in Hc; exists n; cbn [snd]; unfold commands in *;
        rewrite Hc, Hrun; split; auto; discriminate.
    + destruct (DenoiseAgent.cleanup me file_name w1) as [[u|e'] w2] eqn:Hc;
        apply cleanup_keeps_trace in Hc; exists n; cbn [snd]; unfold commands in *;
        rewrite Hc; split; auto; discriminate.
Qed.

End DenoiseCommands.

(** X21: processing one item of the denoising stage runs a prefix of its
    three commands, in this order: the extraction of the audio, the noise
    reduction, and the rebuilding of the video. The noise reduction is
    never run without the extraction before it, nor the rebuilding without
    the two others; all three have been run when the [try] block ends
    normally; and neither the [except] clauses nor the [finally] clause run
    any command. *)
Theorem denoise_runs_commands_in_order asctime subprocess_run me file_name w :
  exists n,
    commands (snd (DenoiseAgent.process_file asctime subprocess_run me file_name w))
    = (commands w ++ map EvRun (firstn n (item_commands me file_name)))%list /\
    (forall w1,
       DenoiseAgent.process_file_try asctime subprocess_run me file_name w = (Ok tt, w1) ->
       firstn n (item_commands me file_name) = item_commands me file_name).
Proof. apply process_file_commands. Qed.

Lemma denoise_runs_commands_in_order_witness :
  exists n,
    commands (snd (DenoiseAgent.process_file example_clock (ffmpeg_failing_on "raw/b.mp4")
                     example_denoiser "a.mp4" two_videos))
    = map EvRun (firstn n (item_commands example_denoiser "a.mp4")) /\
    firstn n (item_commands example_denoiser "a.mp4") = item_commands example_denoiser "a.mp4".
Proof.
  destruct (denoise_runs_commands_in_order example_clock (ffmpeg_failing_on "raw/b.mp4")
              example_denoiser "a.mp4" two_videos) as (n & Hn & Hall).
  exists n. split; [exact Hn|].
  apply (Hall (snd (DenoiseAgent.process_file_try example_clock
                      (ffmpeg_failing_on "raw/b.mp4") example_denoiser "a.mp4" two_videos))).
  vm_compute. reflexivity.
Defined.

(** * Failure isolation in every stage *)

(** ** The transcriber in the shape shared by the stages *)

Section TranscriberRuns.

Variable asctime : world -> string.
Variable listdir : string -> world -> result (list string).
Variable transcribe : string -> world -> result (list (float * float * string)).
Variable me : TranscriberAgent.self.

(** The speech recogniser fails with errors, not with interpreter exits. *)
Hypothesis transcribe_errors : forall p w, pure_ok (transcribe p w).




End TranscriberRuns.

(** ** The six stages *)





(** ** Example runs *)






(** The paths of the files of a world, and those that hold a decision. *)
Definition files (w : world) : list string := map fst (map_to_list (fs w)).



